(** * DA_Dev1: the community portal's models, forms and authentication routes

    A shallow embedding of [models.py], [forms.py] and the authentication
    routes of [app.py].

    - Tables are lists of rows in insertion order; a row is a record whose
      fields carry the column names of [models.py].
    - Timestamps ([datetime]) are integers counting microseconds, the
      resolution of Python's [datetime] and [timedelta].
    - A [str] value is a [string] holding its UTF-8 encoding; its characters
      are the code points the encoding spells ([code_points]). Python's
      truth test on a string is non-emptiness.
    - The libraries the application calls (werkzeug's password hashing,
      python-slugify, the mail transport, the random source behind
      [secrets.choice]) are parameters of the model. *)

From Stdlib Require Import ZArith List String Ascii Bool Lia.
From Stdlib Require Decimal DecimalString DecimalPos DecimalZ.
Import ListNotations.

Local Open Scope string_scope.
Local Open Scope list_scope.
Local Open Scope Z_scope.

(** ** Python and SQL helpers *)

(** [bool(s)] for a string: [''] is false. *)
Definition str_truthy (s : string) : bool :=
  match s with
  | EmptyString => false
  | String _ _ => true
  end.

(** [bool(s)] for what [dict.get] returns: [None] and [''] are false. *)
Definition truthy (s : option string) : bool :=
  match s with
  | None => false
  | Some v => str_truthy v
  end.

(** The characters of a [str]: the code points of its UTF-8 encoding, a
    lead byte read with the continuation bytes that follow it (one for a
    lead byte from 192, two from 224, three from 240). A [str] is always
    well encoded; on other byte sequences the function still answers, with
    whatever the bytes spell. *)
Definition continuation (c : ascii) : N := N.land (N_of_ascii c) 63.

Fixpoint code_points (s : string) : list N :=
  match s with
  | EmptyString => []
  | String c1 r1 =>
      let b1 := N_of_ascii c1 in
      if (b1 <? 192)%N then b1 :: code_points r1
      else
        match r1 with
        | EmptyString => [b1]
        | String c2 r2 =>
            if (b1 <? 224)%N then
              ((b1 - 192) * 64 + continuation c2)%N :: code_points r2
            else
              match r2 with
              | EmptyString => [b1]
              | String c3 r3 =>
                  if (b1 <? 240)%N then
                    ((b1 - 224) * 4096 + continuation c2 * 64
                     + continuation c3)%N :: code_points r3
                  else
                    match r3 with
                    | EmptyString => [b1]
                    | String c4 r4 =>
                        ((b1 - 240) * 262144 + continuation c2 * 4096
                         + continuation c3 * 64 + continuation c4)%N
                        :: code_points r4
                    end
              end
        end
  end.

(** [len(s)] for a string: the number of its characters. *)
Definition len (s : string) : Z := Z.of_nat (List.length (code_points s)).

(** [c.isspace()], which is also what [str.strip()] removes: the ASCII
    white space with the separators U+001C to U+001F, then U+0085, U+00A0,
    U+1680, U+2000 to U+200A, U+2028, U+2029, U+202F, U+205F and U+3000. *)
Definition isspace (c : N) : bool :=
  ((9 <=? c) && (c <=? 13) || (28 <=? c) && (c <=? 32)
   || (c =? 133) || (c =? 160) || (c =? 5760)
   || (8192 <=? c) && (c <=? 8202)
   || (c =? 8232) || (c =? 8233) || (c =? 8239) || (c =? 8287)
   || (c =? 12288))%N.

(** SQL [x IS NULL] and [x IS NOT NULL] on a nullable column. *)
Definition is_null {A : Type} (x : option A) : bool :=
  match x with None => true | Some _ => false end.

Definition is_not_null {A : Type} (x : option A) : bool := negb (is_null x).

(** [timedelta(minutes=m)], in microseconds. *)
Definition timedelta_minutes (m : Z) : Z := m * 60 * 1000000.

(** The primary key SQLite gives to a new row of an [Integer] primary key
    column: one more than the largest key in the table. *)
Definition next_id (ids : list Z) : Z := 1 + fold_right Z.max 0 ids.

(** What the database answers to a write. *)
Inductive IntegrityError : Type :=
| CheckViolation (name : string)
| UniqueViolation (name : string).

Inductive result (A : Type) : Type :=
| Ok (a : A)
| Err (e : IntegrityError).

Arguments Ok {A} a.
Arguments Err {A} e.

(** ** models.py *)

Module User.
Record t : Type := mk {
  id : Z;
  username : string;
  email : string;
  password_hash : string;
  is_active : bool
}.

Definition with_id (i : Z) (u : t) : t :=
  mk i (username u) (email u) (password_hash u) (is_active u).

(** INSERT into [users]: [username] and [email] are declared
    [unique=True]. *)
Definition insert (table : list t) (u : t) : result (list t) :=
  if existsb (fun x => String.eqb (username x) (username u)) table then
    Err (UniqueViolation "users.username")
  else if existsb (fun x => String.eqb (email x) (email u)) table then
    Err (UniqueViolation "users.email")
  else Ok (table ++ [with_id (next_id (map id table)) u]).
End User.

Module PasswordReset.
Record t : Type := mk {
  id : Z;
  email : string;
  code : string;
  created_at : Z;
  used : bool
}.

Definition set_used (b : bool) (r : t) : t :=
  mk (id r) (email r) (code r) (created_at r) b.
End PasswordReset.

Module Channel.
Record t : Type := mk {
  id : Z;
  name : string;
  slug : string;
  owner_id : Z
}.

Definition with_id (i : Z) (c : t) : t :=
  mk i (name c) (slug c) (owner_id c).

(** INSERT into [channels]: [slug] is declared [unique=True]. *)
Definition insert (table : list t) (c : t) : result (list t) :=
  if existsb (fun x => String.eqb (slug x) (slug c)) table then
    Err (UniqueViolation "channels.slug")
  else Ok (table ++ [with_id (next_id (map id table)) c]).
End Channel.

Module Reaction.
Record t : Type := mk {
  id : Z;
  user_id : Z;
  post_id : option Z;
  comment_id : option Z;
  reaction_type : string;
  created_at : Z
}.

Definition with_id (i : Z) (r : t) : t :=
  mk i (user_id r) (post_id r) (comment_id r) (reaction_type r) (created_at r).

(** [CheckConstraint('(post_id IS NOT NULL AND comment_id IS NULL) OR
    (post_id IS NULL AND comment_id IS NOT NULL)',
    name='chk_reaction_target')] *)
Definition chk_reaction_target (r : t) : bool :=
  (is_not_null (post_id r) && is_null (comment_id r))
  || (is_null (post_id r) && is_not_null (comment_id r)).

(** Two values of a nullable key column collide only when both are set:
    SQL never takes two NULLs for equal in a UNIQUE constraint. *)
Definition same_target (a b : option Z) : bool :=
  match a, b with
  | Some x, Some y => Z.eqb x y
  | _, _ => false
  end.

(** [UniqueConstraint('user_id', 'post_id', name='uix_user_post_reaction')]:
    does [r] collide with the stored row [x]? *)
Definition uix_user_post_reaction (r x : t) : bool :=
  Z.eqb (user_id r) (user_id x) && same_target (post_id r) (post_id x).

(** [UniqueConstraint('user_id', 'comment_id',
    name='uix_user_comment_reaction')] *)
Definition uix_user_comment_reaction (r x : t) : bool :=
  Z.eqb (user_id r) (user_id x) && same_target (comment_id r) (comment_id x).

(** The [__table_args__] of the table, checked for the row [r] against
    the rows [others] it will live with. *)
Definition check_constraints (others : list t) (r : t) : option IntegrityError :=
  if negb (chk_reaction_target r) then
    Some (CheckViolation "chk_reaction_target")
  else if existsb (uix_user_post_reaction r) others then
    Some (UniqueViolation "uix_user_post_reaction")
  else if existsb (uix_user_comment_reaction r) others then
    Some (UniqueViolation "uix_user_comment_reaction")
  else None.

(** INSERT: the key [id r] of the argument is ignored, the database
    assigns the next one. *)
Definition insert (table : list t) (r : t) : result (list t) :=
  match check_constraints table r with
  | Some e => Err e
  | None => Ok (table ++ [with_id (next_id (map id table)) r])
  end.

(** UPDATE of the row whose key is [i] with the columns of [r]; the
    constraints are checked against the other rows. *)
Definition update (table : list t) (i : Z) (r : t) : result (list t) :=
  match check_constraints (filter (fun x => negb (Z.eqb (id x) i)) table) r with
  | Some e => Err e
  | None =>
      Ok (map (fun x => if Z.eqb (id x) i then with_id i r else x) table)
  end.

(** DELETE of the row whose key is [i]. *)
Definition delete (table : list t) (i : Z) : list t :=
  filter (fun x => negb (Z.eqb (id x) i)) table.

(** The states of the table: it is created empty by [db.create_all()] and
    changes by the three statements above. *)
Inductive reachable : list t -> Prop :=
| reach_create : reachable []
| reach_insert table r table' :
    reachable table -> insert table r = Ok table' -> reachable table'
| reach_update table i r table' :
    reachable table -> update table i r = Ok table' -> reachable table'
| reach_delete table i :
    reachable table -> reachable (delete table i).

(** Exactly one of the two targets is set. *)
Definition exactly_one_target (r : t) : Prop :=
  (post_id r <> None /\ comment_id r = None)
  \/ (post_id r = None /\ comment_id r <> None).
End Reaction.

Module PollOption.
Record t : Type := mk {
  id : Z;
  post_id : Z;
  text : string;
  position : Z
}.
End PollOption.

Module PollVote.
Record t : Type := mk {
  id : Z;
  user_id : Z;
  option_id : Z;
  created_at : Z
}.

Definition with_id (i : Z) (v : t) : t :=
  mk i (user_id v) (option_id v) (created_at v).

(** [UniqueConstraint('user_id', 'option_id', name='uix_user_option_vote')]:
    does [v] collide with the stored row [x]? *)
Definition uix_user_option_vote (v x : t) : bool :=
  Z.eqb (user_id v) (user_id x) && Z.eqb (option_id v) (option_id x).

(** INSERT into [poll_votes]; foreign keys are not enforced by the default
    SQLite engine and are not checked here. *)
Definition insert (table : list t) (v : t) : result (list t) :=
  if existsb (uix_user_option_vote v) table then
    Err (UniqueViolation "uix_user_option_vote")
  else Ok (table ++ [with_id (next_id (map id table)) v]).

(** DELETE of the row whose key is [i]. *)
Definition delete (table : list t) (i : Z) : list t :=
  filter (fun x => negb (Z.eqb (id x) i)) table.

(** The states of [poll_votes]: created empty, changed by INSERT and
    DELETE. *)
Inductive reachable : list t -> Prop :=
| reach_create : reachable []
| reach_insert table v table' :
    reachable table -> insert table v = Ok table' -> reachable table'
| reach_delete table i :
    reachable table -> reachable (delete table i).
End PollVote.

(** The relationships of [models.py] and the counts read through them. *)
Module Relationship.

(** [Post.reactions]: the reactions whose [post_id] is the post's key;
    [Post.reaction_count] is [len(self.reactions)]. *)
Definition Post_reactions (reactions : list Reaction.t) (post : Z)
  : list Reaction.t :=
  filter (fun r => Reaction.same_target (Reaction.post_id r) (Some post))
    reactions.

Definition Post_reaction_count (reactions : list Reaction.t) (post : Z) : nat :=
  List.length (Post_reactions reactions post).

(** [Comment.reactions] and [Comment.reaction_count]. *)
Definition Comment_reactions (reactions : list Reaction.t) (comment : Z)
  : list Reaction.t :=
  filter (fun r => Reaction.same_target (Reaction.comment_id r) (Some comment))
    reactions.

Definition Comment_reaction_count (reactions : list Reaction.t) (comment : Z)
  : nat :=
  List.length (Comment_reactions reactions comment).

(** [PollOption.votes] and [PollOption.vote_count]. *)
Definition PollOption_votes (votes : list PollVote.t) (o : PollOption.t)
  : list PollVote.t :=
  filter (fun v => Z.eqb (PollVote.option_id v) (PollOption.id o)) votes.

Definition PollOption_vote_count (votes : list PollVote.t) (o : PollOption.t)
  : nat :=
  List.length (PollOption_votes votes o).

End Relationship.

Module SystemSettings.
Record t : Type := mk {
  id : Z;
  accessibility_menu_enabled : bool;
  maintenance_mode : bool;
  registration_enabled : bool;
  last_updated : Z
}.

(** [SystemSettings()] as the INSERT stores it at time [now]: the column
    defaults and the next key. *)
Definition new (table : list t) (now : Z) : t :=
  mk (next_id (map id table)) false false true now.

(** [SystemSettings.get_settings()]: the first row, or a new row of
    defaults added and committed. [None] stands for the exception of a
    failed commit, which the method does not catch. *)
Definition get_settings (now : Z) (commit_ok : bool) (table : list t)
  : option (t * list t) :=
  match table with
  | settings :: _ => Some (settings, table)
  | [] =>
      let settings := new table now in
      if commit_ok then Some (settings, table ++ [settings]) else None
  end.
End SystemSettings.

(** ** forms.py *)

Module Forms.

(** What a wtforms validator does with a field: return, raise
    [ValidationError(message)] (the chain goes on), or raise
    [StopValidation(message)] (the chain ends; [DataRequired] and [Optional]
    empty the field's error list before they raise). *)
Inductive outcome : Type :=
| Pass
| ValidationError (message : string)
| StopValidation (message : option string).

(** [Field._run_validation_chain]: the errors a field ends with. *)
Fixpoint run_validation_chain {D : Type} (validators : list (D -> outcome))
  (data : D) (errors : list string) : list string :=
  match validators with
  | [] => errors
  | v :: rest =>
      match v data with
      | Pass => run_validation_chain rest data errors
      | ValidationError m => run_validation_chain rest data (errors ++ [m])
      | StopValidation (Some m) => [m]
      | StopValidation None => []
      end
  end.

(** [bool(s.strip())]: some character of [s] is not white space. *)
Definition strip_truthy (s : string) : bool :=
  existsb (fun c => negb (isspace c)) (code_points s).

(** [DataRequired(message)] on a string field. *)
Definition DataRequired (message : option string) (data : string) : outcome :=
  if strip_truthy data then Pass
  else StopValidation
         (Some match message with
               | Some m => m
               | None => "This field is required."
               end).

(** [DataRequired(message)] on a [BooleanField]. *)
Definition DataRequired_bool (message : option string) (data : bool) : outcome :=
  if data then Pass
  else StopValidation
         (Some match message with
               | Some m => m
               | None => "This field is required."
               end).

(** [Length(min, max, message)]; [max = -1] is no upper bound. *)
Definition Length (min max : Z) (message : option string) (data : string) : outcome :=
  let length := len data in
  if (min <=? length) && ((max =? -1) || (length <=? max)) then Pass
  else ValidationError
         match message with
         | Some m => m
         | None => "Invalid length."
         end.

(** [Optional()]: a blank field ends the chain without an error. *)
Definition Optional (data : string) : outcome :=
  if strip_truthy data then Pass else StopValidation None.

Section WithLibraries.

(** [email_validator.validate_email], behind wtforms' [Email()]. *)
Variable validate_email : string -> bool.

(** [slugify.slugify]. *)
Variable slugify : string -> string.

Definition Email (data : string) : outcome :=
  if validate_email data then Pass else ValidationError "Invalid email address.".

(** *** RegistrationForm *)

Record RegistrationFormData : Type := mkRegistrationFormData {
  reg_username : string;
  reg_email : string;
  reg_password : string;
  reg_referral_code : string;
  reg_terms : bool
}.

Definition RegistrationForm_username : list (string -> outcome) :=
  [ DataRequired None;
    Length 3 (-1) (Some "Username must be at least 3 characters long") ].

Definition RegistrationForm_email : list (string -> outcome) :=
  [ DataRequired None; Email ].

Definition RegistrationForm_password : list (string -> outcome) :=
  [ DataRequired None;
    Length 8 (-1) (Some "Password must be at least 8 characters long") ].

Definition RegistrationForm_referral_code : list (string -> outcome) :=
  [ Optional ].

Definition RegistrationForm_terms : list (bool -> outcome) :=
  [ DataRequired_bool (Some "You must accept the terms") ].

(** [form.errors]: the fields that failed, each with its messages. *)
Definition RegistrationForm_errors (d : RegistrationFormData)
  : list (string * list string) :=
  filter (fun fe => match snd fe with [] => false | _ => true end)
    [ ("username", run_validation_chain RegistrationForm_username (reg_username d) []);
      ("email", run_validation_chain RegistrationForm_email (reg_email d) []);
      ("password", run_validation_chain RegistrationForm_password (reg_password d) []);
      ("referral_code",
        run_validation_chain RegistrationForm_referral_code (reg_referral_code d) []);
      ("terms", run_validation_chain RegistrationForm_terms (reg_terms d) []) ].

(** [RegistrationForm.validate()], the CSRF token apart. *)
Definition RegistrationForm_validate (d : RegistrationFormData) : bool :=
  match RegistrationForm_errors d with [] => true | _ => false end.

(** *** ChannelForm *)

(** [Channel.query.filter_by(slug=slug).first()] *)
Definition Channel_filter_by_slug (channels : list Channel.t) (slug : string)
  : option Channel.t :=
  find (fun c => String.eqb (Channel.slug c) slug) channels.

(** [ChannelForm.validate_name]: [None] when the method returns, the
    message of the [ValidationError] when it raises. *)
Definition validate_name (channels : list Channel.t) (field_data : string)
  : option string :=
  let slug := slugify field_data in
  let existing := Channel_filter_by_slug channels slug in
  match existing with
  | Some _ => Some "A channel with this name already exists."
  | None => None
  end.

End WithLibraries.

(** *** PointsAllocationForm *)

(** [DataRequired()] on an [IntegerField]: the field's data is the integer
    it parsed, [None] when the input is missing or is no integer; [None]
    and [0] are false for Python. *)
Definition DataRequired_int (message : option string) (data : option Z)
  : outcome :=
  match data with
  | Some (Zpos _) | Some (Zneg _) => Pass
  | Some Z0 | None =>
      StopValidation
        (Some match message with
              | Some m => m
              | None => "This field is required."
              end)
  end.

Record PointsAllocationFormData : Type := mkPointsAllocationFormData {
  points_username : string;
  points_amount : option Z;
  points_reason : string
}.

Definition PointsAllocationForm_errors (d : PointsAllocationFormData)
  : list (string * list string) :=
  filter (fun fe => match snd fe with [] => false | _ => true end)
    [ ("username", run_validation_chain [DataRequired None] (points_username d) []);
      ("amount", run_validation_chain [DataRequired_int None] (points_amount d) []);
      ("reason", run_validation_chain [DataRequired None] (points_reason d) []) ].

(** [PointsAllocationForm.validate()], the CSRF token apart. *)
Definition PointsAllocationForm_validate (d : PointsAllocationFormData) : bool :=
  match PointsAllocationForm_errors d with [] => true | _ => false end.

(** *** ChannelForm: the name field *)

Section ChannelName.

Variable slugify : string -> string.

(** The inline validator [validate_name] as a member of the chain: wtforms
    runs it after the validators listed with the field. *)
Definition inline_validate_name (channels : list Channel.t) (data : string)
  : outcome :=
  match validate_name slugify channels data with
  | Some message => ValidationError message
  | None => Pass
  end.

(** The errors of [ChannelForm.name]: [DataRequired()],
    [Length(min=3, max=100)] with the message wtforms gives a two-sided
    bound, then [validate_name]. *)
Definition ChannelForm_name_errors (channels : list Channel.t) (data : string)
  : list string :=
  run_validation_chain
    [ DataRequired None;
      Length 3 100 (Some "Field must be between 3 and 100 characters long.");
      inline_validate_name channels ]
    data [].

End ChannelName.

End Forms.

(** ** app.py *)

Module App.

(** *** Requests, responses and the world a handler runs in *)

Inductive Method : Type := GET | POST.

(** A request to a route registered for GET and POST: its method, whether
    the CSRF token of the submitted [FlaskForm] is valid, and the form
    fields in the order they were sent. *)
Record Request : Type := mkRequest {
  method : Method;
  csrf_valid : bool;
  form : list (string * string)
}.

(** [request.form.get(key)]: the first value sent for [key]. *)
Fixpoint form_get (f : list (string * string)) (key : string) : option string :=
  match f with
  | [] => None
  | (k, v) :: rest => if String.eqb k key then Some v else form_get rest key
  end.

(** [request.form.get(key, default)] *)
Definition form_get_default (f : list (string * string)) (key default : string)
  : string :=
  match form_get f key with
  | Some v => v
  | None => default
  end.

(** The value of a field that passes Python's truth test, [None] for a
    missing or empty one. *)
Definition required (v : option string) : option string :=
  if truthy v then v else None.

(** [FlaskForm().validate_on_submit()]: submitted by POST and the CSRF
    token is valid; the bare [FlaskForm] has no other field. *)
Definition validate_on_submit (req : Request) : bool :=
  match method req with
  | POST => csrf_valid req
  | GET => false
  end.

Inductive Body : Type :=
| render_template (template : string)
| redirect (endpoint : string).

(** A response with the messages [flash] queued while it was built. *)
Record Response : Type := mkResponse {
  flashed : list string;
  body : Body
}.

(** A message of flask_mail. *)
Record Message : Type := mkMessage {
  subject : string;
  recipients : list string;
  msg_body : string
}.

Record Db : Type := mkDb {
  users : list User.t;
  password_resets : list PasswordReset.t
}.

(** The signed session cookie: the key flask-login keeps the user's id
    under, and the e-mail address awaiting verification. *)
Record Session : Type := mkSession {
  session_user_id : option Z;
  login_email : option string
}.

(** Committed database, the client's session, and the messages the mail
    server has accepted. *)
Record World : Type := mkWorld {
  db : Db;
  session : Session;
  outbox : list Message
}.

(** What a request does not decide: the clock, the random source, the salt
    werkzeug draws, and whether the database commit and the mail transport
    succeed. *)
Record Env : Type := mkEnv {
  utcnow : Z;
  random : nat -> nat;
  salt : string;
  commit_ok : bool;
  mail_ok : bool
}.

Definition set_db (w : World) (d : Db) : World :=
  mkWorld d (session w) (outbox w).

Definition set_session (w : World) (s : Session) : World :=
  mkWorld (db w) s (outbox w).

(** *** Queries *)

(** [User.query.get(int(user_id))] *)
Definition load_user (d : Db) (user_id : Z) : option User.t :=
  find (fun u => Z.eqb (User.id u) user_id) (users d).

(** [User.query.filter_by(email=email).first()] *)
Definition User_filter_by_email (d : Db) (email : string) : option User.t :=
  find (fun u => String.eqb (User.email u) email) (users d).

(** [User.query.filter_by(username=username).first()] *)
Definition User_filter_by_username (d : Db) (username : string) : option User.t :=
  find (fun u => String.eqb (User.username u) username) (users d).

(** The row filter [filter_by(email=email, code=code, used=False)]. *)
Definition reset_matches (email code : string) (r : PasswordReset.t) : bool :=
  String.eqb (PasswordReset.email r) email
  && String.eqb (PasswordReset.code r) code
  && negb (PasswordReset.used r).

(** [.order_by(PasswordReset.created_at.desc()).first()]: a row with the
    greatest [created_at]; among equal timestamps the one stored first. *)
Fixpoint order_by_created_at_desc_first (rows : list PasswordReset.t)
  : option PasswordReset.t :=
  match rows with
  | [] => None
  | r :: rest =>
      match order_by_created_at_desc_first rest with
      | None => Some r
      | Some r' =>
          if PasswordReset.created_at r <? PasswordReset.created_at r'
          then Some r' else Some r
      end
  end.

(** The query of [verify_login]. *)
Definition PasswordReset_query (d : Db) (email code : string)
  : option PasswordReset.t :=
  order_by_created_at_desc_first
    (filter (reset_matches email code) (password_resets d)).

(** *** flask-login *)

(** [current_user]: the user [load_user] finds for the id in the session. *)
Definition current_user (w : World) : option User.t :=
  match session_user_id (session w) with
  | Some i => load_user (db w) i
  | None => None
  end.

(** [current_user.is_authenticated]: [UserMixin] answers with [is_active],
    which [User] defines as a column; the anonymous user answers false. *)
Definition is_authenticated (w : World) : bool :=
  match current_user w with
  | Some u => User.is_active u
  | None => false
  end.

(** [login_user(user)]: stores the user's id in the session, unless the
    account is inactive (the handlers ignore the returned flag). *)
Definition login_user (u : User.t) (w : World) : World :=
  if User.is_active u
  then set_session w (mkSession (Some (User.id u)) (login_email (session w)))
  else w.

(** [logout_user()] *)
Definition logout_user (w : World) : World :=
  set_session w (mkSession None (login_email (session w))).

(** *** Verification codes *)

(** [secrets.choice(seq)] at the [k]-th draw of the request. *)
Definition secrets_choice (env : Env) (k : nat) (seq : string) : ascii :=
  match String.get (Nat.modulo (random env k) (String.length seq)) seq with
  | Some c => c
  | None => "0"%char
  end.

(** [''.join(secrets.choice('0123456789') for _ in range(6))] *)
Definition generate_code (env : Env) : string :=
  string_of_list_ascii
    (map (fun k => secrets_choice env k "0123456789") (seq 0 6)).

Definition newline : string := String (ascii_of_nat 10) EmptyString.

(** The message with the code of a login: subject, recipient and the body
    [send_verification_code] writes. *)
Definition verification_message (email code : string) : Message :=
  mkMessage "Your Login Code" [email]
    ("Your login code is: " ++ code ++ newline ++ newline
     ++ "This code will expire in 30 minutes." ++ newline)%string.

(** The classes the module binds the name [Message] to, in the order of its
    import statements: [from flask_mail import Mail, Message] (line 12),
    then [from models import ..., Message, ...] (line 112, at module level:
    a [with] block opens no scope). *)
Inductive MessageClass : Type :=
| flask_mail_Message
| models_Message.

Definition Message_bindings : list MessageClass :=
  [flask_mail_Message; models_Message].

(** The class a function of the module finds under the name [Message] when
    it is called: the last binding. *)
Definition Message_class : MessageClass :=
  last Message_bindings flask_mail_Message.

(** The mapped attributes of [models.Message]. *)
Definition models_Message_attributes : list string :=
  ["id"; "content"; "sender_id"; "recipient_id"; "created_at"].

(** The call [Message(subject, sender=..., recipients=[email])], with its
    positional arguments, the names of its keyword arguments and the value
    of [recipients]. flask_mail's class takes the subject first and builds
    the message. The constructor of a [db.Model] takes no positional
    argument, and keyword arguments only if they name attributes of the
    model: [None] stands for the [TypeError] it raises. *)
Definition Message_call (cls : MessageClass) (positional keywords : list string)
  (recipients : list string) : option Message :=
  match cls, positional with
  | flask_mail_Message, [subject] => Some (mkMessage subject recipients "")
  | flask_mail_Message, _ => None
  | models_Message, [] =>
      if forallb (fun k => existsb (String.eqb k) models_Message_attributes)
           keywords
      then Some (mkMessage "" [] "")
      else None
  | models_Message, _ :: _ => None
  end.

(** [send_verification_code(email, code)]: true when the message was built
    and the mail server took it, false when any of the steps raised (the
    function catches every exception). *)
Definition send_verification_code (env : Env) (email code : string) (w : World)
  : World * bool :=
  match Message_call Message_class ["Your Login Code"] ["sender"; "recipients"]
          [email] with
  | Some msg =>
      let msg :=
        mkMessage (subject msg) (recipients msg)
          ("Your login code is: " ++ code ++ newline ++ newline
           ++ "This code will expire in 30 minutes." ++ newline)%string in
      if mail_ok env
      then (mkWorld (db w) (session w) (outbox w ++ [msg]), true)
      else (w, false)
  | None => (w, false)
  end.

(** [db.session.add(PasswordReset(email=email, code=code))] followed by the
    commit: the column defaults give [created_at] and [used]. *)
Definition add_password_reset (env : Env) (email code : string) (d : Db) : Db :=
  mkDb (users d)
    (password_resets d
     ++ [PasswordReset.mk (next_id (map PasswordReset.id (password_resets d)))
           email code (utcnow env) false]).

(** [reset.used = True] followed by the commit: the UPDATE of the row whose
    primary key is [id]. *)
Definition mark_used (id : Z) (d : Db) : Db :=
  mkDb (users d)
    (map (fun r => if Z.eqb (PasswordReset.id r) id
                   then PasswordReset.set_used true r else r)
       (password_resets d)).

(** [db.session.add(User(email=..., username=..., password_hash=...))]
    followed by the commit; [is_active] takes its default. *)
Definition new_user (d : Db) (email username password_hash : string) : User.t :=
  User.mk (next_id (map User.id (users d))) username email password_hash true.

Definition add_user (u : User.t) (d : Db) : Db :=
  mkDb (users d ++ [u]) (password_resets d).

(** *** werkzeug.security *)

(** [generate_password_hash] with the salt it draws made explicit, and
    [check_password_hash pwhash password]. *)
Class Werkzeug : Type := {
  generate_password_hash : string -> string -> string;
  check_password_hash : string -> string -> bool
}.

(** *** Routes *)

Definition respond (w : World) (messages : list string) (b : Body)
  : World * Response :=
  (w, mkResponse messages b).

Section Routes.

Context {werkzeug : Werkzeug}.

(** [/login] *)
Definition login (env : Env) (req : Request) (w : World) : World * Response :=
  if is_authenticated w then respond w [] (redirect "dashboard")
  else
    match method req with
    | GET => respond w [] (render_template "login.html")
    | POST =>
        if negb (validate_on_submit req) then
          respond w ["Invalid form submission"] (render_template "login.html")
        else
          let password := form_get (form req) "password" in
          let login_type := form_get_default (form req) "login_type" "password" in
          match required (form_get (form req) "email") with
          | None => respond w ["Email is required"] (render_template "login.html")
          | Some email =>
              match User_filter_by_email (db w) email with
              | None =>
                  respond w ["No account found with this email address"]
                    (render_template "login.html")
              | Some user =>
                  if String.eqb login_type "password" then
                    match required password with
                    | None =>
                        respond w ["Password is required"]
                          (render_template "login.html")
                    | Some password =>
                        if negb (str_truthy (User.password_hash user)) then
                          respond w
                            ["Please use passwordless login or reset your password"]
                            (render_template "login.html")
                        else if negb (check_password_hash
                                        (User.password_hash user) password) then
                          respond w ["Invalid password"]
                            (render_template "login.html")
                        else
                          respond (login_user user w) [] (redirect "dashboard")
                    end
                  else
                    (* Passwordless login *)
                    let code := generate_code env in
                    if commit_ok env then
                      let w1 := set_db w (add_password_reset env email code (db w)) in
                      match send_verification_code env email code w1 with
                      | (w2, true) =>
                          respond
                            (set_session w2
                               (mkSession (session_user_id (session w2))
                                  (Some email)))
                            ["A verification code has been sent to your email"]
                            (redirect "verify_login")
                      | (w2, false) =>
                          respond w2 ["Error sending verification code"]
                            (render_template "login.html")
                      end
                    else
                      (* the commit raised: rollback *)
                      respond w ["Error processing login"]
                        (render_template "login.html")
              end
          end
    end.

(** [/verify_login] *)
Definition verify_login (env : Env) (req : Request) (w : World)
  : World * Response :=
  if is_authenticated w then respond w [] (redirect "dashboard")
  else
    match required (login_email (session w)) with
    | None =>
        respond w ["Please start the login process again"] (redirect "login")
    | Some email =>
        match method req with
        | GET => respond w [] (render_template "verify_login.html")
        | POST =>
            if negb (validate_on_submit req) then
              respond w ["Invalid form submission"]
                (render_template "verify_login.html")
            else
              match required (form_get (form req) "code") with
              | None =>
                  respond w ["Verification code is required"]
                    (render_template "verify_login.html")
              | Some code =>
                  match PasswordReset_query (db w) email code with
                  | None =>
                      respond w ["Invalid or expired verification code"]
                        (render_template "verify_login.html")
                  | Some reset =>
                      if utcnow env - PasswordReset.created_at reset
                         >? timedelta_minutes 30 then
                        respond w ["Invalid or expired verification code"]
                          (render_template "verify_login.html")
                      else
                        match User_filter_by_email (db w) email with
                        | Some user =>
                            let w1 := login_user user w in
                            if commit_ok env then
                              respond
                                (mkWorld
                                   (mark_used (PasswordReset.id reset) (db w1))
                                   (mkSession (session_user_id (session w1)) None)
                                   (outbox w1))
                                [] (redirect "dashboard")
                            else
                              (* the commit raised: rollback *)
                              respond w1 ["Error processing verification"]
                                (render_template "verify_login.html")
                        | None =>
                            (* [reset.used = True] is never committed *)
                            respond w ["User not found"] (redirect "login")
                        end
                  end
              end
        end
    end.

(** [/logout] *)
Definition logout (w : World) : World * Response :=
  respond (logout_user w) [] (redirect "login").

(** [/register] *)
Definition register (env : Env) (req : Request) (w : World) : World * Response :=
  if is_authenticated w then respond w [] (redirect "dashboard")
  else
    match method req with
    | GET => respond w [] (render_template "register.html")
    | POST =>
        if negb (validate_on_submit req) then
          respond w ["Invalid form submission"] (render_template "register.html")
        else
          match required (form_get (form req) "email"),
                required (form_get (form req) "username"),
                required (form_get (form req) "password") with
          | Some email, Some username, Some password =>
              if is_not_null (User_filter_by_email (db w) email) then
                respond w ["Email already registered"]
                  (render_template "register.html")
              else if is_not_null (User_filter_by_username (db w) username) then
                respond w ["Username already taken"]
                  (render_template "register.html")
              else if commit_ok env then
                let user :=
                  new_user (db w) email username
                    (generate_password_hash (salt env) password) in
                respond (login_user user (set_db w (add_user user (db w))))
                  [] (redirect "dashboard")
              else
                (* the commit raised: rollback *)
                respond w ["Error creating account"]
                  (render_template "register.html")
          | _, _, _ =>
              respond w ["All fields are required"]
                (render_template "register.html")
          end
    end.

End Routes.

(** *** Vocabulary of the statements *)

(** No user id is stored in the session. *)
Definition anonymous (w : World) : Prop :=
  session_user_id (session w) = None.

(** A POST whose form passes [validate_on_submit]. *)
Definition submitted (req : Request) : Prop :=
  method req = POST /\ csrf_valid req = true.

(** The form carries the non-empty [value] for [key]. *)
Definition field (req : Request) (key value : string) : Prop :=
  form_get (form req) key = Some value /\ value <> "".

(** An anonymous session that went through [/login] for [email]. *)
Definition awaiting (w : World) (email : string) : Prop :=
  anonymous w /\ login_email (session w) = Some email /\ email <> "".

(** The session is logged in as [u]. *)
Definition logged_in_as (w : World) (u : User.t) : Prop :=
  session_user_id (session w) = Some (User.id u).

(** [r] was issued at most 30 minutes before the clock of [env]. *)
Definition within_30_minutes (env : Env) (r : PasswordReset.t) : Prop :=
  utcnow env - PasswordReset.created_at r <= timedelta_minutes 30.

(** Some unused row of [email] carries [code] and is at most 30 minutes
    old. *)
Definition usable_code (env : Env) (d : Db) (email code : string) : Prop :=
  exists r, In r (password_resets d)
            /\ PasswordReset.email r = email
            /\ PasswordReset.code r = code
            /\ PasswordReset.used r = false
            /\ within_30_minutes env r.

(** The acceptance rule in the words of the specification: the submitted
    code is the code of the most recent unused row of that e-mail address,
    and that row is at most 30 minutes old. *)
Definition most_recent_unused (d : Db) (email : string) : option PasswordReset.t :=
  order_by_created_at_desc_first
    (filter (fun r => String.eqb (PasswordReset.email r) email
                      && negb (PasswordReset.used r))
       (password_resets d)).

Definition spec_accepts (env : Env) (d : Db) (email code : string) : Prop :=
  exists r, most_recent_unused d email = Some r
            /\ PasswordReset.code r = code
            /\ within_30_minutes env r.

(** The condition in the words of the specification: the account found for
    [email] has a password hash, and the hash verifies against
    [password]. *)
Definition password_verifies {werkzeug : Werkzeug} (d : Db)
  (email password : string) : Prop :=
  exists u, User_filter_by_email d email = Some u
            /\ User.password_hash u <> ""
            /\ check_password_hash (User.password_hash u) password = true.

(** [u] is a row of [users] registered under [email]. *)
Definition account_of (d : Db) (email : string) (u : User.t) : Prop :=
  In u (users d) /\ User.email u = email.

(** [u] has a stored password hash, and it verifies against [password]. *)
Definition hash_verifies {werkzeug : Werkzeug} (u : User.t) (password : string)
  : Prop :=
  User.password_hash u <> ""
  /\ check_password_hash (User.password_hash u) password = true.

(** A decimal digit. *)
Definition is_digit (c : ascii) : bool :=
  let n := nat_of_ascii c in ((48 <=? n) && (n <=? 57))%nat.


(** *** The routes as a transition system *)

(** [/] *)
Definition index (w : World) : World * Response :=
  if is_authenticated w then respond w [] (redirect "dashboard")
  else respond w [] (redirect "login").

(** One request served: any of the routes above, with any request and any
    environment; or a browser that arrives without a session cookie. *)
Inductive step {werkzeug : Werkzeug} : World -> World -> Prop :=
| step_login env req w : step w (fst (login env req w))
| step_verify_login env req w : step w (fst (verify_login env req w))
| step_register env req w : step w (fst (register env req w))
| step_logout w : step w (fst (logout w))
| step_index w : step w (fst (index w))
| step_new_client w : step w (set_session w (mkSession None None)).

(** The application starts on the empty tables [db.create_all()] makes. *)
Definition initial : World :=
  mkWorld (mkDb [] []) (mkSession None None) [].

Inductive reachable {werkzeug : Werkzeug} : World -> Prop :=
| reach_initial : reachable initial
| reach_step w w' : reachable w -> step w w' -> reachable w'.

(** Primary keys, e-mail addresses and usernames are pairwise distinct. *)
Definition keys_distinct (d : Db) : Prop :=
  NoDup (map User.id (users d))
  /\ NoDup (map User.email (users d))
  /\ NoDup (map User.username (users d))
  /\ NoDup (map PasswordReset.id (password_resets d)).

Definition accounts_active (d : Db) : Prop :=
  forall u, In u (users d) -> User.is_active u = true.

(** Every stored code is six decimal digits issued to the address of an
    account. *)
Definition codes_well_formed (d : Db) : Prop :=
  forall r, In r (password_resets d) ->
            String.length (PasswordReset.code r) = 6%nat
            /\ Forall (fun c => is_digit c = true)
                 (list_ascii_of_string (PasswordReset.code r))
            /\ exists u, In u (users d)
                         /\ User.email u = PasswordReset.email r.

(** Every message the mail server took is the message of a stored row. *)
Definition outbox_matches (w : World) : Prop :=
  forall m, In m (outbox w) ->
            exists r, In r (password_resets (db w))
                      /\ m = verification_message (PasswordReset.email r)
                               (PasswordReset.code r).

(** The user id of the session, if any, is the key of an account. *)
Definition session_valid (w : World) : Prop :=
  forall i, session_user_id (session w) = Some i ->
            exists u, In u (users (db w)) /\ User.id u = i.

Definition consistent (w : World) : Prop :=
  keys_distinct (db w)
  /\ accounts_active (db w)
  /\ codes_well_formed (db w)
  /\ outbox_matches w
  /\ session_valid w.

(** The number of codes of the table that are still unused. *)
Definition unused_count (d : Db) : nat :=
  List.length (filter (fun r => negb (PasswordReset.used r)) (password_resets d)).


(** *** Printing integers *)

(** [str(n)] for an integer. *)
Definition str_of_int (n : Z) : string :=
  DecimalString.NilZero.string_of_int (Z.to_int n).

(** The [,] of the format specification, on the digits from the right:
    a comma after every third digit that is followed by another one. *)
Fixpoint group_thousands_rev (digits : list ascii) : list ascii :=
  match digits with
  | a :: b :: c :: ((_ :: _) as rest) =>
      a :: b :: c :: ","%char :: group_thousands_rev rest
  | _ => digits
  end.

Definition group_thousands (digits : string) : string :=
  string_of_list_ascii
    (rev (group_thousands_rev (rev (list_ascii_of_string digits)))).

(** ["{:,}".format(n)] for an integer: the sign, then the grouped digits. *)
Definition format_comma (n : Z) : string :=
  match n with
  | Zneg p => String "-" (group_thousands (str_of_int (Zpos p)))
  | _ => group_thousands (str_of_int n)
  end.

(** The template filter [format_number], for the integer values of the
    counters it is given. *)
Definition format_number (value : option Z) : string :=
  match value with
  | Some v => format_comma v
  | None => "0"
  end.

(** [s.replace(",", "")] *)
Definition remove_commas (s : string) : string :=
  string_of_list_ascii
    (filter (fun c => negb (Ascii.eqb c ",")) (list_ascii_of_string s)).

End App.

(** ** db_backup.py *)

Module DbBackup.

(** [dict(row)]: column names and values. *)
Definition Row : Type := list (string * string).

(** What [inspector.get_columns] tells about a column. *)
Record Column : Type := mkColumn {
  column_name : string;
  column_type : string;
  column_nullable : bool;
  column_default : option string
}.

(** The dictionary the backup stores for a column. *)
Record ColumnSchema : Type := mkColumnSchema {
  schema_name : string;
  schema_type : string;
  schema_nullable : bool;
  schema_default : option string
}.

(** ["default": str(column["default"]) if column["default"] else None] *)
Definition schema_of (c : Column) : ColumnSchema :=
  mkColumnSchema (column_name c) (column_type c) (column_nullable c)
    match column_default c with
    | Some s => if str_truthy s then Some s else None
    | None => None
    end.

Inductive Value : Type :=
| Rows (rows : list Row)
| Schema (columns : list ColumnSchema).

(** What the database answers for one table: the rows of
    [SELECT * FROM table] and the columns the inspector lists, each [None]
    when the call raises. *)
Record TableRead : Type := mkTableRead {
  table_name : string;
  select_all : option (list Row);
  get_columns : option (list Column)
}.

(** A Python [dict] with string keys: [d[k] = v] replaces the value of a
    key that is present and appends a new key. *)
Fixpoint dict_set (d : list (string * Value)) (k : string) (v : Value)
  : list (string * Value) :=
  match d with
  | [] => [(k, v)]
  | (k', v') :: rest =>
      if String.eqb k' k then (k, v) :: rest else (k', v') :: dict_set rest k v
  end.

Fixpoint dict_get (d : list (string * Value)) (k : string) : option Value :=
  match d with
  | [] => None
  | (k', v) :: rest => if String.eqb k' k then Some v else dict_get rest k
  end.

(** The body of the loop over the tables, with its [try] and [except]. *)
Definition backup_table (backup_data : list (string * Value)) (t : TableRead)
  : list (string * Value) :=
  match select_all t with
  | None => backup_data
  | Some rows =>
      let backup_data := dict_set backup_data (table_name t) (Rows rows) in
      match get_columns t with
      | None => backup_data
      | Some columns =>
          dict_set backup_data (table_name t ++ "_schema")%string
            (Schema (map schema_of columns))
      end
  end.

(** [backup_data] when the loop of [backup_database] ends. *)
Definition backup_data (tables : list TableRead) : list (string * Value) :=
  fold_left backup_table tables [].

(** The keys a table can write. *)
Definition keys_of (t : TableRead) : list string :=
  [table_name t; (table_name t ++ "_schema")%string].

End DbBackup.

(** * Sample data *)

Module Sample.

(** A like of post 7 and a like with both targets set. *)
Definition reaction_on_post : Reaction.t :=
  Reaction.mk 0 1 (Some 7) None "like" 0.

Definition reaction_on_both : Reaction.t :=
  Reaction.mk 0 1 (Some 7) (Some 3) "like" 0.

(** Two options of the poll of post 7, and the votes of user 1 for them. *)
Definition poll_options : list PollOption.t :=
  [ PollOption.mk 1 7 "yes" 0; PollOption.mk 2 7 "no" 1 ].

Definition vote_yes : PollVote.t := PollVote.mk 0 1 1 0.

Definition vote_no : PollVote.t := PollVote.mk 0 1 2 5.

(** A stand-in for python-slugify on ASCII letters, digits and spaces:
    letters are lowered, a space becomes a hyphen. *)
Definition lower (c : ascii) : ascii :=
  let n := nat_of_ascii c in
  if ((65 <=? n) && (n <=? 90))%nat then ascii_of_nat (n + 32)
  else if (n =? 32)%nat then "-"%char
  else c.

Fixpoint slugify (s : string) : string :=
  match s with
  | EmptyString => EmptyString
  | String c rest => String (lower c) (slugify rest)
  end.

Definition channels : list Channel.t :=
  [ Channel.mk 1 "Book Club" "book-club" 1 ].

(** A stand-in for werkzeug: the hash is the salt, a dollar sign and the
    password; checking compares what follows the first dollar sign. *)
Fixpoint after_dollar (pwhash : string) : option string :=
  match pwhash with
  | EmptyString => None
  | String c rest => if Ascii.eqb c "$" then Some rest else after_dollar rest
  end.

Definition werkzeug : App.Werkzeug :=
  {| App.generate_password_hash := fun salt password =>
       (salt ++ "$" ++ password)%string;
     App.check_password_hash := fun pwhash password =>
       match after_dollar pwhash with
       | Some p => String.eqb p password
       | None => false
       end |}.

Definition alice : User.t := User.mk 1 "alice" "a@x.com" "s1$correct horse" true.

(** One account; two codes issued to it, one minute apart, none used. *)
Definition older_code : PasswordReset.t :=
  PasswordReset.mk 1 "a@x.com" "111111" 0 false.

Definition newer_code : PasswordReset.t :=
  PasswordReset.mk 2 "a@x.com" "222222" 60000000 false.

Definition database : App.Db := App.mkDb [alice] [older_code; newer_code].

(** A second account, with the same password, that an administrator has
    deactivated; and a browser that has not logged in. *)
Definition carol : User.t := User.mk 2 "carol" "c@x.com" "s1$correct horse" false.

Definition world_with_carol : App.World :=
  App.mkWorld (App.mkDb [alice; carol] []) (App.mkSession None None) [].

(** A browser that has not logged in, and one that is waiting to verify a
    code for alice. *)
Definition fresh_world : App.World :=
  App.mkWorld database (App.mkSession None None) [].

Definition awaiting_world : App.World :=
  App.mkWorld database (App.mkSession None (Some "a@x.com")) [].

(** Two minutes after the first code was issued; the commit succeeds and the
    mail server is down. *)
Definition env : App.Env :=
  App.mkEnv 120000000 (fun k => (3 * k + 4)%nat) "s2" true false.

Definition post (fields : list (string * string)) : App.Request :=
  App.mkRequest App.POST true fields.

Definition request_code : App.Request :=
  post [("email", "a@x.com"); ("login_type", "code")].

Definition request_code_unknown : App.Request :=
  post [("email", "b@x.com"); ("login_type", "code")].

Definition login_right_password : App.Request :=
  post [("email", "a@x.com"); ("password", "correct horse")].

Definition login_carol : App.Request :=
  post [("email", "c@x.com"); ("password", "correct horse")].

Definition login_wrong_password : App.Request :=
  post [("email", "a@x.com"); ("password", "wrong")].

Definition login_unknown_address : App.Request :=
  post [("email", "b@x.com"); ("password", "wrong")].

Definition verify_older_code : App.Request := post [("code", "111111")].

Definition verify_wrong_code : App.Request := post [("code", "000000")].

Definition register_taken_address : App.Request :=
  post [("email", "a@x.com"); ("username", "bob"); ("password", "12345678")].

(** A registration that breaks the declared constraints of
    [RegistrationForm]: two-character username, five-character password,
    terms not ticked. *)
Definition register_short : App.Request :=
  post [("email", "b@x.com"); ("username", "ab"); ("password", "short")].

Definition register_short_data : Forms.RegistrationFormData :=
  Forms.mkRegistrationFormData "ab" "b@x.com" "short" "" false.


(** The same request time with a mail transport that works, and one minute
    later. *)
Definition env_mail : App.Env :=
  App.mkEnv 120000000 (fun k => (3 * k + 4)%nat) "s2" true true.

Definition env_later : App.Env :=
  App.mkEnv 180000000 (fun _ => 0%nat) "s3" true true.

Definition verify_issued_code : App.Request := post [("code", "470369")].

Definition register_bob : App.Request :=
  post [("email", "b@x.com"); ("username", "bob"); ("password", "12345678")].

Definition login_bob : App.Request :=
  post [("email", "b@x.com"); ("password", "12345678")].

Definition get_page : App.Request := App.mkRequest App.GET false [].

(** The world after the first registration on the empty tables. *)
Definition world_after_register : App.World :=
  fst (App.register (werkzeug := werkzeug) env register_bob App.initial).

(** The new account logs out and asks for a code, with a mail transport
    that works. *)
Definition request_code_bob : App.Request :=
  post [("email", "b@x.com"); ("login_type", "code")].

Definition world_after_issue : App.World :=
  fst (App.login (werkzeug := werkzeug) env_mail request_code_bob
         (fst (App.logout world_after_register))).

Definition chess_club : Channel.t := Channel.mk 0 "Chess Club" "chess-club" 1.

Definition zero_points : Forms.PointsAllocationFormData :=
  Forms.mkPointsAllocationFormData "alice" (Some 0) "welcome".

(** Text beyond ASCII: a no-break space (U+00A0, the bytes 194 and 160), and
    the letter e with an acute accent (U+00E9, the bytes 195 and 169). *)
Definition no_break_space : string :=
  String (ascii_of_nat 194) (String (ascii_of_nat 160) EmptyString).

Definition e_acute : string :=
  String (ascii_of_nat 195) (String (ascii_of_nat 169) EmptyString).

(** A registration whose username is two accented letters, and an
    allocation whose username is a no-break space. *)
Definition register_accents : Forms.RegistrationFormData :=
  Forms.mkRegistrationFormData (e_acute ++ e_acute)%string "b@x.com" "12345678"
    "" true.

Definition blank_points : Forms.PointsAllocationFormData :=
  Forms.mkPointsAllocationFormData no_break_space (Some 5) "welcome".

(** Three tables as the backup reads them: one fully, one whose SELECT
    raises, one whose columns cannot be listed. *)
Definition users_read : DbBackup.TableRead :=
  DbBackup.mkTableRead "users" (Some [[("id", "1")]])
    (Some [DbBackup.mkColumn "id" "INTEGER" false None]).

Definition broken_read : DbBackup.TableRead :=
  DbBackup.mkTableRead "broken" None (Some []).

Definition posts_read : DbBackup.TableRead :=
  DbBackup.mkTableRead "posts" (Some []) None.

Definition tables_read : list DbBackup.TableRead :=
  [users_read; broken_read; posts_read].
End Sample.

(** * Properties *)

(** ** Reactions: one target per row *)

Section ReactionTarget.

Lemma chk_reaction_target_iff (r : Reaction.t) :
  Reaction.chk_reaction_target r = true <-> Reaction.exactly_one_target r.
Proof.
  unfold Reaction.chk_reaction_target, Reaction.exactly_one_target.
  destruct (Reaction.post_id r), (Reaction.comment_id r); cbn;
    split; intro H; try reflexivity; try discriminate.
  - destruct H as [[_ H] | [H _]]; discriminate.
  - left; split; [discriminate | reflexivity].
  - right; split; [reflexivity | discriminate].
  - destruct H as [[H _] | [_ H]]; contradiction.
Qed.

Lemma check_constraints_passed (others : list Reaction.t) (r : Reaction.t) :
  Reaction.check_constraints others r = None ->
  Reaction.exactly_one_target r.
Proof.
  unfold Reaction.check_constraints. intro H.
  apply chk_reaction_target_iff.
  destruct (Reaction.chk_reaction_target r); [reflexivity | discriminate].
Qed.

Lemma check_constraints_rejects (others : list Reaction.t) (r : Reaction.t) :
  ~ Reaction.exactly_one_target r ->
  Reaction.check_constraints others r
  = Some (CheckViolation "chk_reaction_target").
Proof.
  intro H. unfold Reaction.check_constraints.
  destruct (Reaction.chk_reaction_target r) eqn:E; [| reflexivity].
  apply chk_reaction_target_iff in E. contradiction.
Qed.

Lemma exactly_one_target_with_id (i : Z) (r : Reaction.t) :
  Reaction.exactly_one_target r ->
  Reaction.exactly_one_target (Reaction.with_id i r).
Proof. intro H; exact H. Qed.

Lemma both_or_neither_not_one (r : Reaction.t) :
  (Reaction.post_id r <> None /\ Reaction.comment_id r <> None)
  \/ (Reaction.post_id r = None /\ Reaction.comment_id r = None) ->
  ~ Reaction.exactly_one_target r.
Proof.
  unfold Reaction.exactly_one_target.
  intros [[Hp Hc] | [Hp Hc]] [[Hp' Hc'] | [Hp' Hc']]; contradiction.
Qed.

Lemma insert_keeps_targets (table table' : list Reaction.t) (r : Reaction.t) :
  Forall Reaction.exactly_one_target table ->
  Reaction.insert table r = Ok table' ->
  Forall Reaction.exactly_one_target table'.
Proof.
  unfold Reaction.insert. intros Hall H.
  destruct (Reaction.check_constraints table r) eqn:E; [discriminate |].
  injection H as <-.
  apply Forall_app; split; [assumption |].
  constructor; [| constructor].
  apply exactly_one_target_with_id. eapply check_constraints_passed; eassumption.
Qed.

Lemma update_keeps_targets (table table' : list Reaction.t) (i : Z)
  (r : Reaction.t) :
  Forall Reaction.exactly_one_target table ->
  Reaction.update table i r = Ok table' ->
  Forall Reaction.exactly_one_target table'.
Proof.
  unfold Reaction.update. intros Hall H.
  destruct (Reaction.check_constraints _ r) eqn:E; [discriminate |].
  injection H as <-.
  apply check_constraints_passed in E.
  induction Hall as [| x l Hx _ IH]; cbn; constructor; [| exact IH].
  destruct (Reaction.id x =? i); [apply exactly_one_target_with_id |]; assumption.
Qed.

Lemma delete_keeps_targets (table : list Reaction.t) (i : Z) :
  Forall Reaction.exactly_one_target table ->
  Forall Reaction.exactly_one_target (Reaction.delete table i).
Proof.
  unfold Reaction.delete. intro Hall.
  apply Forall_forall. intros x Hx. apply filter_In in Hx as [Hx _].
  revert x Hx. apply Forall_forall. exact Hall.
Qed.

(** C7. A reaction that names both a post and a comment, or neither, is
    refused by the INSERT (and by the UPDATE) with the violation of
    [chk_reaction_target], whatever the user and the reaction type; and in
    every state the table can reach from its creation, each row has exactly
    one of [post_id] and [comment_id] set. *)
Theorem reaction_exactly_one_target :
  (forall (table : list Reaction.t) (r : Reaction.t),
      (Reaction.post_id r <> None /\ Reaction.comment_id r <> None)
      \/ (Reaction.post_id r = None /\ Reaction.comment_id r = None) ->
      Reaction.insert table r = Err (CheckViolation "chk_reaction_target")
      /\ forall i, Reaction.update table i r
                   = Err (CheckViolation "chk_reaction_target"))
  /\ (forall table : list Reaction.t,
         Reaction.reachable table ->
         Forall Reaction.exactly_one_target table).
Proof.
  split.
  - intros table r H. apply both_or_neither_not_one in H.
    unfold Reaction.insert, Reaction.update.
    split; [| intro i]; rewrite (check_constraints_rejects _ r H); reflexivity.
  - intros table Hreach.
    induction Hreach as [| t r t' _ IH Hins | t i r t' _ IH Hupd | t i _ IH].
    + constructor.
    + eapply insert_keeps_targets; eassumption.
    + eapply update_keeps_targets; eassumption.
    + apply delete_keeps_targets; assumption.
Qed.

End ReactionTarget.

Lemma reaction_exactly_one_target_witness :
  Reaction.insert [Reaction.with_id 1 Sample.reaction_on_post] Sample.reaction_on_both
  = Err (CheckViolation "chk_reaction_target")
  /\ Forall Reaction.exactly_one_target [Reaction.with_id 1 Sample.reaction_on_post].
Proof.
  split.
  - apply (proj1 reaction_exactly_one_target).
    left; split; discriminate.
  - apply (proj2 reaction_exactly_one_target).
    apply (Reaction.reach_insert [] Sample.reaction_on_post).
    + apply Reaction.reach_create.
    + reflexivity.
Defined.

(** ** Poll votes: unique per user and option *)

Section PollVotes.

Lemma uix_user_option_vote_with_id (v x : PollVote.t) (i : Z) :
  PollVote.uix_user_option_vote v (PollVote.with_id i x)
  = PollVote.uix_user_option_vote v x.
Proof. reflexivity. Qed.

Lemma uix_user_option_vote_true (v x : PollVote.t) :
  PollVote.uix_user_option_vote v x = true <->
  PollVote.user_id v = PollVote.user_id x
  /\ PollVote.option_id v = PollVote.option_id x.
Proof.
  unfold PollVote.uix_user_option_vote.
  rewrite andb_true_iff, !Z.eqb_eq. reflexivity.
Qed.

(** C8. Once a user's vote for an option is stored, a second vote of that
    user for that option is refused with the violation of
    [uix_user_option_vote]; a vote of the same user for another option of
    the same poll, not voted for before, is stored next to the first. *)
Theorem poll_vote_unique_per_user_and_option
  (table table1 : list PollVote.t) (v : PollVote.t) :
  PollVote.insert table v = Ok table1 ->
  (forall v2 : PollVote.t,
      PollVote.user_id v2 = PollVote.user_id v ->
      PollVote.option_id v2 = PollVote.option_id v ->
      PollVote.insert table1 v2 = Err (UniqueViolation "uix_user_option_vote"))
  /\ (forall (options : list PollOption.t) (o1 o2 : PollOption.t)
        (v2 : PollVote.t),
         In o1 options -> In o2 options ->
         PollOption.post_id o1 = PollOption.post_id o2 ->
         PollOption.id o1 <> PollOption.id o2 ->
         PollVote.option_id v = PollOption.id o1 ->
         PollVote.option_id v2 = PollOption.id o2 ->
         PollVote.user_id v2 = PollVote.user_id v ->
         (forall x, In x table ->
                    PollVote.user_id x = PollVote.user_id v ->
                    PollVote.option_id x <> PollOption.id o2) ->
         exists table2 (s1 s2 : PollVote.t),
           PollVote.insert table1 v2 = Ok table2
           /\ In s1 table2 /\ In s2 table2
           /\ PollVote.user_id s1 = PollVote.user_id v
           /\ PollVote.user_id s2 = PollVote.user_id v
           /\ PollVote.option_id s1 = PollOption.id o1
           /\ PollVote.option_id s2 = PollOption.id o2).
Proof.
  unfold PollVote.insert at 1. intro H.
  destruct (existsb (PollVote.uix_user_option_vote v) table) eqn:E;
    [discriminate |].
  injection H as <-.
  split.
  - intros v2 Hu Ho. unfold PollVote.insert.
    rewrite existsb_app. cbn [existsb].
    rewrite uix_user_option_vote_with_id.
    replace (PollVote.uix_user_option_vote v2 v) with true.
    + rewrite orb_true_r. reflexivity.
    + symmetry. apply uix_user_option_vote_true. split; assumption.
  - intros options o1 o2 v2 _ _ _ Hne Ho1 Ho2 Hu Hfresh.
    unfold PollVote.insert.
    rewrite existsb_app. cbn [existsb].
    rewrite uix_user_option_vote_with_id.
    replace (existsb (PollVote.uix_user_option_vote v2) table) with false.
    + replace (PollVote.uix_user_option_vote v2 v) with false.
      * cbn [orb].
        set (table1 := table ++ [PollVote.with_id (next_id (map PollVote.id table)) v]).
        exists (table1 ++ [PollVote.with_id (next_id (map PollVote.id table1)) v2]),
          (PollVote.with_id (next_id (map PollVote.id table)) v),
          (PollVote.with_id (next_id (map PollVote.id table1)) v2).
        split; [reflexivity |].
        split; [| split; [| split; [| split; [| split]]]].
        -- apply in_or_app; left. apply in_or_app; right. left. reflexivity.
        -- apply in_or_app; right. left. reflexivity.
        -- reflexivity.
        -- exact Hu.
        -- exact Ho1.
        -- exact Ho2.
      * symmetry. apply not_true_is_false. intro Hc.
        apply uix_user_option_vote_true in Hc as [_ Hc]. congruence.
    + symmetry. apply not_true_is_false. intro Hc.
      apply existsb_exists in Hc as [x [Hx Hc]].
      apply uix_user_option_vote_true in Hc as [Hxu Hxo].
      apply (Hfresh x Hx); congruence.
Qed.

End PollVotes.

Lemma poll_vote_unique_per_user_and_option_witness :
  PollVote.insert [PollVote.with_id 1 Sample.vote_yes] Sample.vote_yes
  = Err (UniqueViolation "uix_user_option_vote")
  /\ exists table2 s1 s2,
       PollVote.insert [PollVote.with_id 1 Sample.vote_yes] Sample.vote_no
       = Ok table2
       /\ In s1 table2 /\ In s2 table2
       /\ PollVote.user_id s1 = 1 /\ PollVote.user_id s2 = 1
       /\ PollVote.option_id s1 = 1 /\ PollVote.option_id s2 = 2.
Proof.
  assert (H : PollVote.insert [] Sample.vote_yes
              = Ok [PollVote.with_id 1 Sample.vote_yes]) by reflexivity.
  split.
  - apply (proj1 (poll_vote_unique_per_user_and_option _ _ _ H));
      reflexivity.
  - apply (proj2 (poll_vote_unique_per_user_and_option _ _ _ H)
             Sample.poll_options
             (PollOption.mk 1 7 "yes" 0) (PollOption.mk 2 7 "no" 1)).
    + left; reflexivity.
    + right; left; reflexivity.
    + reflexivity.
    + discriminate.
    + reflexivity.
    + reflexivity.
    + reflexivity.
    + intros x [].
Defined.

(** ** Channel names: unique by slug *)

Section ChannelNames.

Variable slugify : string -> string.

Lemma Channel_filter_by_slug_Some (channels : list Channel.t) (slug : string) :
  (exists c, In c channels /\ Channel.slug c = slug) ->
  exists c, Forms.Channel_filter_by_slug channels slug = Some c.
Proof.
  intros [c [Hin Hslug]]. unfold Forms.Channel_filter_by_slug.
  destruct (find _ channels) as [c' |] eqn:E; [eexists; reflexivity |].
  apply (find_none _ _ E) in Hin. cbn in Hin.
  rewrite Hslug, String.eqb_refl in Hin. discriminate.
Qed.

(** C9. [validate_name] compares the slug of the submitted name with the
    stored slugs and nothing else: a name is refused as soon as some channel
    has the slug it normalises to, whatever that channel's display name; a
    name whose slug no channel has passes the check. *)
Theorem channel_name_unique_by_slug (channels : list Channel.t) (name : string) :
  (forall c : Channel.t,
      In c channels ->
      Channel.slug c = slugify name ->
      Forms.validate_name slugify channels name
      = Some "A channel with this name already exists.")
  /\ ((forall c : Channel.t, In c channels -> Channel.slug c <> slugify name) ->
      Forms.validate_name slugify channels name = None).
Proof.
  unfold Forms.validate_name. split.
  - intros c Hin Hslug.
    destruct (Channel_filter_by_slug_Some channels (slugify name)) as [c' ->];
      [exists c; split; assumption | reflexivity].
  - intro Hnone. unfold Forms.Channel_filter_by_slug.
    destruct (find _ channels) as [c |] eqn:E; [| reflexivity].
    apply find_some in E as [Hin Heq]. cbn in Heq.
    apply String.eqb_eq in Heq. apply Hnone in Hin. contradiction.
Qed.

End ChannelNames.

Lemma channel_name_unique_by_slug_witness :
  (Channel.name (Channel.mk 1 "Book Club" "book-club" 1) <> "BOOK club"
   /\ Forms.validate_name Sample.slugify Sample.channels "BOOK club"
      = Some "A channel with this name already exists.")
  /\ Forms.validate_name Sample.slugify Sample.channels "Chess Club" = None.
Proof.
  split; [split |].
  - discriminate.
  - apply (proj1 (channel_name_unique_by_slug Sample.slugify Sample.channels
                    "BOOK club") (Channel.mk 1 "Book Club" "book-club" 1)).
    + left; reflexivity.
    + reflexivity.
  - apply (proj2 (channel_name_unique_by_slug Sample.slugify Sample.channels
                    "Chess Club")).
    intros c [<- | []]. discriminate.
Defined.

(** ** Authentication routes *)

Section Authentication.

Import App.

Context {werkzeug : Werkzeug}.

(** *** Reading the request and the tables *)

Lemma anonymous_not_authenticated (w : World) :
  anonymous w -> is_authenticated w = false.
Proof.
  unfold anonymous, is_authenticated, current_user. intros ->. reflexivity.
Qed.

Lemma submitted_validates (req : Request) :
  submitted req -> method req = POST /\ validate_on_submit req = true.
Proof.
  unfold submitted, validate_on_submit. intros [Hm Hc]. rewrite Hm. auto.
Qed.

Lemma str_truthy_true (s : string) : str_truthy s = true <-> s <> "".
Proof.
  destruct s; cbn; split; intro H; try discriminate; try reflexivity.
  contradiction.
Qed.

Lemma required_Some (o : option string) (v : string) :
  required o = Some v <-> o = Some v /\ v <> "".
Proof.
  unfold required, truthy. destruct o as [s |].
  - destruct (str_truthy s) eqn:E; split.
    + intros [= ->]. split; [reflexivity | apply str_truthy_true; exact E].
    + intros [H _]; exact H.
    + discriminate.
    + intros [[= ->] Hv]. apply str_truthy_true in Hv. congruence.
  - split; [discriminate | intros [H _]; discriminate].
Qed.

Lemma required_field (req : Request) (key v : string) :
  field req key v -> required (form_get (form req) key) = Some v.
Proof. intro H. apply required_Some. exact H. Qed.

Lemma User_filter_by_email_Some (d : Db) (email : string) (u : User.t) :
  User_filter_by_email d email = Some u ->
  In u (users d) /\ User.email u = email.
Proof.
  unfold User_filter_by_email. intro H. apply find_some in H as [Hin Heq].
  split; [exact Hin | apply String.eqb_eq; exact Heq].
Qed.

Lemma User_filter_by_email_None (d : Db) (email : string) :
  User_filter_by_email d email = None <->
  forall u, In u (users d) -> User.email u <> email.
Proof.
  unfold User_filter_by_email. split.
  - intros H u Hin Heq. apply (find_none _ _ H) in Hin. cbn in Hin.
    rewrite Heq, String.eqb_refl in Hin. discriminate.
  - intro H. destruct (find _ (users d)) as [u |] eqn:E; [| reflexivity].
    apply find_some in E as [Hin Heq]. apply String.eqb_eq in Heq.
    apply H in Hin. contradiction.
Qed.

Lemma User_filter_by_username_None (d : Db) (username : string) :
  User_filter_by_username d username = None <->
  forall u, In u (users d) -> User.username u <> username.
Proof.
  unfold User_filter_by_username. split.
  - intros H u Hin Heq. apply (find_none _ _ H) in Hin. cbn in Hin.
    rewrite Heq, String.eqb_refl in Hin. discriminate.
  - intro H. destruct (find _ (users d)) as [u |] eqn:E; [| reflexivity].
    apply find_some in E as [Hin Heq]. apply String.eqb_eq in Heq.
    apply H in Hin. contradiction.
Qed.

(** *** The code [/login] issues *)

Lemma digit_of_digits (n : nat) (c : ascii) :
  String.get n "0123456789" = Some c -> is_digit c = true.
Proof.
  do 10 (destruct n as [| n]; [intros [= <-]; reflexivity |]).
  discriminate.
Qed.

Lemma secrets_choice_digit (env : Env) (k : nat) :
  is_digit (secrets_choice env k "0123456789") = true.
Proof.
  unfold secrets_choice.
  destruct (String.get _ "0123456789") as [c |] eqn:E.
  - eapply digit_of_digits; exact E.
  - reflexivity.
Qed.

Lemma generate_code_six_digits (env : Env) :
  String.length (generate_code env) = 6%nat
  /\ Forall (fun c => is_digit c = true)
       (list_ascii_of_string (generate_code env)).
Proof.
  unfold generate_code. split.
  - reflexivity.
  - rewrite list_ascii_of_string_of_list_ascii.
    apply Forall_forall. intros c Hc. apply in_map_iff in Hc as [k [<- _]].
    apply secrets_choice_digit.
Qed.

(** The name [Message] is the model of the [messages] table when the
    function runs, so the message is never built and nothing is sent. *)
Lemma send_verification_code_fails (env : Env) (email code : string)
  (w : World) :
  send_verification_code env email code w = (w, false).
Proof. reflexivity. Qed.

(** C10. A login request whose e-mail address belongs to no account leaves
    the world as it was: no row is added to [password_resets], no message is
    sent, and the anonymous submitter is told that no account was found.
    More generally every row [/login] adds to [password_resets], and every
    message it sends, is addressed to the e-mail address of an account. *)
Theorem login_issues_codes_to_accounts_only (env : Env) (req : Request)
  (w : World) :
  (forall email : string,
      form_get (form req) "email" = Some email ->
      (forall u, In u (users (db w)) -> User.email u <> email) ->
      fst (login env req w) = w
      /\ (anonymous w -> submitted req -> email <> "" ->
          snd (login env req w)
          = mkResponse ["No account found with this email address"]
              (render_template "login.html")))
  /\ (forall r : PasswordReset.t,
         In r (password_resets (db (fst (login env req w)))) ->
         In r (password_resets (db w))
         \/ exists u, In u (users (db w))
                      /\ User.email u = PasswordReset.email r)
  /\ (forall m : Message,
         In m (outbox (fst (login env req w))) ->
         In m (outbox w)
         \/ exists u, In u (users (db w)) /\ recipients m = [User.email u]).
Proof.
  split; [| split].
  - intros email Hemail Hnone. apply User_filter_by_email_None in Hnone.
    split.
    + unfold login.
      destruct (is_authenticated w); [reflexivity |].
      destruct (method req); [reflexivity |].
      destruct (negb (validate_on_submit req)); [reflexivity |].
      destruct (required (form_get (form req) "email")) as [e |] eqn:E;
        [| reflexivity].
      apply required_Some in E as [E _].
      assert (e = email) as -> by congruence.
      rewrite Hnone. reflexivity.
    + intros Ha Hs Hne. unfold login.
      rewrite (anonymous_not_authenticated _ Ha).
      destruct (submitted_validates _ Hs) as [-> ->]. cbn [negb].
      rewrite (required_field req "email" email (conj Hemail Hne)).
      rewrite Hnone. reflexivity.
  - intros r. unfold login.
    destruct (is_authenticated w); [auto |].
    destruct (method req); [auto |].
    destruct (negb (validate_on_submit req)); [auto |].
    destruct (required (form_get (form req) "email")) as [e |]; [| auto].
    destruct (User_filter_by_email (db w) e) as [u |] eqn:Eu; [| auto].
    apply User_filter_by_email_Some in Eu as [Hin Hmail].
    destruct (String.eqb _ "password").
    + destruct (required (form_get (form req) "password")); [| auto].
      destruct (negb (str_truthy (User.password_hash u))); [auto |].
      destruct (negb (check_password_hash _ _)); [auto |].
      unfold login_user. destruct (User.is_active u); auto.
    + destruct (commit_ok env); [| auto].
      rewrite send_verification_code_fails. cbn. intro Hr.
      apply in_app_or in Hr as [Hr | [<- | []]]; auto.
      right; exists u; auto.
  - intros m. unfold login.
    destruct (is_authenticated w); [auto |].
    destruct (method req); [auto |].
    destruct (negb (validate_on_submit req)); [auto |].
    destruct (required (form_get (form req) "email")) as [e |]; [| auto].
    destruct (User_filter_by_email (db w) e) as [u |] eqn:Eu; [| auto].
    apply User_filter_by_email_Some in Eu as [Hin Hmail].
    destruct (String.eqb _ "password").
    + destruct (required (form_get (form req) "password")); [| auto].
      destruct (negb (str_truthy (User.password_hash u))); [auto |].
      destruct (negb (check_password_hash _ _)); [auto |].
      unfold login_user. destruct (User.is_active u); auto.
    + destruct (commit_ok env); [| auto].
      rewrite send_verification_code_fails. cbn. auto.
Qed.

(** C3. When the commit of the new row succeeds and the mail transport then
    fails, a passwordless login for an existing account answers with the
    message "Error sending verification code" on the login page, and the
    database holds one more [password_resets] row: the submitted e-mail
    address, the six decimal digits just drawn, the time of the request and
    [used = false]. The session and the outbox are as before. *)
Theorem mail_failure_keeps_issued_code (env : Env) (req : Request) (w : World)
  (email : string) (user : User.t) :
  anonymous w ->
  submitted req ->
  field req "email" email ->
  form_get_default (form req) "login_type" "password" <> "password" ->
  User_filter_by_email (db w) email = Some user ->
  commit_ok env = true ->
  mail_ok env = false ->
  snd (login env req w)
  = mkResponse ["Error sending verification code"] (render_template "login.html")
  /\ exists r : PasswordReset.t,
       password_resets (db (fst (login env req w)))
       = password_resets (db w) ++ [r]
       /\ PasswordReset.email r = email
       /\ PasswordReset.code r = generate_code env
       /\ String.length (PasswordReset.code r) = 6%nat
       /\ Forall (fun c => is_digit c = true)
            (list_ascii_of_string (PasswordReset.code r))
       /\ PasswordReset.created_at r = utcnow env
       /\ PasswordReset.used r = false
       /\ users (db (fst (login env req w))) = users (db w)
       /\ session (fst (login env req w)) = session w
       /\ outbox (fst (login env req w)) = outbox w.
Proof.
  intros Ha Hs Hemail Htype Huser Hcommit Hmail.
  unfold login.
  rewrite (anonymous_not_authenticated _ Ha).
  destruct (submitted_validates _ Hs) as [-> ->]. cbn [negb].
  rewrite (required_field _ _ _ Hemail), Huser.
  apply String.eqb_neq in Htype. rewrite Htype, Hcommit.
  rewrite send_verification_code_fails. cbn.
  split; [reflexivity |].
  eexists. split; [reflexivity |]. cbn.
  destruct (generate_code_six_digits env) as [Hlen Hdigits].
  repeat (split; [first [reflexivity | assumption] |]). reflexivity.
Qed.

(** *** The query of [/verify_login] *)

Lemma reset_matches_true (email code : string) (r : PasswordReset.t) :
  reset_matches email code r = true <->
  PasswordReset.email r = email /\ PasswordReset.code r = code
  /\ PasswordReset.used r = false.
Proof.
  unfold reset_matches.
  rewrite !andb_true_iff, !String.eqb_eq, negb_true_iff. tauto.
Qed.

Lemma order_by_created_at_desc_first_None (rows : list PasswordReset.t) :
  order_by_created_at_desc_first rows = None -> rows = [].
Proof.
  destruct rows as [| r rest]; [reflexivity |]. cbn.
  destruct (order_by_created_at_desc_first rest) as [r' |]; [| discriminate].
  destruct (_ <? _); discriminate.
Qed.

Lemma order_by_created_at_desc_first_Some (rows : list PasswordReset.t)
  (r : PasswordReset.t) :
  order_by_created_at_desc_first rows = Some r ->
  In r rows
  /\ forall x, In x rows -> PasswordReset.created_at x <= PasswordReset.created_at r.
Proof.
  revert r. induction rows as [| a rest IH]; intros r H; [discriminate |].
  cbn in H.
  destruct (order_by_created_at_desc_first rest) as [r' |] eqn:E.
  - destruct (IH r' eq_refl) as [Hin Hmax].
    destruct (Z.ltb_spec (PasswordReset.created_at a)
                (PasswordReset.created_at r')) as [Hlt | Hge];
      injection H as <-.
    + split; [right; exact Hin |].
      intros x [<- | Hx]; [lia | apply Hmax; exact Hx].
    + split; [left; reflexivity |].
      intros x [<- | Hx]; [lia | apply Hmax in Hx; lia].
  - injection H as <-. apply order_by_created_at_desc_first_None in E.
    subst rest. split; [left; reflexivity |].
    intros x [<- | []]. lia.
Qed.

Lemma PasswordReset_query_Some (d : Db) (email code : string)
  (r : PasswordReset.t) :
  PasswordReset_query d email code = Some r ->
  In r (password_resets d)
  /\ reset_matches email code r = true
  /\ forall x, In x (password_resets d) -> reset_matches email code x = true ->
               PasswordReset.created_at x <= PasswordReset.created_at r.
Proof.
  unfold PasswordReset_query. intro H.
  apply order_by_created_at_desc_first_Some in H as [Hin Hmax].
  apply filter_In in Hin as [Hin Hm].
  repeat split; try assumption.
  intros x Hx Hxm. apply Hmax. apply filter_In. split; assumption.
Qed.

Lemma PasswordReset_query_None (d : Db) (email code : string) :
  PasswordReset_query d email code = None ->
  forall x, In x (password_resets d) -> reset_matches email code x = false.
Proof.
  unfold PasswordReset_query. intros H x Hx.
  apply order_by_created_at_desc_first_None in H.
  destruct (reset_matches email code x) eqn:E; [| reflexivity].
  assert (Hin : In x (filter (reset_matches email code) (password_resets d)))
    by (apply filter_In; split; assumption).
  rewrite H in Hin. destruct Hin.
Qed.

(** The row the query returns is within the time limit exactly when some
    matching row is. *)
Lemma usable_code_iff_query (env : Env) (d : Db) (email code : string) :
  usable_code env d email code <->
  exists r, PasswordReset_query d email code = Some r
            /\ within_30_minutes env r.
Proof.
  unfold usable_code, within_30_minutes. split.
  - intros [x [Hx [He [Hc [Hu Ht]]]]].
    assert (Hm : reset_matches email code x = true)
      by (apply reset_matches_true; auto).
    destruct (PasswordReset_query d email code) as [r |] eqn:E.
    + exists r. split; [reflexivity |].
      apply PasswordReset_query_Some in E as [_ [_ Hmax]].
      specialize (Hmax x Hx Hm). lia.
    + rewrite (PasswordReset_query_None _ _ _ E x Hx) in Hm. discriminate.
  - intros [r [E Ht]].
    apply PasswordReset_query_Some in E as [Hin [Hm _]].
    apply reset_matches_true in Hm as [He [Hc Hu]].
    exists r. auto.
Qed.

Lemma awaiting_required (w : World) (email : string) :
  awaiting w email -> required (login_email (session w)) = Some email.
Proof.
  intros [_ [H Hne]]. apply required_Some. split; assumption.
Qed.

(** Every code that is not usable gets the same answer. *)
Lemma verify_login_rejects (env : Env) (req : Request) (w : World)
  (email code : string) :
  awaiting w email ->
  submitted req ->
  field req "code" code ->
  ~ usable_code env (db w) email code ->
  verify_login env req w
  = (w, mkResponse ["Invalid or expired verification code"]
          (render_template "verify_login.html")).
Proof.
  intros Hw Hs Hcode Hno. unfold verify_login.
  rewrite (anonymous_not_authenticated _ (proj1 Hw)).
  rewrite (awaiting_required _ _ Hw).
  destruct (submitted_validates _ Hs) as [-> ->]. cbn [negb].
  rewrite (required_field _ _ _ Hcode).
  destruct (PasswordReset_query (db w) email code) as [r |] eqn:E;
    [| reflexivity].
  destruct (Z.gtb_spec (utcnow env - PasswordReset.created_at r)
              (timedelta_minutes 30)) as [Hlate | Hfresh]; [reflexivity |].
  exfalso. apply Hno. apply usable_code_iff_query. exists r. auto.
Qed.

(** A usable code logs the account in and, when the commit succeeds,
    consumes the row the query returned. *)
Lemma verify_login_usable_run (env : Env) (req : Request) (w : World)
  (email code : string) (user : User.t) (r : PasswordReset.t) :
  awaiting w email ->
  submitted req ->
  field req "code" code ->
  User_filter_by_email (db w) email = Some user ->
  User.is_active user = true ->
  PasswordReset_query (db w) email code = Some r ->
  within_30_minutes env r ->
  verify_login env req w
  = if commit_ok env
    then (mkWorld (mark_used (PasswordReset.id r) (db w))
            (mkSession (Some (User.id user)) None) (outbox w),
          mkResponse [] (redirect "dashboard"))
    else (mkWorld (db w)
            (mkSession (Some (User.id user)) (login_email (session w)))
            (outbox w),
          mkResponse ["Error processing verification"]
            (render_template "verify_login.html")).
Proof.
  intros Hw Hs Hcode Huser Hactive Hq Ht. unfold verify_login.
  rewrite (anonymous_not_authenticated _ (proj1 Hw)).
  rewrite (awaiting_required _ _ Hw).
  destruct (submitted_validates _ Hs) as [-> ->]. cbn [negb].
  rewrite (required_field _ _ _ Hcode), Hq.
  unfold within_30_minutes in Ht.
  destruct (Z.gtb_spec (utcnow env - PasswordReset.created_at r)
              (timedelta_minutes 30)) as [Hlate | _]; [lia |].
  rewrite Huser. unfold login_user. rewrite Hactive.
  destruct (commit_ok env); reflexivity.
Qed.

(** Marking the rows of one key used leaves no unused row with that key. *)
Lemma mark_used_consumes (d : Db) (id : Z) (x : PasswordReset.t) :
  In x (password_resets (mark_used id d)) ->
  (PasswordReset.id x = id /\ PasswordReset.used x = true)
  \/ (PasswordReset.id x <> id /\ In x (password_resets d)).
Proof.
  unfold mark_used. cbn. intro H. apply in_map_iff in H as [y [<- Hy]].
  destruct (Z.eqb_spec (PasswordReset.id y) id) as [Heq | Hne].
  - left. split; [exact Heq | reflexivity].
  - right. split; assumption.
Qed.

(** *** Code verification *)

(** C1, as the handler has it. For a session awaiting verification for the
    address of an active account, a submitted code logs the account in
    exactly when some unused row stored for that address carries this code
    and is at most 30 minutes old; newer codes issued to the address do not
    matter. A code that is not usable changes nothing and is answered with
    "Invalid or expired verification code". When the commit succeeds, the
    most recent matching row is the one consumed: the rows with its key have
    [used = true] afterwards, and, if it was the only unused row with this
    code, the same code submitted again from a session awaiting verification
    for that address is answered with "Invalid or expired verification
    code", at whatever time. *)
Theorem verify_login_accepts_usable_code (env : Env) (req : Request)
  (w : World) (email code : string) (user : User.t) :
  awaiting w email ->
  submitted req ->
  field req "code" code ->
  User_filter_by_email (db w) email = Some user ->
  User.is_active user = true ->
  (logged_in_as (fst (verify_login env req w)) user
   <-> usable_code env (db w) email code)
  /\ (~ usable_code env (db w) email code ->
      verify_login env req w
      = (w, mkResponse ["Invalid or expired verification code"]
              (render_template "verify_login.html")))
  /\ (usable_code env (db w) email code ->
      commit_ok env = true ->
      exists r : PasswordReset.t,
        PasswordReset_query (db w) email code = Some r
        /\ verify_login env req w
           = (mkWorld (mark_used (PasswordReset.id r) (db w))
                (mkSession (Some (User.id user)) None) (outbox w),
              mkResponse [] (redirect "dashboard"))
        /\ (forall x,
               In x (password_resets (db (fst (verify_login env req w)))) ->
               PasswordReset.id x = PasswordReset.id r ->
               PasswordReset.used x = true)
        /\ ((forall x, In x (password_resets (db w)) ->
                       reset_matches email code x = true ->
                       PasswordReset.id x = PasswordReset.id r) ->
            forall (env2 : Env) (req2 : Request) (s2 : Session),
              awaiting (set_session (fst (verify_login env req w)) s2) email ->
              submitted req2 ->
              field req2 "code" code ->
              verify_login env2 req2
                (set_session (fst (verify_login env req w)) s2)
              = (set_session (fst (verify_login env req w)) s2,
                 mkResponse ["Invalid or expired verification code"]
                   (render_template "verify_login.html")))).
Proof.
  intros Hw Hs Hcode Huser Hactive.
  split; [| split].
  - split.
    + intro Hlogged.
      destruct (usable_code_iff_query env (db w) email code) as [_ Hback].
      destruct (PasswordReset_query (db w) email code) as [r |] eqn:E.
      * destruct (Z.le_gt_cases (utcnow env - PasswordReset.created_at r)
                    (timedelta_minutes 30)) as [Hfresh | Hlate].
        -- apply Hback. exists r. auto.
        -- exfalso.
           rewrite (verify_login_rejects env req w email code Hw Hs Hcode)
             in Hlogged.
           ++ unfold logged_in_as in Hlogged. cbn in Hlogged.
              rewrite (proj1 Hw) in Hlogged. discriminate.
           ++ intro Hu. apply usable_code_iff_query in Hu as [r' [Er' Ht]].
              rewrite E in Er'. injection Er' as <-.
              unfold within_30_minutes in Ht. lia.
      * exfalso.
        rewrite (verify_login_rejects env req w email code Hw Hs Hcode)
          in Hlogged.
        -- unfold logged_in_as in Hlogged. cbn in Hlogged.
           rewrite (proj1 Hw) in Hlogged. discriminate.
        -- intro Hu. apply usable_code_iff_query in Hu as [r' [Er' _]].
           congruence.
    + intro Hu. apply usable_code_iff_query in Hu as [r [E Ht]].
      rewrite (verify_login_usable_run env req w email code user r); try assumption.
      unfold logged_in_as. destruct (commit_ok env); reflexivity.
  - apply verify_login_rejects; assumption.
  - intros Hu Hcommit. apply usable_code_iff_query in Hu as [r [E Ht]].
    exists r.
    pose proof (verify_login_usable_run env req w email code user r
                  Hw Hs Hcode Huser Hactive E Ht) as Hrun.
    rewrite Hcommit in Hrun. rewrite Hrun. cbn [fst].
    split; [exact E |]. split; [reflexivity |]. split.
    + intros x Hx Hid. cbn in Hx.
      apply in_map_iff in Hx as [y [<- Hy]].
      destruct (Z.eqb_spec (PasswordReset.id y) (PasswordReset.id r))
        as [_ | Hne]; [reflexivity | contradiction].
    + intros Honly env2 req2 s2 Hw2 Hs2 Hcode2.
      apply (verify_login_rejects env2 req2 _ email code Hw2 Hs2 Hcode2).
      intros [x [Hx [He [Hc [Hused _]]]]]. cbn in Hx.
      apply mark_used_consumes in Hx as [[_ Hx] | [Hne Hx]].
      * congruence.
      * apply Hne. apply Honly; [exact Hx |].
        apply reset_matches_true. auto.
Qed.

(** *** Failure messages *)

(** C2, as the handlers have it. The login handler names the failing case:
    an unknown address, an account without a password hash and a wrong
    password each get a message of their own. Code verification alone is
    generic: whatever makes a code unusable (never issued, issued to
    another address, already used, older than 30 minutes), the answer is
    "Invalid or expired verification code" and nothing changes. *)
Theorem credential_failure_messages (env : Env) (req : Request) (w : World) :
  anonymous w ->
  submitted req ->
  (forall email : string,
      field req "email" email ->
      (User_filter_by_email (db w) email = None ->
       login env req w
       = (w, mkResponse ["No account found with this email address"]
               (render_template "login.html")))
      /\ (forall (u : User.t) (password : string),
             User_filter_by_email (db w) email = Some u ->
             form_get_default (form req) "login_type" "password" = "password" ->
             field req "password" password ->
             (User.password_hash u = "" ->
              login env req w
              = (w, mkResponse
                      ["Please use passwordless login or reset your password"]
                      (render_template "login.html")))
             /\ (User.password_hash u <> "" ->
                 check_password_hash (User.password_hash u) password = false ->
                 login env req w
                 = (w, mkResponse ["Invalid password"]
                         (render_template "login.html")))))
  /\ (forall email code : string,
         login_email (session w) = Some email ->
         email <> "" ->
         field req "code" code ->
         ~ usable_code env (db w) email code ->
         verify_login env req w
         = (w, mkResponse ["Invalid or expired verification code"]
                 (render_template "verify_login.html"))).
Proof.
  intros Ha Hs. split.
  - intros email Hemail.
    split.
    + intro Hnone. unfold login.
      rewrite (anonymous_not_authenticated _ Ha).
      destruct (submitted_validates _ Hs) as [-> ->]. cbn [negb].
      rewrite (required_field _ _ _ Hemail), Hnone. reflexivity.
    + intros u password Hu Htype Hpw.
      split; [intro Hhash | intros Hhash Hcheck];
        unfold login;
        rewrite (anonymous_not_authenticated _ Ha);
        destruct (submitted_validates _ Hs) as [-> ->]; cbn [negb];
        rewrite (required_field _ _ _ Hemail), Hu, Htype;
        cbn [String.eqb Ascii.eqb Bool.eqb andb];
        rewrite (required_field _ _ _ Hpw).
      * rewrite Hhash. reflexivity.
      * apply str_truthy_true in Hhash. rewrite Hhash, Hcheck. reflexivity.
  - intros email code Hmail Hne Hcode Hno.
    apply (verify_login_rejects env req w email code); try assumption.
    repeat split; assumption.
Qed.

(** *** Password login *)

(** What a password login does, case by case. *)
Lemma login_password_run (env : Env) (req : Request) (w : World)
  (email password : string) :
  anonymous w ->
  submitted req ->
  field req "email" email ->
  field req "password" password ->
  form_get_default (form req) "login_type" "password" = "password" ->
  login env req w
  = match User_filter_by_email (db w) email with
    | None =>
        respond w ["No account found with this email address"]
          (render_template "login.html")
    | Some user =>
        if negb (str_truthy (User.password_hash user)) then
          respond w ["Please use passwordless login or reset your password"]
            (render_template "login.html")
        else if negb (check_password_hash (User.password_hash user) password) then
          respond w ["Invalid password"] (render_template "login.html")
        else respond (login_user user w) [] (redirect "dashboard")
    end.
Proof.
  intros Ha Hs Hemail Hpw Htype. unfold login.
  rewrite (anonymous_not_authenticated _ Ha).
  destruct (submitted_validates _ Hs) as [-> ->]. cbn [negb].
  rewrite (required_field _ _ _ Hemail).
  destruct (User_filter_by_email (db w) email) as [user |]; [| reflexivity].
  rewrite Htype. cbn [String.eqb Ascii.eqb Bool.eqb andb].
  rewrite (required_field _ _ _ Hpw). reflexivity.
Qed.

Lemma User_filter_by_email_unique (d : Db) (email : string) (u : User.t) :
  NoDup (map User.email (users d)) ->
  account_of d email u ->
  User_filter_by_email d email = Some u.
Proof.
  unfold User_filter_by_email, account_of. intros Hnd [Hin <-].
  induction (users d) as [| x l IH]; [destruct Hin |].
  cbn [map] in Hnd. inversion Hnd as [| ? ? Hx Hl]; subst. cbn.
  destruct (String.eqb_spec (User.email x) (User.email u)) as [Heq | Hne].
  - destruct Hin as [-> | Hin]; [reflexivity |].
    exfalso. apply Hx. rewrite Heq. apply in_map. exact Hin.
  - destruct Hin as [-> | Hin]; [contradiction | apply IH; assumption].
Qed.

(** C4, amended. For a submitted password login (address and password
    given) from an anonymous session, e-mail addresses being unique in
    [users] as the column declares: the session ends logged in as an account
    of the submitted address exactly when the table holds an account of that
    address which has a password hash, whose hash verifies against the
    submitted password, and which is active. The login is then the login of
    that account, answered with the redirect to the dashboard. In every
    other case (no account, no hash, hash mismatch, account not active) the
    world is unchanged and the session stays anonymous. The redirect to the
    dashboard itself does not tell: it is the answer whenever the hash
    verifies, for an account that is not active too. *)
Theorem password_login_authenticates_iff (env : Env) (req : Request)
  (w : World) (email password : string) :
  anonymous w ->
  submitted req ->
  field req "email" email ->
  field req "password" password ->
  form_get_default (form req) "login_type" "password" = "password" ->
  NoDup (map User.email (users (db w))) ->
  ((exists u, account_of (db w) email u
              /\ logged_in_as (fst (login env req w)) u)
   <-> exists u, account_of (db w) email u
                 /\ hash_verifies u password
                 /\ User.is_active u = true)
  /\ (forall u, account_of (db w) email u ->
                hash_verifies u password ->
                User.is_active u = true ->
                login env req w
                = (set_session w
                     (mkSession (Some (User.id u)) (login_email (session w))),
                   mkResponse [] (redirect "dashboard")))
  /\ (~ (exists u, account_of (db w) email u
                   /\ hash_verifies u password
                   /\ User.is_active u = true) ->
      fst (login env req w) = w
      /\ anonymous (fst (login env req w)))
  /\ (body (snd (login env req w)) = redirect "dashboard"
      <-> exists u, account_of (db w) email u /\ hash_verifies u password).
Proof.
  intros Ha Hs Hemail Hpw Htype Hnd.
  rewrite (login_password_run env req w email password Ha Hs Hemail Hpw Htype).
  assert (Hfound : forall u, account_of (db w) email u ->
                             User_filter_by_email (db w) email = Some u)
    by (intros u Hu; apply User_filter_by_email_unique; assumption).
  unfold hash_verifies, logged_in_as.
  destruct (User_filter_by_email (db w) email) as [user |] eqn:Eu.
  - assert (Hacc : account_of (db w) email user)
      by (apply User_filter_by_email_Some; exact Eu).
    assert (Hsame : forall u, account_of (db w) email u -> u = user)
      by (intros u Hu; apply Hfound in Hu; congruence).
    destruct (str_truthy (User.password_hash user)) eqn:Eh; cbn [negb].
    + apply str_truthy_true in Eh.
      destruct (check_password_hash (User.password_hash user) password) eqn:Ec;
        cbn [negb].
      * unfold login_user. destruct (User.is_active user) eqn:Eact; cbn.
        -- split; [| split; [| split]].
           ++ split; intros _; exists user; auto.
           ++ intros u Hu _ _. rewrite (Hsame u Hu). reflexivity.
           ++ intro Hno. exfalso. apply Hno. exists user. auto.
           ++ split; [intros _; exists user; auto | reflexivity].
        -- split; [| split; [| split]].
           ++ split.
              ** intros [u [_ Hlog]]. rewrite Ha in Hlog. discriminate.
              ** intros [u [Hu [_ Hact]]]. rewrite (Hsame u Hu) in Hact.
                 congruence.
           ++ intros u Hu _ Hact. rewrite (Hsame u Hu) in Hact. congruence.
           ++ intros _. split; [reflexivity | exact Ha].
           ++ split; [intros _; exists user; auto | reflexivity].
      * cbn. split; [| split; [| split]].
        -- split.
           ++ intros [u [_ Hlog]]. rewrite Ha in Hlog. discriminate.
           ++ intros [u [Hu [[_ Hc] _]]]. rewrite (Hsame u Hu) in Hc.
              congruence.
        -- intros u Hu [_ Hc] _. rewrite (Hsame u Hu) in Hc. congruence.
        -- intros _. split; [reflexivity | exact Ha].
        -- split; [discriminate |].
           intros [u [Hu [_ Hc]]]. rewrite (Hsame u Hu) in Hc. congruence.
    + assert (Hempty : User.password_hash user = "")
        by (destruct (User.password_hash user); [reflexivity | discriminate]).
      cbn. split; [| split; [| split]].
      * split.
        -- intros [u [_ Hlog]]. rewrite Ha in Hlog. discriminate.
        -- intros [u [Hu [[Hh _] _]]]. rewrite (Hsame u Hu) in Hh.
           contradiction.
      * intros u Hu [Hh _] _. rewrite (Hsame u Hu) in Hh. contradiction.
      * intros _. split; [reflexivity | exact Ha].
      * split; [discriminate |].
        intros [u [Hu [Hh _]]]. rewrite (Hsame u Hu) in Hh. contradiction.
  - cbn. split; [| split; [| split]].
    + split.
      * intros [u [Hu _]]. apply Hfound in Hu. discriminate.
      * intros [u [Hu _]]. apply Hfound in Hu. discriminate.
    + intros u Hu _ _. apply Hfound in Hu. discriminate.
    + intros _. split; [reflexivity | exact Ha].
    + split; [discriminate |].
      intros [u [Hu _]]. apply Hfound in Hu. discriminate.
Qed.

(** *** Registration *)

Lemma is_not_null_false {A : Type} (x : option A) :
  is_not_null x = false -> x = None.
Proof. destruct x; [discriminate | reflexivity]. Qed.

Lemma User_filter_by_email_found (d : Db) (email : string) :
  (exists u, In u (users d) /\ User.email u = email) ->
  is_not_null (User_filter_by_email d email) = true.
Proof.
  intros [u [Hin Heq]].
  destruct (User_filter_by_email d email) eqn:E; [reflexivity |].
  exfalso. exact (proj1 (User_filter_by_email_None d email) E u Hin Heq).
Qed.

Lemma User_filter_by_username_found (d : Db) (username : string) :
  (exists u, In u (users d) /\ User.username u = username) ->
  is_not_null (User_filter_by_username d username) = true.
Proof.
  intros [u [Hin Heq]].
  destruct (User_filter_by_username d username) eqn:E; [reflexivity |].
  exfalso. exact (proj1 (User_filter_by_username_None d username) E u Hin Heq).
Qed.

(** C5. A registration whose e-mail address or username is already in the
    [users] table changes nothing: no row is written and the session is the
    one the request came with. When the attempt is a submitted form with the
    three fields given, from an anonymous session, the registration page is
    shown again with "Email already registered" if the address is taken,
    and with "Username already taken" if only the username is. *)
Theorem register_rejects_existing (env : Env) (req : Request) (w : World)
  (email username : string) :
  form_get (form req) "email" = Some email ->
  form_get (form req) "username" = Some username ->
  (exists u, In u (users (db w)) /\ User.email u = email)
  \/ (exists u, In u (users (db w)) /\ User.username u = username) ->
  fst (register env req w) = w
  /\ (anonymous w -> submitted req ->
      email <> "" -> username <> "" ->
      (exists password, field req "password" password) ->
      body (snd (register env req w)) = render_template "register.html"
      /\ ((exists u, In u (users (db w)) /\ User.email u = email) ->
          flashed (snd (register env req w)) = ["Email already registered"])
      /\ ((forall u, In u (users (db w)) -> User.email u <> email) ->
          flashed (snd (register env req w)) = ["Username already taken"])).
Proof.
  intros Hemail Husername Htaken. split.
  - unfold register.
    destruct (is_authenticated w); [reflexivity |].
    destruct (method req); [reflexivity |].
    destruct (negb (validate_on_submit req)); [reflexivity |].
    destruct (required (form_get (form req) "email")) as [e |] eqn:Ee;
      [| reflexivity].
    destruct (required (form_get (form req) "username")) as [n |] eqn:En;
      [| reflexivity].
    destruct (required (form_get (form req) "password")) as [p |];
      [| reflexivity].
    apply required_Some in Ee as [Ee _]. apply required_Some in En as [En _].
    assert (e = email) as -> by congruence.
    assert (n = username) as -> by congruence.
    destruct (is_not_null (User_filter_by_email (db w) email)) eqn:E1;
      [reflexivity |].
    destruct (is_not_null (User_filter_by_username (db w) username)) eqn:E2;
      [reflexivity |].
    exfalso. destruct Htaken as [H | H].
    + rewrite (User_filter_by_email_found _ _ H) in E1. discriminate.
    + rewrite (User_filter_by_username_found _ _ H) in E2. discriminate.
  - intros Ha Hs Hne Hnu [password Hpw]. unfold register.
    rewrite (anonymous_not_authenticated _ Ha).
    destruct (submitted_validates _ Hs) as [-> ->]. cbn [negb].
    rewrite (required_field req "email" email (conj Hemail Hne)).
    rewrite (required_field req "username" username (conj Husername Hnu)).
    rewrite (required_field _ _ _ Hpw).
    destruct (is_not_null (User_filter_by_email (db w) email)) eqn:E1.
    + cbn. split; [reflexivity |]. split; [reflexivity |].
      intro Hnone. apply User_filter_by_email_None in Hnone.
      rewrite Hnone in E1. discriminate.
    + destruct Htaken as [H | H].
      * rewrite (User_filter_by_email_found _ _ H) in E1. discriminate.
      * rewrite (User_filter_by_username_found _ _ H). cbn.
        split; [reflexivity |]. split; [| reflexivity].
        intro H'. rewrite (User_filter_by_email_found _ _ H') in E1.
        discriminate.
Qed.

End Authentication.

(** *** The statements at the sample data *)

Lemma verify_login_accepts_usable_code_witness :
  App.logged_in_as
    (fst (App.verify_login Sample.env Sample.verify_older_code
            Sample.awaiting_world)) Sample.alice
  <-> App.usable_code Sample.env Sample.database "a@x.com" "111111".
Proof.
  assert (Hw : App.awaiting Sample.awaiting_world "a@x.com")
    by (repeat split; discriminate).
  assert (Hs : App.submitted Sample.verify_older_code)
    by (split; reflexivity).
  assert (Hcode : App.field Sample.verify_older_code "code" "111111")
    by (split; [reflexivity | discriminate]).
  assert (Huser : App.User_filter_by_email (App.db Sample.awaiting_world)
                    "a@x.com" = Some Sample.alice) by reflexivity.
  assert (Hactive : User.is_active Sample.alice = true) by reflexivity.
  exact (proj1 (verify_login_accepts_usable_code Sample.env
                  Sample.verify_older_code Sample.awaiting_world
                  "a@x.com" "111111" Sample.alice Hw Hs Hcode Huser Hactive)).
Defined.

(** C1 as it is written fails: with two unused codes stored for one address,
    the older one, two minutes old, logs the account in, although it is not
    the most recent unused code of that address. *)
Lemma verify_login_accepts_older_code :
  App.logged_in_as
    (fst (App.verify_login Sample.env Sample.verify_older_code
            Sample.awaiting_world)) Sample.alice
  /\ App.most_recent_unused Sample.database "a@x.com" = Some Sample.newer_code
  /\ ~ App.spec_accepts Sample.env Sample.database "a@x.com" "111111".
Proof.
  split; [reflexivity |]. split; [reflexivity |].
  intros [r [Hr [Hc _]]].
  change (Some Sample.newer_code = Some r) in Hr.
  injection Hr as <-. discriminate.
Qed.

Lemma credential_failure_messages_witness :
  App.login (werkzeug := Sample.werkzeug) Sample.env
    Sample.login_wrong_password Sample.fresh_world
  = (Sample.fresh_world,
     App.mkResponse ["Invalid password"] (App.render_template "login.html")).
Proof.
  assert (Ha : App.anonymous Sample.fresh_world) by reflexivity.
  assert (Hs : App.submitted Sample.login_wrong_password)
    by (split; reflexivity).
  assert (Hemail : App.field Sample.login_wrong_password "email" "a@x.com")
    by (split; [reflexivity | discriminate]).
  assert (Hpw : App.field Sample.login_wrong_password "password" "wrong")
    by (split; [reflexivity | discriminate]).
  assert (Huser : App.User_filter_by_email (App.db Sample.fresh_world)
                    "a@x.com" = Some Sample.alice) by reflexivity.
  assert (Htype : App.form_get_default (App.form Sample.login_wrong_password)
                    "login_type" "password" = "password") by reflexivity.
  assert (Hhash : User.password_hash Sample.alice <> "") by discriminate.
  assert (Hcheck : App.check_password_hash (Werkzeug := Sample.werkzeug)
                     (User.password_hash Sample.alice) "wrong" = false)
    by reflexivity.
  pose proof (credential_failure_messages (werkzeug := Sample.werkzeug)
                Sample.env Sample.login_wrong_password Sample.fresh_world
                Ha Hs) as [Hlogin _].
  destruct (Hlogin "a@x.com" Hemail) as [_ Hcases].
  destruct (Hcases Sample.alice "wrong" Huser Htype Hpw) as [_ Hwrong].
  exact (Hwrong Hhash Hcheck).
Defined.

(** C2 as it is written fails: an unknown address, a wrong password and a
    wrong code are three failures (the world is unchanged each time) with
    three different messages. *)
Lemma login_failure_messages_differ :
  fst (App.login (werkzeug := Sample.werkzeug) Sample.env
         Sample.login_unknown_address Sample.fresh_world) = Sample.fresh_world
  /\ fst (App.login (werkzeug := Sample.werkzeug) Sample.env
            Sample.login_wrong_password Sample.fresh_world) = Sample.fresh_world
  /\ fst (App.verify_login Sample.env Sample.verify_wrong_code
            Sample.awaiting_world) = Sample.awaiting_world
  /\ App.flashed (snd (App.login (werkzeug := Sample.werkzeug) Sample.env
                         Sample.login_unknown_address Sample.fresh_world))
     <> App.flashed (snd (App.login (werkzeug := Sample.werkzeug) Sample.env
                            Sample.login_wrong_password Sample.fresh_world))
  /\ App.flashed (snd (App.login (werkzeug := Sample.werkzeug) Sample.env
                         Sample.login_wrong_password Sample.fresh_world))
     <> App.flashed (snd (App.verify_login Sample.env Sample.verify_wrong_code
                            Sample.awaiting_world))
  /\ App.flashed (snd (App.login (werkzeug := Sample.werkzeug) Sample.env
                         Sample.login_unknown_address Sample.fresh_world))
     <> App.flashed (snd (App.verify_login Sample.env Sample.verify_wrong_code
                            Sample.awaiting_world)).
Proof.
  repeat split; discriminate.
Qed.

Lemma mail_failure_keeps_issued_code_witness :
  snd (App.login (werkzeug := Sample.werkzeug) Sample.env Sample.request_code
         Sample.fresh_world)
  = App.mkResponse ["Error sending verification code"]
      (App.render_template "login.html")
  /\ exists r : PasswordReset.t,
       App.password_resets
         (App.db (fst (App.login (werkzeug := Sample.werkzeug) Sample.env
                         Sample.request_code Sample.fresh_world)))
       = App.password_resets (App.db Sample.fresh_world) ++ [r]
       /\ PasswordReset.email r = "a@x.com"
       /\ PasswordReset.code r = App.generate_code Sample.env
       /\ String.length (PasswordReset.code r) = 6%nat
       /\ Forall (fun c => App.is_digit c = true)
            (list_ascii_of_string (PasswordReset.code r))
       /\ PasswordReset.created_at r = App.utcnow Sample.env
       /\ PasswordReset.used r = false
       /\ App.users
            (App.db (fst (App.login (werkzeug := Sample.werkzeug) Sample.env
                            Sample.request_code Sample.fresh_world)))
          = App.users (App.db Sample.fresh_world)
       /\ App.session
            (fst (App.login (werkzeug := Sample.werkzeug) Sample.env
                    Sample.request_code Sample.fresh_world))
          = App.session Sample.fresh_world
       /\ App.outbox
            (fst (App.login (werkzeug := Sample.werkzeug) Sample.env
                    Sample.request_code Sample.fresh_world))
          = App.outbox Sample.fresh_world.
Proof.
  assert (Ha : App.anonymous Sample.fresh_world) by reflexivity.
  assert (Hs : App.submitted Sample.request_code) by (split; reflexivity).
  assert (Hemail : App.field Sample.request_code "email" "a@x.com")
    by (split; [reflexivity | discriminate]).
  assert (Htype : App.form_get_default (App.form Sample.request_code)
                    "login_type" "password" <> "password") by discriminate.
  assert (Huser : App.User_filter_by_email (App.db Sample.fresh_world)
                    "a@x.com" = Some Sample.alice) by reflexivity.
  assert (Hcommit : App.commit_ok Sample.env = true) by reflexivity.
  assert (Hmail : App.mail_ok Sample.env = false) by reflexivity.
  exact (mail_failure_keeps_issued_code (werkzeug := Sample.werkzeug)
           Sample.env Sample.request_code Sample.fresh_world
           "a@x.com" Sample.alice Ha Hs Hemail Htype Huser Hcommit Hmail).
Defined.

Lemma password_login_authenticates_iff_witness :
  App.login (werkzeug := Sample.werkzeug) Sample.env
    Sample.login_right_password Sample.fresh_world
  = (App.set_session Sample.fresh_world (App.mkSession (Some 1) None),
     App.mkResponse [] (App.redirect "dashboard")).
Proof.
  assert (Ha : App.anonymous Sample.fresh_world) by reflexivity.
  assert (Hs : App.submitted Sample.login_right_password)
    by (split; reflexivity).
  assert (Hemail : App.field Sample.login_right_password "email" "a@x.com")
    by (split; [reflexivity | discriminate]).
  assert (Hpw : App.field Sample.login_right_password "password"
                  "correct horse")
    by (split; [reflexivity | discriminate]).
  assert (Htype : App.form_get_default (App.form Sample.login_right_password)
                    "login_type" "password" = "password") by reflexivity.
  assert (Hnd : NoDup (map User.email (App.users (App.db Sample.fresh_world)))).
  { constructor; [intros [] | constructor]. }
  assert (Hacc : App.account_of (App.db Sample.fresh_world) "a@x.com"
                   Sample.alice)
    by (split; [left; reflexivity | reflexivity]).
  assert (Hhash : App.hash_verifies (werkzeug := Sample.werkzeug) Sample.alice
                    "correct horse")
    by (split; [discriminate | reflexivity]).
  assert (Hact : User.is_active Sample.alice = true) by reflexivity.
  exact (proj1 (proj2 (password_login_authenticates_iff
                         (werkzeug := Sample.werkzeug) Sample.env
                         Sample.login_right_password Sample.fresh_world
                         "a@x.com" "correct horse" Ha Hs Hemail Hpw Htype Hnd))
           Sample.alice Hacc Hhash Hact).
Defined.

(** C4 as it was stated does not hold: the account found for [c@x.com] has
    a password hash and the hash verifies against the submitted password,
    yet the login does not authenticate anybody, because the account is not
    active and flask-login then refuses to log it in. The handler does not
    look at what [login_user] returns: the world is as before and the answer
    is the redirect to the dashboard all the same. *)
Lemma password_login_inactive_account :
  App.password_verifies (werkzeug := Sample.werkzeug)
    (App.db Sample.world_with_carol) "c@x.com" "correct horse"
  /\ App.login (werkzeug := Sample.werkzeug) Sample.env Sample.login_carol
       Sample.world_with_carol
     = (Sample.world_with_carol, App.mkResponse [] (App.redirect "dashboard"))
  /\ App.is_authenticated
       (fst (App.login (werkzeug := Sample.werkzeug) Sample.env
               Sample.login_carol Sample.world_with_carol)) = false.
Proof.
  split; [| split; reflexivity].
  exists Sample.carol.
  split; [reflexivity |]. split; [discriminate | reflexivity].
Qed.

Lemma register_rejects_existing_witness :
  fst (App.register (werkzeug := Sample.werkzeug) Sample.env
         Sample.register_taken_address Sample.fresh_world)
  = Sample.fresh_world.
Proof.
  assert (Hemail : App.form_get (App.form Sample.register_taken_address)
                     "email" = Some "a@x.com") by reflexivity.
  assert (Hname : App.form_get (App.form Sample.register_taken_address)
                    "username" = Some "bob") by reflexivity.
  assert (Htaken : (exists u, In u (App.users (App.db Sample.fresh_world))
                              /\ User.email u = "a@x.com")
                   \/ (exists u, In u (App.users (App.db Sample.fresh_world))
                                 /\ User.username u = "bob")).
  { left. exists Sample.alice. split; [left |]; reflexivity. }
  exact (proj1 (register_rejects_existing (werkzeug := Sample.werkzeug)
                  Sample.env Sample.register_taken_address Sample.fresh_world
                  "a@x.com" "bob" Hemail Hname Htaken)).
Defined.

Lemma login_issues_codes_to_accounts_only_witness :
  fst (App.login (werkzeug := Sample.werkzeug) Sample.env
         Sample.request_code_unknown Sample.fresh_world)
  = Sample.fresh_world.
Proof.
  assert (Hemail : App.form_get (App.form Sample.request_code_unknown)
                     "email" = Some "b@x.com") by reflexivity.
  assert (Hnone : forall u, In u (App.users (App.db Sample.fresh_world)) ->
                            User.email u <> "b@x.com")
    by (intros u [<- | []]; discriminate).
  exact (proj1 (proj1 (login_issues_codes_to_accounts_only
                         (werkzeug := Sample.werkzeug) Sample.env
                         Sample.request_code_unknown Sample.fresh_world)
                  "b@x.com" Hemail Hnone)).
Defined.

(** ** Registration and the declared form *)

Section RegistrationForm.

Import App.

Context {werkzeug : Werkzeug}.

(** [/register] stores the account as soon as the three fields are
    non-empty and neither address nor username is taken: the lengths, the
    shape of the address and the terms box of [RegistrationForm] play no
    part. *)
Lemma register_creates_account (env : Env) (req : Request) (w : World)
  (email username password : string) :
  anonymous w ->
  submitted req ->
  field req "email" email ->
  field req "username" username ->
  field req "password" password ->
  (forall u, In u (users (db w)) -> User.email u <> email) ->
  (forall u, In u (users (db w)) -> User.username u <> username) ->
  commit_ok env = true ->
  register env req w
  = (let user := new_user (db w) email username
                   (generate_password_hash (salt env) password) in
     mkWorld (add_user user (db w))
       (mkSession (Some (User.id user)) (login_email (session w)))
       (outbox w),
     mkResponse [] (redirect "dashboard")).
Proof.
  intros Ha Hs He Hn Hp Hfree_e Hfree_n Hcommit. unfold register.
  rewrite (anonymous_not_authenticated _ Ha).
  destruct (submitted_validates _ Hs) as [-> ->]. cbn [negb].
  rewrite (required_field _ _ _ He), (required_field _ _ _ Hn),
    (required_field _ _ _ Hp).
  apply User_filter_by_email_None in Hfree_e.
  apply User_filter_by_username_None in Hfree_n.
  rewrite Hfree_e, Hfree_n, Hcommit. reflexivity.
Qed.

End RegistrationForm.

(** C6 fails on the handler. The sample registration breaks three declared
    constraints of [RegistrationForm] (username shorter than 3, password
    shorter than 8, terms not accepted), whatever the e-mail validator says;
    [/register], which validates a bare [FlaskForm], stores the account all
    the same and logs it in. *)
Theorem register_ignores_registration_form :
  (forall validate_email : string -> bool,
      Forms.RegistrationForm_validate validate_email Sample.register_short_data
      = false
      /\ In ("username", ["Username must be at least 3 characters long"])
           (Forms.RegistrationForm_errors validate_email
              Sample.register_short_data)
      /\ In ("password", ["Password must be at least 8 characters long"])
           (Forms.RegistrationForm_errors validate_email
              Sample.register_short_data)
      /\ In ("terms", ["You must accept the terms"])
           (Forms.RegistrationForm_errors validate_email
              Sample.register_short_data))
  /\ App.register (werkzeug := Sample.werkzeug) Sample.env
       Sample.register_short Sample.fresh_world
     = (App.mkWorld
          (App.mkDb [Sample.alice; User.mk 2 "ab" "b@x.com" "s2$short" true]
             [Sample.older_code; Sample.newer_code])
          (App.mkSession (Some 2) None) [],
        App.mkResponse [] (App.redirect "dashboard")).
Proof.
  split; [| reflexivity].
  intro validate_email.
  unfold Forms.RegistrationForm_validate, Forms.RegistrationForm_errors,
    Forms.RegistrationForm_username, Forms.RegistrationForm_email,
    Forms.RegistrationForm_password, Forms.RegistrationForm_referral_code,
    Forms.RegistrationForm_terms, Forms.Email, Sample.register_short_data.
  cbv [Forms.reg_username Forms.reg_email Forms.reg_password
       Forms.reg_referral_code Forms.reg_terms].
  cbn. destruct (validate_email "b@x.com"); vm_compute; repeat split; auto 10.
Qed.

(** * Further properties *)

(** ** Keys and uniqueness in the tables *)

Section TableKeys.

Lemma le_fold_max (ids : list Z) (x : Z) :
  In x ids -> x <= fold_right Z.max 0 ids.
Proof.
  induction ids as [| a l IH]; intros Hin; [destruct Hin |].
  cbn. destruct Hin as [<- | Hin]; [lia | apply IH in Hin; lia].
Qed.

Lemma next_id_fresh (ids : list Z) : ~ In (next_id ids) ids.
Proof.
  intro Hin. apply le_fold_max in Hin. unfold next_id in Hin. lia.
Qed.

Lemma NoDup_snoc {A : Type} (l : list A) (a : A) :
  NoDup l -> ~ In a l -> NoDup (l ++ [a]).
Proof.
  intros Hl Ha. induction Hl as [| x l Hx Hl IH]; cbn.
  - constructor; [intros [] | constructor].
  - constructor.
    + intro Hin. apply in_app_or in Hin as [Hin | [<- | []]].
      * contradiction.
      * apply Ha. left; reflexivity.
    + apply IH. intro Hin. apply Ha. right; exact Hin.
Qed.

Lemma NoDup_map_filter {A B : Type} (f : A -> B) (g : A -> bool) (l : list A) :
  NoDup (map f l) -> NoDup (map f (filter g l)).
Proof.
  induction l as [| a l IH]; cbn; intro H; [constructor |].
  inversion H as [| ? ? Ha Hl]; subst.
  destruct (g a); cbn; [constructor |]; auto.
  intro Hin. apply Ha. apply in_map_iff in Hin as [x [Hx Hin]].
  apply filter_In in Hin as [Hin _]. apply in_map_iff. exists x; auto.
Qed.

Lemma filter_swap {A : Type} (g h : A -> bool) (l : list A) :
  filter g (filter h l) = filter h (filter g l).
Proof.
  induction l as [| a l IH]; cbn; [reflexivity |].
  destruct (g a) eqn:Eg, (h a) eqn:Eh; cbn; rewrite ?Eg, ?Eh, IH; reflexivity.
Qed.

Lemma same_target_Some (a : option Z) (p : Z) :
  Reaction.same_target a (Some p) = true <-> a = Some p.
Proof.
  destruct a as [x |]; cbn; [| split; discriminate].
  rewrite Z.eqb_eq. split; [intros -> | intros [= ->]]; reflexivity.
Qed.

Lemma existsb_false {A : Type} (f : A -> bool) (l : list A) :
  existsb f l = false <-> forall x, In x l -> f x = false.
Proof.
  split.
  - intros H x Hx. destruct (f x) eqn:E; [| reflexivity].
    rewrite <- H. symmetry. apply existsb_exists. exists x; auto.
  - intro H. destruct (existsb f l) eqn:E; [| reflexivity].
    apply existsb_exists in E as [x [Hx Hf]]. rewrite (H x Hx) in Hf.
    discriminate.
Qed.

(** *** One reaction per user and target *)

Section OneTarget.

(** [proj] is [Reaction.post_id] or [Reaction.comment_id]; [conflict] is the
    matching UNIQUE constraint. *)
Variable proj : Reaction.t -> option Z.

Hypothesis proj_with_id :
  forall i r, proj (Reaction.with_id i r) = proj r.

Let conflict (r x : Reaction.t) : bool :=
  Z.eqb (Reaction.user_id r) (Reaction.user_id x)
  && Reaction.same_target (proj r) (proj x).

Let aimed_at (p : Z) (x : Reaction.t) : bool :=
  Reaction.same_target (proj x) (Some p).

Lemma no_conflict_fresh_user (r : Reaction.t) (others : list Reaction.t)
  (p : Z) :
  (forall x, In x others -> conflict r x = false) ->
  proj r = Some p ->
  ~ In (Reaction.user_id r)
      (map Reaction.user_id (filter (aimed_at p) others)).
Proof.
  intros Hno Hr Hin. apply in_map_iff in Hin as [x [Hu Hx]].
  apply filter_In in Hx as [Hx Hp].
  apply same_target_Some in Hp.
  specialize (Hno x Hx). unfold conflict in Hno.
  rewrite Hu, Z.eqb_refl, Hr, Hp in Hno. cbn in Hno.
  rewrite Z.eqb_refl in Hno. discriminate.
Qed.

Lemma insert_keeps_one_per_user (table : list Reaction.t) (r : Reaction.t)
  (i p : Z) :
  NoDup (map Reaction.user_id (filter (aimed_at p) table)) ->
  existsb (conflict r) table = false ->
  NoDup (map Reaction.user_id
           (filter (aimed_at p) (table ++ [Reaction.with_id i r]))).
Proof.
  intros Hnd Hno. rewrite filter_app, map_app. cbn [filter].
  unfold aimed_at at 2. rewrite proj_with_id.
  destruct (Reaction.same_target (proj r) (Some p)) eqn:E; cbn.
  - apply NoDup_snoc; [exact Hnd |].
    apply no_conflict_fresh_user.
    + apply existsb_false. exact Hno.
    + apply same_target_Some. exact E.
  - rewrite app_nil_r. exact Hnd.
Qed.

Lemma update_keeps_one_per_user (table : list Reaction.t) (r : Reaction.t)
  (i p : Z) :
  NoDup (map Reaction.id table) ->
  NoDup (map Reaction.user_id (filter (aimed_at p) table)) ->
  existsb (conflict r)
    (filter (fun x => negb (Z.eqb (Reaction.id x) i)) table) = false ->
  NoDup (map Reaction.user_id
           (filter (aimed_at p)
              (map (fun x => if Z.eqb (Reaction.id x) i
                             then Reaction.with_id i r else x) table))).
Proof.
  intros Hids Hnd Hno.
  rewrite existsb_false in Hno.
  induction table as [| x l IH]; [constructor |].
  cbn [map] in Hids. inversion Hids as [| ? ? Hx Hl]; subst.
  assert (Hno_l : forall y, In y (filter (fun x => negb (Z.eqb (Reaction.id x) i)) l)
                            -> conflict r y = false).
  { intros y Hy. apply Hno. cbn [filter].
    destruct (negb (Reaction.id x =? i)); [right |]; exact Hy. }
  assert (Hnd_l : NoDup (map Reaction.user_id (filter (aimed_at p) l))).
  { cbn [filter] in Hnd. destruct (aimed_at p x); [| exact Hnd].
    cbn in Hnd. inversion Hnd; assumption. }
  specialize (IH Hl Hnd_l Hno_l).
  cbn [map]. destruct (Z.eqb_spec (Reaction.id x) i) as [Heq | Hne].
  - (* the updated row: no other row has its key *)
    assert (Hsame : map (fun x => if Z.eqb (Reaction.id x) i
                                  then Reaction.with_id i r else x) l = l).
    { rewrite <- (map_id l) at 2. apply map_ext_in. intros y Hy.
      destruct (Z.eqb_spec (Reaction.id y) i) as [Hy' | _]; [| reflexivity].
      exfalso. apply Hx. apply in_map_iff. exists y. split; [congruence | exact Hy]. }
    rewrite Hsame. cbn [filter]. unfold aimed_at at 1. rewrite proj_with_id.
    destruct (Reaction.same_target (proj r) (Some p)) eqn:E; [| exact Hnd_l].
    cbn. constructor; [| exact Hnd_l].
    apply no_conflict_fresh_user; [| apply same_target_Some; exact E].
    intros y Hy. apply Hno_l. apply filter_In. split; [exact Hy |].
    destruct (Z.eqb_spec (Reaction.id y) i) as [Hy' | _]; [| reflexivity].
    exfalso. apply Hx. apply in_map_iff. exists y. split; [congruence | exact Hy].
  - cbn [filter]. destruct (aimed_at p x) eqn:Ex; [| exact IH].
    cbn. constructor; [| exact IH].
    intro Hin. apply in_map_iff in Hin as [y [Hu Hy]].
    apply filter_In in Hy as [Hy Hyp].
    apply in_map_iff in Hy as [z [Hz Hzl]].
    destruct (Z.eqb_spec (Reaction.id z) i) as [_ | _].
    + (* [y] is the updated row: it does not collide with [x] *)
      subst y. unfold aimed_at in Hyp, Ex. rewrite proj_with_id in Hyp.
      apply same_target_Some in Hyp, Ex.
      assert (Hc : conflict r x = false).
      { apply Hno. cbn [filter].
        destruct (Z.eqb_spec (Reaction.id x) i); [contradiction |].
        left; reflexivity. }
      unfold conflict in Hc. cbn in Hu. rewrite Hu, Z.eqb_refl, Hyp, Ex in Hc.
      cbn in Hc. rewrite Z.eqb_refl in Hc. discriminate.
    + subst z. cbn [filter] in Hnd. rewrite Ex in Hnd. cbn in Hnd.
      inversion Hnd as [| ? ? Hfresh _]; subst. apply Hfresh.
      apply in_map_iff. exists y. split; [exact Hu |].
      apply filter_In. split; assumption.
Qed.

End OneTarget.

Lemma check_constraints_unique (others : list Reaction.t) (r : Reaction.t) :
  Reaction.check_constraints others r = None ->
  existsb (Reaction.uix_user_post_reaction r) others = false
  /\ existsb (Reaction.uix_user_comment_reaction r) others = false.
Proof.
  unfold Reaction.check_constraints.
  destruct (negb (Reaction.chk_reaction_target r)); [discriminate |].
  destruct (existsb (Reaction.uix_user_post_reaction r) others);
    [discriminate |].
  destruct (existsb (Reaction.uix_user_comment_reaction r) others);
    [discriminate | auto].
Qed.

(** In every state the [reactions] table can reach, the primary keys are
    distinct and no user is counted twice among the reactions of a post, nor
    among the reactions of a comment. *)
Theorem reactions_count_each_user_once (table : list Reaction.t) :
  Reaction.reachable table ->
  NoDup (map Reaction.id table)
  /\ (forall post : Z,
         NoDup (map Reaction.user_id (Relationship.Post_reactions table post)))
  /\ (forall comment : Z,
         NoDup (map Reaction.user_id
                  (Relationship.Comment_reactions table comment))).
Proof.
  unfold Relationship.Post_reactions, Relationship.Comment_reactions.
  induction 1 as [| t r t' _ [IHid [IHp IHc]] Hins
                  | t i r t' _ [IHid [IHp IHc]] Hupd
                  | t i _ [IHid [IHp IHc]]].
  - repeat split; intros; constructor.
  - unfold Reaction.insert in Hins.
    destruct (Reaction.check_constraints t r) eqn:E; [discriminate |].
    injection Hins as <-. apply check_constraints_unique in E as [Ep Ec].
    split; [| split].
    + rewrite map_app. cbn. apply NoDup_snoc; [exact IHid | apply next_id_fresh].
    + intro post.
      apply (insert_keeps_one_per_user Reaction.post_id (fun _ _ => eq_refl));
        [apply IHp | exact Ep].
    + intro comment.
      apply (insert_keeps_one_per_user Reaction.comment_id (fun _ _ => eq_refl));
        [apply IHc | exact Ec].
  - unfold Reaction.update in Hupd.
    destruct (Reaction.check_constraints _ r) eqn:E; [discriminate |].
    injection Hupd as <-. apply check_constraints_unique in E as [Ep Ec].
    split; [| split].
    + rewrite map_map.
      rewrite (map_ext_in _ Reaction.id); [exact IHid |].
      intros x _. destruct (Z.eqb_spec (Reaction.id x) i); [| reflexivity].
      cbn. congruence.
    + intro post.
      apply (update_keeps_one_per_user Reaction.post_id (fun _ _ => eq_refl));
        [exact IHid | apply IHp | exact Ep].
    + intro comment.
      apply (update_keeps_one_per_user Reaction.comment_id (fun _ _ => eq_refl));
        [exact IHid | apply IHc | exact Ec].
  - unfold Reaction.delete. split; [| split].
    + apply NoDup_map_filter. exact IHid.
    + intro post. rewrite filter_swap. apply NoDup_map_filter. apply IHp.
    + intro comment. rewrite filter_swap. apply NoDup_map_filter. apply IHc.
Qed.

(** *** One vote per user and option *)

Lemma insert_vote_Ok (votes votes' : list PollVote.t) (v : PollVote.t) :
  PollVote.insert votes v = Ok votes' ->
  (forall x, In x votes -> PollVote.uix_user_option_vote v x = false)
  /\ votes' = votes ++ [PollVote.with_id (next_id (map PollVote.id votes)) v].
Proof.
  unfold PollVote.insert.
  destruct (existsb (PollVote.uix_user_option_vote v) votes) eqn:E;
    [discriminate |].
  intros [= <-]. split; [apply existsb_false; exact E | reflexivity].
Qed.

(** In every state the [poll_votes] table can reach, the primary keys are
    distinct and [PollOption.votes] holds at most one vote of each user, so
    [vote_count] counts voters; a vote the table accepts raises the count of
    its option by one and leaves the counts of the other options alone. *)
Theorem poll_votes_count_each_user_once (votes : list PollVote.t) :
  PollVote.reachable votes ->
  NoDup (map PollVote.id votes)
  /\ (forall o : PollOption.t,
         NoDup (map PollVote.user_id (Relationship.PollOption_votes votes o)))
  /\ (forall (v : PollVote.t) (votes' : list PollVote.t) (o : PollOption.t),
         PollVote.insert votes v = Ok votes' ->
         Relationship.PollOption_vote_count votes' o
         = (Relationship.PollOption_vote_count votes o
            + if Z.eqb (PollVote.option_id v) (PollOption.id o)
              then 1 else 0)%nat).
Proof.
  intro Hreach.
  assert (Hinv : NoDup (map PollVote.id votes)
                 /\ forall o : PollOption.t,
                      NoDup (map PollVote.user_id
                               (Relationship.PollOption_votes votes o))).
  { unfold Relationship.PollOption_votes.
    induction Hreach as [| t v t' _ [IHid IHo] Hins | t i _ [IHid IHo]].
    - split; intros; constructor.
    - apply insert_vote_Ok in Hins as [Hno ->]. split.
      + rewrite map_app. cbn. apply NoDup_snoc; [exact IHid | apply next_id_fresh].
      + intro o. rewrite filter_app, map_app. cbn.
        destruct (Z.eqb_spec (PollVote.option_id v) (PollOption.id o))
          as [Ho | _]; cbn; [| rewrite app_nil_r; apply IHo].
        apply NoDup_snoc; [apply IHo |].
        intro Hin. apply in_map_iff in Hin as [x [Hu Hx]].
        apply filter_In in Hx as [Hx Hxo]. apply Z.eqb_eq in Hxo.
        specialize (Hno x Hx). unfold PollVote.uix_user_option_vote in Hno.
        rewrite Hu, Z.eqb_refl, Ho, <- Hxo, Z.eqb_refl in Hno. discriminate.
    - unfold PollVote.delete. split.
      + apply NoDup_map_filter. exact IHid.
      + intro o. rewrite filter_swap. apply NoDup_map_filter. apply IHo. }
  destruct Hinv as [Hid Ho]. split; [exact Hid |]. split; [exact Ho |].
  intros v votes' o Hins. apply insert_vote_Ok in Hins as [_ ->].
  unfold Relationship.PollOption_vote_count, Relationship.PollOption_votes.
  rewrite filter_app, length_app. cbn.
  destruct (PollVote.option_id v =? PollOption.id o); reflexivity.
Qed.

(** *** The settings row *)

(** [get_settings] is a get-or-create: when it returns, the returned row is
    the first row of the table; a table that had rows is left as it was; an
    empty table receives one row of defaults (menu off, maintenance off,
    registration on); and calling it again, at any time and whatever the
    database then does with commits, returns the same row and the same
    table. *)
Theorem get_settings_get_or_create (now : Z) (commit_ok : bool)
  (table table' : list SystemSettings.t) (settings : SystemSettings.t) :
  SystemSettings.get_settings now commit_ok table = Some (settings, table') ->
  hd_error table' = Some settings
  /\ (table <> [] -> table' = table)
  /\ (table = [] ->
      table' = [settings]
      /\ settings = SystemSettings.mk 1 false false true now)
  /\ (forall (now' : Z) (commit_ok' : bool),
         SystemSettings.get_settings now' commit_ok' table'
         = Some (settings, table')).
Proof.
  unfold SystemSettings.get_settings.
  destruct table as [| s l].
  - destruct commit_ok; [| discriminate]. intros [= <- <-]. cbn.
    split; [reflexivity |]. split; [intro H; contradiction |].
    split; [intros _; split; reflexivity | reflexivity].
  - intros [= <- <-]. cbn.
    split; [reflexivity |]. split; [reflexivity |].
    split; [intro H; discriminate | reflexivity].
Qed.

(** *** Channel slugs: the form check and the UNIQUE column agree *)

Section ChannelSlug.

Variable slugify : string -> string.

Lemma Channel_filter_by_slug_existsb (channels : list Channel.t)
  (slug : string) :
  existsb (fun x => String.eqb (Channel.slug x) slug) channels
  = is_not_null (Forms.Channel_filter_by_slug channels slug).
Proof.
  unfold Forms.Channel_filter_by_slug.
  induction channels as [| c l IH]; cbn; [reflexivity |].
  destruct (String.eqb (Channel.slug c) slug); [reflexivity | exact IH].
Qed.

(** A channel whose slug is [slugify name] is accepted by the INSERT into
    [channels] exactly when [validate_name] lets [name] through; and the
    accepted row keeps the stored slugs pairwise distinct. *)
Theorem validate_name_agrees_with_unique_slug (channels : list Channel.t)
  (name : string) (c : Channel.t) :
  Channel.slug c = slugify name ->
  (Forms.validate_name slugify channels name = None
   <-> exists table', Channel.insert channels c = Ok table')
  /\ (forall table',
         Channel.insert channels c = Ok table' ->
         NoDup (map Channel.slug channels) ->
         NoDup (map Channel.slug table')).
Proof.
  intro Hslug. unfold Forms.validate_name, Channel.insert.
  rewrite Hslug, Channel_filter_by_slug_existsb.
  destruct (Forms.Channel_filter_by_slug channels (slugify name)) as [x |] eqn:E;
    cbn.
  - split.
    + split; [discriminate | intros [t H]; discriminate].
    + intros t H; discriminate.
  - split.
    + split; [intros _; eexists; reflexivity | reflexivity].
    + intros t [= <-] Hnd. rewrite map_app. cbn.
      apply NoDup_snoc; [exact Hnd |].
      rewrite Hslug. intro Hin. apply in_map_iff in Hin as [y [Hy Hin]].
      unfold Forms.Channel_filter_by_slug in E.
      apply (find_none _ _ E) in Hin. cbn in Hin.
      rewrite Hy, String.eqb_refl in Hin. discriminate.
Qed.

End ChannelSlug.

End TableKeys.

(** ** The routes, one request after another *)

Section Transitions.

Import App.

Context {werkzeug : Werkzeug}.

(** *** What a request can do to the world *)

Lemma login_cases (env : Env) (req : Request) (w : World) :
  fst (login env req w) = w
  \/ (exists email user password,
         User_filter_by_email (db w) email = Some user
         /\ check_password_hash (User.password_hash user) password = true
         /\ fst (login env req w) = login_user user w)
  \/ (exists email user,
         User_filter_by_email (db w) email = Some user
         /\ commit_ok env = true
         /\ fst (login env req w)
            = set_db w (add_password_reset env email (generate_code env)
                          (db w))).
Proof.
  unfold login.
  destruct (is_authenticated w); [auto |].
  destruct (method req); [auto |].
  destruct (negb (validate_on_submit req)); [auto |].
  destruct (required (form_get (form req) "email")) as [email |]; [| auto].
  destruct (User_filter_by_email (db w) email) as [user |] eqn:Eu; [| auto].
  destruct (String.eqb _ "password").
  - destruct (required (form_get (form req) "password")) as [password |];
      [| auto].
    destruct (negb (str_truthy (User.password_hash user))); [auto |].
    destruct (check_password_hash (User.password_hash user) password) eqn:Ec;
      cbn [negb]; [| auto].
    right; left. exists email, user, password. auto.
  - destruct (commit_ok env) eqn:Ecommit; [| auto].
    right; right. exists email, user. split; [exact Eu |].
    split; [reflexivity |].
    rewrite send_verification_code_fails. reflexivity.
Qed.

Lemma verify_login_cases (env : Env) (req : Request) (w : World) :
  fst (verify_login env req w) = w
  \/ (exists email code user r,
         login_email (session w) = Some email
         /\ form_get (form req) "code" = Some code
         /\ PasswordReset_query (db w) email code = Some r
         /\ within_30_minutes env r
         /\ User_filter_by_email (db w) email = Some user
         /\ ((commit_ok env = false
              /\ fst (verify_login env req w) = login_user user w)
             \/ (commit_ok env = true
                 /\ fst (verify_login env req w)
                    = mkWorld (mark_used (PasswordReset.id r) (db w))
                        (mkSession
                           (session_user_id (session (login_user user w))) None)
                        (outbox w)))).
Proof.
  unfold verify_login.
  destruct (is_authenticated w); [auto |].
  destruct (required (login_email (session w))) as [email |] eqn:Ee; [| auto].
  apply required_Some in Ee as [Ee _].
  destruct (method req); [auto |].
  destruct (negb (validate_on_submit req)); [auto |].
  destruct (required (form_get (form req) "code")) as [code |] eqn:Ec; [| auto].
  apply required_Some in Ec as [Ec _].
  destruct (PasswordReset_query (db w) email code) as [r |] eqn:Eq; [| auto].
  destruct (Z.gtb_spec (utcnow env - PasswordReset.created_at r)
              (timedelta_minutes 30)) as [_ | Hfresh]; [auto |].
  destruct (User_filter_by_email (db w) email) as [user |] eqn:Eu; [| auto].
  right. exists email, code, user, r.
  repeat (split; [first [reflexivity | assumption] |]).
  destruct (commit_ok env); cbn.
  - right. split; [reflexivity |].
    unfold login_user. destruct (User.is_active user); reflexivity.
  - left. auto.
Qed.

Lemma register_cases (env : Env) (req : Request) (w : World) :
  fst (register env req w) = w
  \/ (exists email username password,
         field req "email" email
         /\ field req "username" username
         /\ field req "password" password
         /\ (forall u, In u (users (db w)) -> User.email u <> email)
         /\ (forall u, In u (users (db w)) -> User.username u <> username)
         /\ fst (register env req w)
            = mkWorld
                (add_user
                   (new_user (db w) email username
                      (generate_password_hash (salt env) password)) (db w))
                (mkSession (Some (next_id (map User.id (users (db w)))))
                   (login_email (session w)))
                (outbox w)).
Proof.
  unfold register.
  destruct (is_authenticated w); [auto |].
  destruct (method req); [auto |].
  destruct (negb (validate_on_submit req)); [auto |].
  destruct (required (form_get (form req) "email")) as [email |] eqn:Ee;
    [| auto].
  destruct (required (form_get (form req) "username")) as [username |] eqn:En;
    [| auto].
  destruct (required (form_get (form req) "password")) as [password |] eqn:Ep;
    [| auto].
  destruct (is_not_null (User_filter_by_email (db w) email)) eqn:E1; [auto |].
  destruct (is_not_null (User_filter_by_username (db w) username)) eqn:E2;
    [auto |].
  destruct (commit_ok env); [| auto].
  right. exists email, username, password.
  apply required_Some in Ee, En, Ep.
  apply is_not_null_false in E1, E2.
  pose proof (proj1 (User_filter_by_email_None _ _) E1) as Hfree_e.
  pose proof (proj1 (User_filter_by_username_None _ _) E2) as Hfree_n.
  repeat (split; [assumption |]). reflexivity.
Qed.

(** *** The invariant *)

Lemma map_id_mark_used (id : Z) (d : Db) :
  map PasswordReset.id (password_resets (mark_used id d))
  = map PasswordReset.id (password_resets d).
Proof.
  unfold mark_used. cbn. rewrite map_map. apply map_ext. intro r.
  destruct (PasswordReset.id r =? id); reflexivity.
Qed.

(** A row after [mark_used] is a row from before with the same columns,
    [used] apart, which can only have turned true. *)
Lemma In_mark_used (id : Z) (d : Db) (x : PasswordReset.t) :
  In x (password_resets (mark_used id d)) ->
  exists y, In y (password_resets d)
            /\ PasswordReset.id x = PasswordReset.id y
            /\ PasswordReset.email x = PasswordReset.email y
            /\ PasswordReset.code x = PasswordReset.code y
            /\ PasswordReset.created_at x = PasswordReset.created_at y
            /\ (PasswordReset.used y = true -> PasswordReset.used x = true).
Proof.
  unfold mark_used. cbn. intro H. apply in_map_iff in H as [y [<- Hy]].
  exists y. destruct (PasswordReset.id y =? id); cbn; auto 10.
Qed.

Lemma mark_used_In (id : Z) (d : Db) (y : PasswordReset.t) :
  In y (password_resets d) ->
  exists x, In x (password_resets (mark_used id d))
            /\ PasswordReset.email x = PasswordReset.email y
            /\ PasswordReset.code x = PasswordReset.code y.
Proof.
  intro Hy. unfold mark_used. cbn.
  exists (if PasswordReset.id y =? id then PasswordReset.set_used true y else y).
  split.
  - apply in_map_iff. exists y. auto.
  - destruct (PasswordReset.id y =? id); auto.
Qed.

Lemma consistent_login_user (w : World) (user : User.t) :
  consistent w -> In user (users (db w)) -> consistent (login_user user w).
Proof.
  intros Hw Hin. unfold login_user.
  destruct (User.is_active user); [| exact Hw].
  destruct Hw as [Hk [Ha [Hc [Ho Hs]]]].
  split; [exact Hk |]. split; [exact Ha |]. split; [exact Hc |].
  split; [exact Ho |].
  intros i [= <-]. exists user. auto.
Qed.

Lemma consistent_issue (env : Env) (w : World) (email : string)
  (user : User.t) (s : Session) (sent : list Message) :
  consistent w ->
  User_filter_by_email (db w) email = Some user ->
  session_user_id s = session_user_id (session w) ->
  sent = [] \/ sent = [verification_message email (generate_code env)] ->
  consistent
    (mkWorld (add_password_reset env email (generate_code env) (db w)) s
       (outbox w ++ sent)).
Proof.
  intros [[Hid [He [Hn Hr]]] [Ha [Hc [Ho Hs]]]] Hu Hsess Hsent.
  apply User_filter_by_email_Some in Hu as [Hin Hmail].
  split; [| split; [| split; [| split]]].
  - split; [exact Hid |]. split; [exact He |]. split; [exact Hn |].
    cbn. rewrite map_app. cbn.
    apply NoDup_snoc; [exact Hr | apply next_id_fresh].
  - exact Ha.
  - intros r Hr'. cbn in Hr'. apply in_app_or in Hr' as [Hr' | [<- | []]].
    + apply Hc. exact Hr'.
    + cbn. destruct (generate_code_six_digits env) as [Hlen Hdig].
      repeat split; try assumption. exists user. auto.
  - intros m Hm. cbn in Hm. apply in_app_or in Hm as [Hm | Hm].
    + destruct (Ho m Hm) as [r [Hr' ->]]. exists r. split; [| reflexivity].
      cbn. apply in_or_app. left. exact Hr'.
    + destruct Hsent as [-> | ->]; [destruct Hm |].
      destruct Hm as [<- | []]. eexists. split.
      * cbn. apply in_or_app. right. left. reflexivity.
      * reflexivity.
  - intros i Hi. cbn in Hi. rewrite Hsess in Hi. apply Hs in Hi. exact Hi.
Qed.

Lemma consistent_mark_used (w : World) (id : Z) (s : Session) :
  consistent w ->
  (forall i, session_user_id s = Some i ->
             exists u, In u (users (db w)) /\ User.id u = i) ->
  consistent (mkWorld (mark_used id (db w)) s (outbox w)).
Proof.
  intros [[Hid [He [Hn Hr]]] [Ha [Hc [Ho Hs]]]] Hsess.
  split; [| split; [| split; [| split]]].
  - split; [exact Hid |]. split; [exact He |]. split; [exact Hn |].
    cbn -[mark_used]. rewrite map_id_mark_used. exact Hr.
  - exact Ha.
  - intros x Hx. cbn -[mark_used] in Hx.
    apply In_mark_used in Hx as [y [Hy [_ [Hmail [Hcode _]]]]].
    destruct (Hc y Hy) as [Hlen [Hdig [u [Hu Hmail_u]]]].
    rewrite Hcode. split; [exact Hlen |]. split; [exact Hdig |].
    exists u. split; [exact Hu | congruence].
  - intros m Hm. cbn in Hm. destruct (Ho m Hm) as [r [Hr' ->]].
    destruct (mark_used_In id (db w) r Hr') as [x [Hx [Hxe Hxc]]].
    exists x. split; [exact Hx | rewrite Hxe, Hxc; reflexivity].
  - exact Hsess.
Qed.

Lemma consistent_register (w : World) (email username password_hash : string) :
  consistent w ->
  (forall u, In u (users (db w)) -> User.email u <> email) ->
  (forall u, In u (users (db w)) -> User.username u <> username) ->
  consistent
    (mkWorld (add_user (new_user (db w) email username password_hash) (db w))
       (mkSession (Some (next_id (map User.id (users (db w)))))
          (login_email (session w)))
       (outbox w)).
Proof.
  intros [[Hid [He [Hn Hr]]] [Ha [Hc [Ho Hs]]]] Hfree_e Hfree_n.
  split; [| split; [| split; [| split]]].
  - unfold keys_distinct. cbn. rewrite !map_app. cbn.
    split; [| split; [| split; [| exact Hr]]].
    + apply NoDup_snoc; [exact Hid | apply next_id_fresh].
    + apply NoDup_snoc; [exact He |]. intro Hin.
      apply in_map_iff in Hin as [u [Hu Hin]]. exact (Hfree_e u Hin Hu).
    + apply NoDup_snoc; [exact Hn |]. intro Hin.
      apply in_map_iff in Hin as [u [Hu Hin]]. exact (Hfree_n u Hin Hu).
  - intros u Hu. cbn in Hu. apply in_app_or in Hu as [Hu | [<- | []]];
      [apply Ha; exact Hu | reflexivity].
  - intros r Hr'. cbn in Hr'. destruct (Hc r Hr') as [Hlen [Hdig [u [Hu Hmail]]]].
    repeat split; try assumption. exists u. split; [| exact Hmail].
    cbn. apply in_or_app. left. exact Hu.
  - exact Ho.
  - intros i [= <-]. eexists. split.
    + cbn. apply in_or_app. right. left. reflexivity.
    + reflexivity.
Qed.

Lemma consistent_set_session (w : World) (s : Session) :
  consistent w -> session_user_id s = None -> consistent (set_session w s).
Proof.
  intros [Hk [Ha [Hc [Ho Hs]]]] Hnone.
  split; [exact Hk |]. split; [exact Ha |]. split; [exact Hc |].
  split; [exact Ho |].
  intros i Hi. cbn in Hi. congruence.
Qed.

Lemma step_consistent (w w' : World) :
  consistent w -> step w w' -> consistent w'.
Proof.
  intros Hw Hstep. destruct Hstep as [env req w | env req w | env req w | w | w | w].
  - destruct (login_cases env req w)
      as [-> | [[email [user [password [Hu [_ ->]]]]]
               | [email [user [Hu [_ ->]]]]]].
    + exact Hw.
    + apply consistent_login_user; [exact Hw |].
      apply User_filter_by_email_Some in Hu. apply Hu.
    + unfold set_db. rewrite <- (app_nil_r (outbox w)).
      apply (consistent_issue env w email user); auto.
  - destruct (verify_login_cases env req w)
      as [-> | [email [code [user [r [_ [_ [_ [_ [Hu [[_ ->] | [_ ->]]]]]]]]]]]].
    + exact Hw.
    + apply consistent_login_user; [exact Hw |].
      apply User_filter_by_email_Some in Hu. apply Hu.
    + apply consistent_mark_used; [exact Hw |].
      apply User_filter_by_email_Some in Hu as [Hin _].
      intros i Hi.
      destruct (consistent_login_user w user Hw Hin) as [_ [_ [_ [_ Hs']]]].
      specialize (Hs' i). unfold login_user in Hi, Hs'.
      destruct (User.is_active user); cbn in Hi, Hs'; apply Hs'; exact Hi.
  - destruct (register_cases env req w)
      as [-> | [email [username [password [_ [_ [_ [He [Hn ->]]]]]]]]].
    + exact Hw.
    + apply consistent_register; assumption.
  - cbn. apply consistent_set_session; [exact Hw | reflexivity].
  - unfold index. destruct (is_authenticated w); exact Hw.
  - apply consistent_set_session; [exact Hw | reflexivity].
Qed.

Lemma reachable_consistent (w : World) : reachable w -> consistent w.
Proof.
  induction 1 as [| w w' _ IH Hstep].
  - split; [| split; [| split; [| split]]].
    + repeat split; constructor.
    + intros u [].
    + intros r [].
    + intros m [].
    + intros i Hi. discriminate.
  - eapply step_consistent; eassumption.
Qed.

(** *** What holds after any sequence of requests *)

(** Whatever requests the routes have served since the tables were created,
    no two accounts share a primary key, an e-mail address or a username,
    and no two [password_resets] rows share a primary key. *)
Theorem reachable_keys_distinct (w : World) :
  reachable w ->
  NoDup (map User.id (users (db w)))
  /\ NoDup (map User.email (users (db w)))
  /\ NoDup (map User.username (users (db w)))
  /\ NoDup (map PasswordReset.id (password_resets (db w))).
Proof.
  intro H. apply reachable_consistent in H. apply H.
Qed.

(** Nothing is ever sent and no session ever waits for a code: the one
    place that stores [login_email] lies behind a [send_verification_code]
    that answered true. *)
Lemma step_never_mailed (w w' : World) :
  outbox w = [] /\ login_email (session w) = None ->
  step w w' ->
  outbox w' = [] /\ login_email (session w') = None.
Proof.
  intros [Ho Hl] Hstep.
  destruct Hstep as [env req w | env req w | env req w | w | w | w].
  - destruct (login_cases env req w)
      as [-> | [[email [user [password [_ [_ ->]]]]]
               | [email [user [_ [_ ->]]]]]].
    + auto.
    + unfold login_user. destruct (User.is_active user); cbn; auto.
    + cbn. auto.
  - destruct (verify_login_cases env req w)
      as [-> | [email [code [user [r [He _]]]]]]; [auto | congruence].
  - destruct (register_cases env req w)
      as [-> | [email [username [password [_ [_ [_ [_ [_ ->]]]]]]]]];
      cbn; auto.
  - cbn. auto.
  - unfold index. destruct (is_authenticated w); auto.
  - cbn. auto.
Qed.

Lemma reachable_never_mailed (w : World) :
  reachable w -> outbox w = [] /\ login_email (session w) = None.
Proof.
  induction 1 as [| w w' _ IH Hstep]; [auto |].
  eapply step_never_mailed; eassumption.
Qed.

(** Whatever requests have been served, every stored verification code is
    six decimal digits and belongs to the e-mail address of an account; but
    no message has been sent and no session waits for a code, so that
    [/verify_login] changes nothing and only redirects: to the dashboard
    for a session that is logged in, to the login page with "Please start
    the login process again" for any other. *)
Theorem reachable_codes_never_mailed (w : World) :
  reachable w ->
  (forall r, In r (password_resets (db w)) ->
             String.length (PasswordReset.code r) = 6%nat
             /\ Forall (fun c => is_digit c = true)
                  (list_ascii_of_string (PasswordReset.code r))
             /\ exists u, In u (users (db w))
                          /\ User.email u = PasswordReset.email r)
  /\ outbox w = []
  /\ login_email (session w) = None
  /\ (forall env req,
         verify_login env req w
         = (w, if is_authenticated w
               then mkResponse [] (redirect "dashboard")
               else mkResponse ["Please start the login process again"]
                      (redirect "login"))).
Proof.
  intro H. destruct (reachable_never_mailed w H) as [Ho Hl].
  apply reachable_consistent in H.
  destruct H as [_ [_ [Hc _]]]. split; [exact Hc |].
  split; [exact Ho |]. split; [exact Hl |].
  intros env req. unfold verify_login.
  destruct (is_authenticated w); [reflexivity |].
  rewrite Hl. reflexivity.
Qed.

Lemma load_user_In (d : Db) (i : Z) :
  (exists u, In u (users d) /\ User.id u = i) ->
  exists u, load_user d i = Some u /\ In u (users d) /\ User.id u = i.
Proof.
  intros [u [Hin Hid]]. unfold load_user.
  destruct (find (fun u0 => User.id u0 =? i) (users d)) as [u' |] eqn:E.
  - apply find_some in E as [Hin' Hid']. apply Z.eqb_eq in Hid'.
    exists u'. auto.
  - apply (find_none _ _ E) in Hin. cbn in Hin.
    rewrite Hid, Z.eqb_refl in Hin. discriminate.
Qed.

(** Whatever requests have been served, every account is active, and the
    session is authenticated exactly when it carries a user id; that id is
    then the key of an account [load_user] finds. *)
Theorem reachable_session_authenticated (w : World) :
  reachable w ->
  (forall u, In u (users (db w)) -> User.is_active u = true)
  /\ (is_authenticated w = true <-> session_user_id (session w) <> None)
  /\ (forall i, session_user_id (session w) = Some i ->
                exists u, current_user w = Some u /\ User.id u = i).
Proof.
  intro H. apply reachable_consistent in H.
  destruct H as [_ [Ha [_ [_ Hs]]]]. split; [exact Ha |].
  unfold is_authenticated, current_user.
  unfold session_valid in Hs.
  destruct (session_user_id (session w)) as [i |].
  - destruct (load_user_In (db w) i (Hs i eq_refl)) as [u [-> [Hin Hid]]].
    split.
    + split; [discriminate | intros _; apply Ha; exact Hin].
    + intros j [= <-]. exists u. auto.
  - split.
    + split; [discriminate | intro Hn; contradiction].
    + discriminate.
Qed.

(** *** Issuing a code, then verifying it *)

(** A passwordless login for an existing account, when the commit succeeds,
    stores the code and then answers "Error sending verification code",
    whatever the mail transport would do: nothing is sent and the session is
    left as it was. The stored code is unused and fresh, yet a session that
    was not waiting for a code cannot redeem it: whatever is submitted to
    [/verify_login] afterwards, at any time, the answer is "Please start the
    login process again" and nothing changes. *)
Theorem issued_code_cannot_be_redeemed (env env2 : Env) (req req2 : Request)
  (w : World) (email : string) (user : User.t) :
  anonymous w ->
  login_email (session w) = None ->
  submitted req ->
  field req "email" email ->
  form_get_default (form req) "login_type" "password" <> "password" ->
  User_filter_by_email (db w) email = Some user ->
  commit_ok env = true ->
  login env req w
  = (set_db w (add_password_reset env email (generate_code env) (db w)),
     mkResponse ["Error sending verification code"]
       (render_template "login.html"))
  /\ outbox (fst (login env req w)) = outbox w
  /\ session (fst (login env req w)) = session w
  /\ usable_code env (db (fst (login env req w))) email (generate_code env)
  /\ verify_login env2 req2 (fst (login env req w))
     = (fst (login env req w),
        mkResponse ["Please start the login process again"] (redirect "login")).
Proof.
  intros Ha Hl Hs Hemail Htype Huser Hcommit.
  assert (Hrun : login env req w
                 = (set_db w (add_password_reset env email (generate_code env)
                                (db w)),
                    mkResponse ["Error sending verification code"]
                      (render_template "login.html"))).
  { unfold login.
    rewrite (anonymous_not_authenticated _ Ha).
    destruct (submitted_validates _ Hs) as [-> ->]. cbn [negb].
    rewrite (required_field _ _ _ Hemail), Huser.
    apply String.eqb_neq in Htype. rewrite Htype, Hcommit.
    rewrite send_verification_code_fails. reflexivity. }
  rewrite Hrun. cbn [fst].
  split; [reflexivity |]. split; [reflexivity |]. split; [reflexivity |].
  split.
  - eexists. split.
    + cbn. apply in_or_app. right. left. reflexivity.
    + cbn. unfold within_30_minutes. cbn.
      repeat (split; [reflexivity |]).
      unfold timedelta_minutes. lia.
  - unfold verify_login.
    assert (Hanon : anonymous (set_db w (add_password_reset env email
                                           (generate_code env) (db w))))
      by exact Ha.
    rewrite (anonymous_not_authenticated _ Hanon).
    cbn [set_db session]. rewrite Hl. reflexivity.
Qed.

(** *** Registering, logging out, logging in *)

Lemma User_filter_by_email_new (d : Db) (u : User.t) :
  (forall x, In x (users d) -> User.email x <> User.email u) ->
  User_filter_by_email (add_user u d) (User.email u) = Some u.
Proof.
  intro Hfree. unfold User_filter_by_email, add_user. cbn.
  induction (users d) as [| x l IH]; cbn.
  - rewrite String.eqb_refl. reflexivity.
  - destruct (String.eqb_spec (User.email x) (User.email u)) as [Heq | _].
    + exfalso. apply (Hfree x); [left; reflexivity | exact Heq].
    + apply IH. intros y Hy. apply Hfree. right. exact Hy.
Qed.

(** A registration that succeeds logs the new account in. If werkzeug
    verifies the password against the hash it produced for it, and the hash
    is not empty, then logging out and logging in again with the same
    address and password leads back to the very world the registration left:
    same tables, same session. *)
Theorem registered_account_logs_in_again (env env2 : Env) (req req2 : Request)
  (w : World) (email username password : string) :
  anonymous w ->
  submitted req ->
  field req "email" email ->
  field req "username" username ->
  field req "password" password ->
  (forall u, In u (users (db w)) -> User.email u <> email) ->
  (forall u, In u (users (db w)) -> User.username u <> username) ->
  commit_ok env = true ->
  generate_password_hash (salt env) password <> "" ->
  check_password_hash (generate_password_hash (salt env) password) password
  = true ->
  submitted req2 ->
  field req2 "email" email ->
  field req2 "password" password ->
  form_get_default (form req2) "login_type" "password" = "password" ->
  logged_in_as (fst (register env req w))
    (new_user (db w) email username
       (generate_password_hash (salt env) password))
  /\ anonymous (fst (logout (fst (register env req w))))
  /\ login env2 req2 (fst (logout (fst (register env req w))))
     = (fst (register env req w), mkResponse [] (redirect "dashboard")).
Proof.
  intros Ha Hs He Hn Hp Hfree_e Hfree_n Hcommit Hhash Hcheck Hs2 He2 Hp2 Htype.
  rewrite (register_creates_account env req w email username password
             Ha Hs He Hn Hp Hfree_e Hfree_n Hcommit).
  cbn [fst].
  set (user := new_user (db w) email username
                 (generate_password_hash (salt env) password)).
  split; [reflexivity |]. split; [reflexivity |].
  set (w2 := fst (logout _)).
  assert (Ha2 : anonymous w2) by reflexivity.
  rewrite (login_password_run env2 req2 w2 email password Ha2 Hs2 He2 Hp2 Htype).
  change (db w2) with (add_user user (db w)).
  change email with (User.email user) at 1.
  rewrite (User_filter_by_email_new (db w) user Hfree_e).
  change (User.password_hash user)
    with (generate_password_hash (salt env) password).
  apply str_truthy_true in Hhash. rewrite Hhash, Hcheck. reflexivity.
Qed.

(** *** Requests that are not valid submissions *)

(** A GET, or a POST whose CSRF token does not validate, changes nothing on
    any of the three form routes: no row, no message, no change of
    session. *)
Theorem unsubmitted_requests_change_nothing (env : Env) (req : Request)
  (w : World) :
  validate_on_submit req = false ->
  fst (login env req w) = w
  /\ fst (verify_login env req w) = w
  /\ fst (register env req w) = w.
Proof.
  intro H. unfold login, verify_login, register. rewrite H. cbn [negb].
  destruct (is_authenticated w); [auto |].
  destruct (method req), (required (login_email (session w))); auto.
Qed.

(** *** What the routes leave alone *)

Lemma Forall2_same {A : Type} (R : A -> A -> Prop) (l : list A) :
  (forall x, R x x) -> Forall2 R l l.
Proof. intro H. induction l; constructor; auto. Qed.

Lemma mark_used_Forall2 (id : Z) (l : list PasswordReset.t) :
  Forall2
    (fun x y =>
       PasswordReset.id y = PasswordReset.id x
       /\ PasswordReset.email y = PasswordReset.email x
       /\ PasswordReset.code y = PasswordReset.code x
       /\ PasswordReset.created_at y = PasswordReset.created_at x
       /\ (PasswordReset.used x = true -> PasswordReset.used y = true))
    l
    (map (fun r => if Z.eqb (PasswordReset.id r) id
                   then PasswordReset.set_used true r else r) l).
Proof.
  induction l as [| x l IH]; cbn; constructor; [| exact IH].
  destruct (PasswordReset.id x =? id); cbn; auto 10.
Qed.

Lemma unused_count_mark_used (l : list PasswordReset.t) (r : PasswordReset.t) :
  NoDup (map PasswordReset.id l) ->
  In r l ->
  PasswordReset.used r = false ->
  S (List.length
       (filter (fun x => negb (PasswordReset.used x))
          (map (fun x => if Z.eqb (PasswordReset.id x) (PasswordReset.id r)
                         then PasswordReset.set_used true x else x) l)))
  = List.length (filter (fun x => negb (PasswordReset.used x)) l).
Proof.
  intros Hnd Hin Hunused. induction l as [| x l IH]; [destruct Hin |].
  cbn [map] in Hnd. inversion Hnd as [| ? ? Hx Hl]; subst.
  cbn [map filter].
  destruct (Z.eqb_spec (PasswordReset.id x) (PasswordReset.id r)) as [Heq | Hne].
  - assert (x = r) as ->.
    { destruct Hin as [-> | Hin]; [reflexivity |].
      exfalso. apply Hx. rewrite Heq. apply in_map. exact Hin. }
    cbn. rewrite Hunused. cbn. f_equal. f_equal. f_equal.
    rewrite <- (map_id l) at 2. apply map_ext_in. intros y Hy.
    destruct (Z.eqb_spec (PasswordReset.id y) (PasswordReset.id r)) as [Hy' | _];
      [| reflexivity].
    exfalso. apply Hx. rewrite <- Hy'. apply in_map. exact Hy.
  - destruct Hin as [-> | Hin]; [contradiction |].
    specialize (IH Hl Hin).
    destruct (negb (PasswordReset.used x)); cbn; rewrite <- IH; reflexivity.
Qed.

(** [/verify_login] never touches the accounts or the outbox, and keeps
    every [password_resets] row in place with its key, address, code and
    timestamp; a used code stays used. With distinct primary keys, the
    request that sends an anonymous session to the dashboard consumes
    exactly one unused code, and every other answer leaves the database as
    it was. *)
Theorem verify_login_consumes_one_code (env : Env) (req : Request) (w : World) :
  NoDup (map PasswordReset.id (password_resets (db w))) ->
  users (db (fst (verify_login env req w))) = users (db w)
  /\ outbox (fst (verify_login env req w)) = outbox w
  /\ Forall2
       (fun x y =>
          PasswordReset.id y = PasswordReset.id x
          /\ PasswordReset.email y = PasswordReset.email x
          /\ PasswordReset.code y = PasswordReset.code x
          /\ PasswordReset.created_at y = PasswordReset.created_at x
          /\ (PasswordReset.used x = true -> PasswordReset.used y = true))
       (password_resets (db w))
       (password_resets (db (fst (verify_login env req w))))
  /\ (anonymous w ->
      body (snd (verify_login env req w)) = redirect "dashboard" ->
      S (unused_count (db (fst (verify_login env req w))))
      = unused_count (db w))
  /\ (body (snd (verify_login env req w)) <> redirect "dashboard" ->
      db (fst (verify_login env req w)) = db w).
Proof.
  intro Hnd.
  assert (Hsame : forall (msgs : list string) (b : Body),
             (anonymous w -> b <> redirect "dashboard") ->
             users (db (fst (respond w msgs b))) = users (db w)
             /\ outbox (fst (respond w msgs b)) = outbox w
             /\ Forall2
                  (fun x y =>
                     PasswordReset.id y = PasswordReset.id x
                     /\ PasswordReset.email y = PasswordReset.email x
                     /\ PasswordReset.code y = PasswordReset.code x
                     /\ PasswordReset.created_at y = PasswordReset.created_at x
                     /\ (PasswordReset.used x = true ->
                         PasswordReset.used y = true))
                  (password_resets (db w))
                  (password_resets (db (fst (respond w msgs b))))
             /\ (anonymous w ->
                 body (snd (respond w msgs b)) = redirect "dashboard" ->
                 S (unused_count (db (fst (respond w msgs b))))
                 = unused_count (db w))
             /\ (body (snd (respond w msgs b)) <> redirect "dashboard" ->
                 db (fst (respond w msgs b)) = db w)).
  { intros msgs b Hb. cbn.
    split; [reflexivity |]. split; [reflexivity |].
    split; [apply Forall2_same; auto 10 |].
    split; [| reflexivity].
    intros Ha Hbody. exfalso. exact (Hb Ha Hbody). }
  unfold verify_login.
  destruct (is_authenticated w) eqn:Eauth.
  { apply Hsame. intros Ha.
    rewrite (anonymous_not_authenticated _ Ha) in Eauth. discriminate. }
  destruct (required (login_email (session w))) as [email |];
    [| apply Hsame; discriminate].
  destruct (method req); [apply Hsame; discriminate |].
  destruct (negb (validate_on_submit req)); [apply Hsame; discriminate |].
  destruct (required (form_get (form req) "code")) as [code |];
    [| apply Hsame; discriminate].
  destruct (PasswordReset_query (db w) email code) as [r |] eqn:Eq;
    [| apply Hsame; discriminate].
  destruct (utcnow env - PasswordReset.created_at r >? timedelta_minutes 30);
    [apply Hsame; discriminate |].
  destruct (User_filter_by_email (db w) email) as [user |];
    [| apply Hsame; discriminate].
  assert (Hdb : db (login_user user w) = db w
                /\ outbox (login_user user w) = outbox w).
  { unfold login_user. destruct (User.is_active user); auto. }
  destruct Hdb as [Hdb Hout].
  destruct (commit_ok env); cbn; rewrite ?Hdb, ?Hout.
  - split; [reflexivity |]. split; [reflexivity |].
    split; [apply mark_used_Forall2 |].
    split; [| intro H; contradiction].
    intros _ _. apply PasswordReset_query_Some in Eq as [Hin [Hm _]].
    apply reset_matches_true in Hm as [_ [_ Hunused]].
    unfold unused_count. cbn.
    apply unused_count_mark_used; assumption.
  - split; [reflexivity |]. split; [reflexivity |].
    split; [apply Forall2_same; auto 10 |].
    split; [intros _ H; discriminate | reflexivity].
Qed.

(** [/login] never touches the accounts; it appends at most one
    [password_resets] row (unused, stamped with the time of the request) and
    sends at most one message, which then carries the address and the code
    of the row just appended; a password login writes nothing at all. *)
Theorem login_only_appends (env : Env) (req : Request) (w : World) :
  users (db (fst (login env req w))) = users (db w)
  /\ (exists new sent,
         password_resets (db (fst (login env req w)))
         = password_resets (db w) ++ new
         /\ outbox (fst (login env req w)) = outbox w ++ sent
         /\ ((new = [] /\ sent = [])
             \/ exists r, new = [r]
                          /\ PasswordReset.used r = false
                          /\ PasswordReset.created_at r = utcnow env
                          /\ (sent = []
                              \/ sent = [verification_message
                                           (PasswordReset.email r)
                                           (PasswordReset.code r)])))
  /\ (form_get_default (form req) "login_type" "password" = "password" ->
      db (fst (login env req w)) = db w
      /\ outbox (fst (login env req w)) = outbox w).
Proof.
  assert (Hnothing : forall w', db w' = db w -> outbox w' = outbox w ->
             users (db w') = users (db w)
             /\ exists new sent,
                  password_resets (db w') = password_resets (db w) ++ new
                  /\ outbox w' = outbox w ++ sent
                  /\ ((new = [] /\ sent = [])
                      \/ exists r, new = [r]
                                   /\ PasswordReset.used r = false
                                   /\ PasswordReset.created_at r = utcnow env
                                   /\ (sent = []
                                       \/ sent = [verification_message
                                                    (PasswordReset.email r)
                                                    (PasswordReset.code r)]))).
  { intros w' -> ->. split; [reflexivity |].
    exists [], []. rewrite !app_nil_r. auto. }
  assert (Hlogin : forall user, db (login_user user w) = db w
                                /\ outbox (login_user user w) = outbox w).
  { intro user. unfold login_user. destruct (User.is_active user); auto. }
  split; [| split].
  - destruct (login_cases env req w)
      as [-> | [[email [user [password [_ [_ ->]]]]]
               | [email [user [_ [_ ->]]]]]];
      try reflexivity.
    destruct (Hlogin user) as [-> _]. reflexivity.
  - destruct (login_cases env req w)
      as [-> | [[email [user [password [_ [_ ->]]]]]
               | [email [user [_ [_ ->]]]]]].
    + apply (Hnothing w); reflexivity.
    + destruct (Hlogin user) as [H1 H2]. apply (Hnothing _ H1 H2).
    + exists [PasswordReset.mk
                (next_id (map PasswordReset.id (password_resets (db w))))
                email (generate_code env) (utcnow env) false], [].
      rewrite app_nil_r.
      split; [reflexivity |]. split; [reflexivity |].
      right. eexists. split; [reflexivity |]. cbn. auto.
  - intro Htype. unfold login.
    destruct (is_authenticated w); [auto |].
    destruct (method req); [auto |].
    destruct (negb (validate_on_submit req)); [auto |].
    destruct (required (form_get (form req) "email")) as [email |]; [| auto].
    destruct (User_filter_by_email (db w) email) as [user |]; [| auto].
    rewrite Htype. cbn [String.eqb Ascii.eqb Bool.eqb andb].
    destruct (required (form_get (form req) "password")); [| auto].
    destruct (negb (str_truthy (User.password_hash user))); [auto |].
    destruct (negb (check_password_hash _ _)); [auto |].
    apply Hlogin.
Qed.

(** Whenever [/register] changes the [users] table, the new table is what
    the INSERT of the [users] table, with its UNIQUE constraints on
    [username] and [email], returns for the new row: the handler's two
    look-ups are enough for the constraints to pass. [/register] writes
    nothing else. *)
Theorem register_write_is_an_accepted_insert (env : Env) (req : Request)
  (w : World) :
  password_resets (db (fst (register env req w))) = password_resets (db w)
  /\ outbox (fst (register env req w)) = outbox w
  /\ (users (db (fst (register env req w))) = users (db w)
      \/ exists u, User.insert (users (db w)) u
                   = Ok (users (db (fst (register env req w))))).
Proof.
  destruct (register_cases env req w)
    as [-> | [email [username [password [_ [_ [_ [He [Hn ->]]]]]]]]].
  - auto.
  - cbn. split; [reflexivity |]. split; [reflexivity |]. right.
    exists (new_user (db w) email username
              (generate_password_hash (salt env) password)).
    unfold User.insert. cbn.
    replace (existsb (fun x => String.eqb (User.username x) username)
               (users (db w))) with false.
    + replace (existsb (fun x => String.eqb (User.email x) email)
                 (users (db w))) with false; [reflexivity |].
      symmetry. apply existsb_false. intros x Hx.
      apply String.eqb_neq. apply He. exact Hx.
    + symmetry. apply existsb_false. intros x Hx.
      apply String.eqb_neq. apply Hn. exact Hx.
Qed.

(** A code that [/verify_login] has answered with "Invalid or expired
    verification code" gets the same answer at any later time, as long as
    the tables are the same. *)
Theorem rejected_code_stays_rejected (env env2 : Env) (req : Request)
  (w : World) (email code : string) :
  awaiting w email ->
  submitted req ->
  field req "code" code ->
  utcnow env <= utcnow env2 ->
  flashed (snd (verify_login env req w))
  = ["Invalid or expired verification code"] ->
  verify_login env2 req w
  = (w, mkResponse ["Invalid or expired verification code"]
          (render_template "verify_login.html")).
Proof.
  intros Hw Hs Hcode Htime Hflash.
  apply (verify_login_rejects env2 req w email code Hw Hs Hcode).
  intros [x [Hx [He [Hc [Hu Ht2]]]]].
  assert (Husable : usable_code env (db w) email code).
  { exists x. unfold within_30_minutes in *. repeat split; try assumption. lia. }
  apply usable_code_iff_query in Husable as [r [Hq Ht]].
  revert Hflash. unfold verify_login.
  rewrite (anonymous_not_authenticated _ (proj1 Hw)).
  rewrite (awaiting_required _ _ Hw).
  destruct (submitted_validates _ Hs) as [-> ->]. cbn [negb].
  rewrite (required_field _ _ _ Hcode), Hq.
  unfold within_30_minutes in Ht.
  destruct (Z.gtb_spec (utcnow env - PasswordReset.created_at r)
              (timedelta_minutes 30)) as [Hlate | _]; [lia |].
  destruct (User_filter_by_email (db w) email); [| discriminate].
  destruct (commit_ok env); discriminate.
Qed.

End Transitions.

(** ** The declared forms *)

Section DeclaredForms.

Lemma no_errors_iff (fields : list (string * list string)) :
  filter (fun fe => match snd fe with [] => false | _ => true end) fields = []
  <-> Forall (fun fe => snd fe = []) fields.
Proof.
  induction fields as [| [name errors] l IH]; cbn.
  - split; [constructor | reflexivity].
  - destruct errors as [| e errors]; cbn.
    + rewrite IH. split; [intro H; constructor; auto | intro H; inversion H; auto].
    + split; [discriminate | intro H; inversion H; discriminate].
Qed.

Lemma is_nil_true {A : Type} (l : list A) :
  match l with [] => true | _ :: _ => false end = true <-> l = [].
Proof. destruct l; split; intro; auto; discriminate. Qed.

Lemma DataRequired_chain (rest : list (string -> Forms.outcome))
  (data : string) :
  Forms.run_validation_chain (Forms.DataRequired None :: rest) data []
  = if Forms.strip_truthy data
    then Forms.run_validation_chain rest data []
    else ["This field is required."].
Proof.
  cbn. unfold Forms.DataRequired. destruct (Forms.strip_truthy data); reflexivity.
Qed.

Lemma required_min_length (min : Z) (message data : string) :
  Forms.run_validation_chain
    [Forms.DataRequired None; Forms.Length min (-1) (Some message)] data [] = []
  <-> Forms.strip_truthy data = true /\ min <= len data.
Proof.
  rewrite DataRequired_chain.
  destruct (Forms.strip_truthy data); [| split; [discriminate | intros [H _]; discriminate]].
  unfold len. cbn. unfold Forms.Length, len. cbn.
  destruct (Z.leb_spec min (Z.of_nat (List.length (code_points data)))); cbn.
  - split; auto.
  - split; [discriminate | intros [_ H']; lia].
Qed.

Variable validate_email : string -> bool.

(** [RegistrationForm] validates exactly the submissions whose username has
    a character that is not white space and at least 3 characters, whose
    e-mail address is non-blank and accepted by the e-mail validator, whose
    password is non-blank with at least 8 characters, and whose terms box is
    ticked; the referral code plays no part. Characters are counted as
    [len] counts them, and white space is what [str.strip()] removes. *)
Theorem RegistrationForm_validate_iff (d : Forms.RegistrationFormData) :
  Forms.RegistrationForm_validate validate_email d = true
  <-> (Forms.strip_truthy (Forms.reg_username d) = true
       /\ 3 <= len (Forms.reg_username d))
      /\ (Forms.strip_truthy (Forms.reg_email d) = true
          /\ validate_email (Forms.reg_email d) = true)
      /\ (Forms.strip_truthy (Forms.reg_password d) = true
          /\ 8 <= len (Forms.reg_password d))
      /\ Forms.reg_terms d = true.
Proof.
  unfold Forms.RegistrationForm_validate, Forms.RegistrationForm_errors.
  rewrite is_nil_true, no_errors_iff, !Forall_cons_iff.
  repeat match goal with
         | |- context [snd (?a, ?b)] => change (snd (a, b)) with b
         end.
  unfold Forms.RegistrationForm_username, Forms.RegistrationForm_email,
    Forms.RegistrationForm_password, Forms.RegistrationForm_referral_code,
    Forms.RegistrationForm_terms.
  rewrite !required_min_length, DataRequired_chain.
  assert (Href : Forms.run_validation_chain [Forms.Optional]
                   (Forms.reg_referral_code d) [] = []).
  { cbn. unfold Forms.Optional.
    destruct (Forms.strip_truthy (Forms.reg_referral_code d)); reflexivity. }
  rewrite Href. cbn. unfold Forms.Email.
  destruct (Forms.strip_truthy (Forms.reg_email d)),
    (validate_email (Forms.reg_email d)), (Forms.reg_terms d); cbn;
    intuition (auto; discriminate).
Qed.

(** [PointsAllocationForm] validates exactly the submissions with a
    non-blank username, a non-blank reason and an amount that is an integer
    other than zero: an allocation of 0 points is answered with "This field
    is required.", a negative amount passes. *)
Theorem PointsAllocationForm_validate_iff (d : Forms.PointsAllocationFormData) :
  (Forms.PointsAllocationForm_validate d = true
   <-> Forms.strip_truthy (Forms.points_username d) = true
       /\ (exists z, Forms.points_amount d = Some z /\ z <> 0)
       /\ Forms.strip_truthy (Forms.points_reason d) = true)
  /\ (Forms.points_amount d = Some 0 ->
      In ("amount", ["This field is required."])
        (Forms.PointsAllocationForm_errors d)).
Proof.
  split.
  - unfold Forms.PointsAllocationForm_validate, Forms.PointsAllocationForm_errors.
    rewrite is_nil_true, no_errors_iff, !Forall_cons_iff.
    repeat match goal with
           | |- context [snd (?a, ?b)] => change (snd (a, b)) with b
           end.
    rewrite !DataRequired_chain. cbn.
    destruct (Forms.strip_truthy (Forms.points_username d)),
      (Forms.strip_truthy (Forms.points_reason d)),
      (Forms.points_amount d) as [[| p | p] |]; cbn; split;
      try (intros [Hu [Ha [Hr _]]]; discriminate);
      try (intros [_ [[z [[= <-] Hz]] _]]; contradiction);
      try (intros [_ [[z [Hz _]] _]]; discriminate);
      try (intros [Hu _]; discriminate);
      try (intros [_ [_ Hr]]; discriminate);
      try (intros _; repeat split; auto; eexists; split;
           [reflexivity | discriminate]);
      try (intros _; repeat split; constructor).
  - intro Hzero. unfold Forms.PointsAllocationForm_errors.
    rewrite Hzero.
    apply filter_In. split; [| reflexivity].
    right. left. reflexivity.
Qed.

Variable slugify : string -> string.

Lemma validate_name_None_iff (channels : list Channel.t) (name : string) :
  Forms.validate_name slugify channels name = None
  <-> forall c, In c channels -> Channel.slug c <> slugify name.
Proof.
  unfold Forms.validate_name, Forms.Channel_filter_by_slug.
  destruct (find _ channels) as [c |] eqn:E.
  - split; [discriminate |]. intro Hfree. exfalso.
    apply find_some in E as [Hin Heq]. cbn in Heq.
    apply String.eqb_eq in Heq. exact (Hfree c Hin Heq).
  - split; [| reflexivity]. intros _ c Hin Hslug.
    apply (find_none _ _ E) in Hin. cbn in Hin.
    rewrite Hslug, String.eqb_refl in Hin. discriminate.
Qed.

(** The name of a channel passes its field exactly when it has a non-blank
    character, 3 to 100 characters, and a slug no stored channel has. A
    blank name gets "This field is required." alone: the chain stops before
    the length check and before [validate_name] looks at the table. *)
Theorem ChannelForm_name_valid_iff (channels : list Channel.t) (name : string) :
  (Forms.ChannelForm_name_errors slugify channels name = []
   <-> Forms.strip_truthy name = true
       /\ 3 <= len name <= 100
       /\ forall c, In c channels -> Channel.slug c <> slugify name)
  /\ (Forms.strip_truthy name = false ->
      Forms.ChannelForm_name_errors slugify channels name
      = ["This field is required."]).
Proof.
  unfold Forms.ChannelForm_name_errors. rewrite DataRequired_chain.
  destruct (Forms.strip_truthy name); [| split; [| reflexivity]].
  - split; [| discriminate].
    unfold len. cbn. unfold Forms.Length, Forms.inline_validate_name, len. cbn.
    pose proof (validate_name_None_iff channels name) as Hnone.
    destruct (Z.leb_spec 3 (Z.of_nat (List.length (code_points name))));
      destruct (Z.leb_spec (Z.of_nat (List.length (code_points name))) 100); cbn;
      destruct (Forms.validate_name slugify channels name) as [m |]; cbn;
      split; try discriminate; try (intros [_ [Hlen _]]; lia).
    + intros [_ [_ Hfree]]. apply Hnone in Hfree. discriminate.
    + intros _. split; [reflexivity |]. split; [lia |].
      apply Hnone. reflexivity.
    + intros _. reflexivity.
  - split; [discriminate | intros [H _]; discriminate].
Qed.

End DeclaredForms.

(** ** Integers as text *)

Section IntegersAsText.

Import App.

Lemma digit_not_comma (c : ascii) :
  is_digit c = true -> Ascii.eqb c "," = false.
Proof.
  intro H. destruct (Ascii.eqb_spec c ","); [subst; discriminate | reflexivity].
Qed.

Lemma digits_of_uint (d : Decimal.uint) :
  Forall (fun c => is_digit c = true)
    (list_ascii_of_string (DecimalString.NilEmpty.string_of_uint d)).
Proof.
  induction d; cbn; constructor; auto.
Qed.

Lemma str_of_pos (p : positive) :
  str_of_int (Zpos p)
  = DecimalString.NilEmpty.string_of_uint (Pos.to_uint p)
  /\ str_of_int (Zneg p)
     = String "-" (DecimalString.NilEmpty.string_of_uint (Pos.to_uint p))
  /\ DecimalString.NilEmpty.string_of_uint (Pos.to_uint p) <> "".
Proof.
  unfold str_of_int. cbn.
  pose proof (DecimalPos.Unsigned.to_uint_nonnil p) as Hnil.
  destruct (Pos.to_uint p); try contradiction; cbn;
    repeat split; discriminate.
Qed.

(** Grouping keeps the digits and puts a comma at every fourth place. *)
Lemma group_thousands_rev_spec (n : nat) (digits : list ascii) :
  (List.length digits <= n)%nat ->
  Forall (fun c => is_digit c = true) digits ->
  filter (fun c => negb (Ascii.eqb c ",")) (group_thousands_rev digits) = digits
  /\ forall i c, nth_error (group_thousands_rev digits) i = Some c ->
                 (c = ","%char <-> (i mod 4 = 3)%nat).
Proof.
  revert digits. induction n as [| n IH]; intros digits Hlen Hdig.
  - destruct digits; [| cbn in Hlen; lia]. cbn. split; [reflexivity |].
    intros i c H. rewrite nth_error_nil in H. discriminate.
  - assert (Hsmall : forall l : list ascii,
               Forall (fun c => is_digit c = true) l ->
               (List.length l <= 3)%nat ->
               filter (fun c => negb (Ascii.eqb c ",")) l = l
               /\ forall i c, nth_error l i = Some c ->
                              (c = ","%char <-> (i mod 4 = 3)%nat)).
    { intros l Hl Hle. split.
      - induction Hl as [| x l Hx Hl IHl]; cbn; [reflexivity |].
        rewrite (digit_not_comma x Hx). cbn. f_equal. apply IHl.
        cbn in Hle. lia.
      - intros i c Hi.
        assert (Hin : In c l) by (eapply nth_error_In; exact Hi).
        assert (Hi' : (i < List.length l)%nat)
          by (apply nth_error_Some; congruence).
        rewrite Forall_forall in Hl. specialize (Hl c Hin).
        split.
        + intros ->. discriminate.
        + intro Hmod. exfalso.
          assert (i < 3)%nat by lia.
          destruct i as [| [| [| i]]]; cbn in Hmod; try discriminate; lia. }
    destruct digits as [| a [| b [| c [| d rest]]]];
      try (apply Hsmall; [exact Hdig | cbn; lia]).
    inversion Hdig as [| ? ? Ha Hdig1]; subst.
    inversion Hdig1 as [| ? ? Hb Hdig2]; subst.
    inversion Hdig2 as [| ? ? Hc Hdig3]; subst.
    destruct (IH (d :: rest)) as [IHf IHn]; [cbn in *; lia | exact Hdig3 |].
    change (group_thousands_rev (a :: b :: c :: d :: rest))
      with (a :: b :: c :: ","%char :: group_thousands_rev (d :: rest)).
    split.
    + cbn [filter].
      rewrite (digit_not_comma a Ha), (digit_not_comma b Hb),
        (digit_not_comma c Hc). cbn [negb Ascii.eqb Bool.eqb andb].
      rewrite IHf. reflexivity.
    + intros i x Hi.
      destruct i as [| [| [| [| i]]]]; cbn in Hi.
      * injection Hi as <-. split; [intros ->; discriminate | discriminate].
      * injection Hi as <-. split; [intros ->; discriminate | discriminate].
      * injection Hi as <-. split; [intros ->; discriminate | discriminate].
      * injection Hi as <-. split; reflexivity.
      * rewrite (IHn i x Hi).
        change (S (S (S (S i)))) with (4 + i)%nat.
        replace ((4 + i) mod 4)%nat with (i mod 4)%nat; [reflexivity |].
        symmetry. rewrite Nat.add_comm.
        apply (Nat.Div0.mod_add i 1 4).
Qed.

Lemma remove_commas_group (digits : string) :
  Forall (fun c => is_digit c = true) (list_ascii_of_string digits) ->
  remove_commas (group_thousands digits) = digits.
Proof.
  intro Hdig. unfold remove_commas, group_thousands.
  rewrite list_ascii_of_string_of_list_ascii, filter_rev.
  destruct (group_thousands_rev_spec
              (List.length (List.rev (list_ascii_of_string digits)))
              (List.rev (list_ascii_of_string digits)) (le_n _)
              (Forall_rev Hdig)) as [-> _].
  rewrite rev_involutive. apply string_of_list_ascii_of_string.
Qed.

Lemma int_of_str_of_int (n : Z) :
  option_map Z.of_int (DecimalString.NilZero.int_of_string (str_of_int n))
  = Some n.
Proof.
  unfold str_of_int. rewrite DecimalString.NilZero.isi.
  - cbn. f_equal. apply DecimalZ.of_to.
  - destruct n; cbn; try discriminate. intros [= H].
    exact (DecimalPos.Unsigned.to_uint_nonnil _ H).
  - destruct n; cbn; try discriminate. intros [= H].
    exact (DecimalPos.Unsigned.to_uint_nonnil _ H).
Qed.

(** [format_number] prints "0" for [None]. For an integer, taking the commas
    out of what it prints gives the decimal text of the integer, which reads
    back as the same integer; and counting from the right, a comma stands at
    every fourth place and nowhere else (the only other character such a
    place can hold is the leading minus sign). *)
Theorem format_number_digits (n : Z) :
  format_number None = "0"
  /\ remove_commas (format_number (Some n)) = str_of_int n
  /\ option_map Z.of_int
       (DecimalString.NilZero.int_of_string
          (remove_commas (format_number (Some n)))) = Some n
  /\ (forall i c,
         nth_error (List.rev (list_ascii_of_string (format_number (Some n)))) i
         = Some c ->
         (c = ","%char -> (i mod 4 = 3)%nat)
         /\ ((i mod 4 = 3)%nat -> c = ","%char \/ c = "-"%char)).
Proof.
  assert (Hremove : remove_commas (format_number (Some n)) = str_of_int n).
  { destruct n as [| p | p]; cbn [format_number format_comma].
    - reflexivity.
    - destruct (str_of_pos p) as [Hp [_ _]].
      apply remove_commas_group. rewrite Hp. apply digits_of_uint.
    - destruct (str_of_pos p) as [Hp [Hn _]]. rewrite Hn, <- Hp.
      unfold remove_commas. cbn [list_ascii_of_string filter].
      cbn [Ascii.eqb Bool.eqb andb negb]. cbn [string_of_list_ascii].
      f_equal. apply remove_commas_group. rewrite Hp. apply digits_of_uint. }
  split; [reflexivity |]. split; [exact Hremove |].
  split; [rewrite Hremove; apply int_of_str_of_int |].
  intros i c Hi.
  assert (Hgroup : forall p j x,
             nth_error
               (group_thousands_rev
                  (List.rev (list_ascii_of_string (str_of_int (Zpos p))))) j
             = Some x ->
             (x = ","%char <-> (j mod 4 = 3)%nat)).
  { intros p j x. destruct (str_of_pos p) as [Hp _].
    apply (group_thousands_rev_spec _ _ (le_n _)).
    apply Forall_rev. rewrite Hp. apply digits_of_uint. }
  destruct n as [| p | p]; cbn [format_number format_comma] in Hi.
  - destruct i as [| i]; cbn in Hi.
    + injection Hi as <-. split; [discriminate | discriminate].
    + rewrite nth_error_nil in Hi. discriminate.
  - unfold group_thousands in Hi.
    rewrite list_ascii_of_string_of_list_ascii, rev_involutive in Hi.
    apply Hgroup in Hi. split; [apply Hi | intro H; left; apply Hi; exact H].
  - unfold group_thousands in Hi. cbn [list_ascii_of_string List.rev] in Hi.
    rewrite list_ascii_of_string_of_list_ascii, rev_involutive in Hi.
    rewrite nth_error_app in Hi.
    destruct (Nat.ltb_spec i
                (List.length
                   (group_thousands_rev
                      (List.rev (list_ascii_of_string (str_of_int (Zpos p)))))))
      as [_ | _].
    + apply Hgroup in Hi.
      split; [apply Hi | intro H; left; apply Hi; exact H].
    + destruct (i - _)%nat as [| k]; cbn in Hi.
      * injection Hi as <-. split; [discriminate | auto].
      * rewrite nth_error_nil in Hi. discriminate.
Qed.

End IntegersAsText.

(** ** The backup *)

Section Backup.

Import DbBackup.

Lemma dict_get_set_same (d : list (string * Value)) (k : string) (v : Value) :
  dict_get (dict_set d k v) k = Some v.
Proof.
  induction d as [| [k' v'] d IH]; cbn.
  - rewrite String.eqb_refl. reflexivity.
  - destruct (String.eqb_spec k' k) as [-> | Hne]; cbn.
    + rewrite String.eqb_refl. reflexivity.
    + apply String.eqb_neq in Hne. rewrite Hne. exact IH.
Qed.

Lemma dict_get_set_other (d : list (string * Value)) (k k' : string)
  (v : Value) :
  k <> k' -> dict_get (dict_set d k v) k' = dict_get d k'.
Proof.
  intro Hne. induction d as [| [k0 v0] d IH]; cbn.
  - apply String.eqb_neq in Hne. rewrite Hne. reflexivity.
  - destruct (String.eqb_spec k0 k) as [-> | Hne0]; cbn.
    + apply String.eqb_neq in Hne. rewrite Hne. reflexivity.
    + destruct (String.eqb k0 k'); [reflexivity | exact IH].
Qed.

(** A table writes its own keys only. *)
Lemma backup_table_other_key (acc : list (string * Value)) (t : TableRead)
  (k : string) :
  ~ In k (keys_of t) -> dict_get (backup_table acc t) k = dict_get acc k.
Proof.
  intro Hk. unfold backup_table.
  assert (H1 : table_name t <> k) by (intro H; apply Hk; left; exact H).
  assert (H2 : (table_name t ++ "_schema")%string <> k)
    by (intro H; apply Hk; right; left; exact H).
  destruct (select_all t); [| reflexivity].
  destruct (get_columns t).
  - rewrite (dict_get_set_other _ _ _ _ H2). apply dict_get_set_other. exact H1.
  - apply dict_get_set_other. exact H1.
Qed.

Lemma fold_backup_other_key (tables : list TableRead)
  (acc : list (string * Value)) (k : string) :
  (forall t, In t tables -> ~ In k (keys_of t)) ->
  dict_get (fold_left backup_table tables acc) k = dict_get acc k.
Proof.
  revert acc. induction tables as [| t l IH]; intros acc Hk; [reflexivity |].
  cbn. rewrite IH.
  - apply backup_table_other_key. apply Hk. left. reflexivity.
  - intros t' Ht'. apply Hk. right. exact Ht'.
Qed.

Lemma NoDup_app_disjoint {A : Type} (l1 l2 : list A) (a : A) :
  NoDup (l1 ++ l2) -> In a l1 -> ~ In a l2.
Proof.
  induction l1 as [| x l1 IH]; cbn; intros Hnd Hin Hin2; [destruct Hin |].
  inversion Hnd as [| ? ? Hx Hl]; subst.
  destruct Hin as [-> | Hin].
  - apply Hx. apply in_or_app. right. exact Hin2.
  - exact (IH Hl Hin Hin2).
Qed.

Lemma keys_disjoint (before after : list TableRead) (t : TableRead) (k : string) :
  NoDup (List.concat (map keys_of (before ++ t :: after))) ->
  In k (keys_of t) ->
  forall t', In t' (before ++ after) -> ~ In k (keys_of t').
Proof.
  rewrite map_app, concat_app. cbn [map List.concat]. intros Hnd Hk t' Ht' Hk'.
  apply in_app_or in Ht' as [Ht' | Ht'].
  - apply (NoDup_app_disjoint _ _ k Hnd).
    + apply in_concat. exists (keys_of t').
      split; [apply in_map; exact Ht' | exact Hk'].
    + apply in_or_app. left. exact Hk.
  - apply NoDup_app_remove_l in Hnd.
    apply (NoDup_app_disjoint _ _ k Hnd Hk).
    apply in_concat. exists (keys_of t').
    split; [apply in_map; exact Ht' | exact Hk'].
Qed.

(** When no two tables would write the same key, the backup holds for each
    table exactly what could be read of it: its rows under its name if the
    SELECT succeeded, its schema under [name_schema] if the inspector
    answered as well, and neither key if the SELECT raised. A table that
    cannot be read is passed over: the backup is the one the other tables
    give. *)
Theorem backup_holds_what_was_read (tables : list TableRead) :
  (forall t : TableRead,
      NoDup (List.concat (map keys_of tables)) ->
      In t tables ->
      dict_get (backup_data tables) (table_name t)
      = option_map Rows (select_all t)
      /\ dict_get (backup_data tables) (table_name t ++ "_schema")%string
         = match select_all t, get_columns t with
           | Some _, Some columns => Some (Schema (map schema_of columns))
           | _, _ => None
           end)
  /\ (forall (before after : list TableRead) (t : TableRead),
         tables = before ++ t :: after ->
         select_all t = None ->
         backup_data tables = backup_data (before ++ after)).
Proof.
  split.
  - intros t Hnd Hin.
    apply in_split in Hin as [before [after ->]].
    unfold backup_data. rewrite fold_left_app. cbn [fold_left].
    assert (Hnames : table_name t <> (table_name t ++ "_schema")%string).
    { rewrite map_app, concat_app in Hnd. cbn [map List.concat] in Hnd.
      apply NoDup_app_remove_l in Hnd. cbn in Hnd.
      inversion Hnd as [| ? ? Hfresh _]; subst.
      intro H. apply Hfresh. left. symmetry. exact H. }
    assert (Hclean : forall k, In k (keys_of t) ->
               dict_get (fold_left backup_table before []) k = None
               /\ forall acc, dict_get (fold_left backup_table after acc) k
                              = dict_get acc k).
    { intros k Hk. split.
      - rewrite fold_backup_other_key; [reflexivity |].
        intros t' Ht'. apply (keys_disjoint before after t k Hnd Hk).
        apply in_or_app. left. exact Ht'.
      - intro acc. apply fold_backup_other_key.
        intros t' Ht'. apply (keys_disjoint before after t k Hnd Hk).
        apply in_or_app. right. exact Ht'. }
    destruct (Hclean (table_name t) (or_introl eq_refl)) as [Hb1 Ha1].
    destruct (Hclean (table_name t ++ "_schema")%string
                (or_intror (or_introl eq_refl))) as [Hb2 Ha2].
    rewrite Ha1, Ha2. unfold backup_table.
    destruct (select_all t) as [rows |]; cbn [option_map].
    + destruct (get_columns t) as [columns |].
      * rewrite dict_get_set_same.
        rewrite dict_get_set_other, dict_get_set_same; auto.
      * rewrite dict_get_set_same.
        rewrite dict_get_set_other; auto.
    + auto.
  - intros before after t -> Hfail. unfold backup_data.
    rewrite !fold_left_app. cbn [fold_left].
    unfold backup_table at 2. rewrite Hfail. reflexivity.
Qed.

End Backup.

(** ** The further properties at the sample data *)

Lemma reactions_count_each_user_once_witness :
  NoDup (map Reaction.id [Reaction.with_id 1 Sample.reaction_on_post])
  /\ (forall post : Z,
         NoDup (map Reaction.user_id
                  (Relationship.Post_reactions
                     [Reaction.with_id 1 Sample.reaction_on_post] post)))
  /\ (forall comment : Z,
         NoDup (map Reaction.user_id
                  (Relationship.Comment_reactions
                     [Reaction.with_id 1 Sample.reaction_on_post] comment))).
Proof.
  assert (Hreach : Reaction.reachable [Reaction.with_id 1 Sample.reaction_on_post]).
  { apply (Reaction.reach_insert [] Sample.reaction_on_post);
      [apply Reaction.reach_create | reflexivity]. }
  exact (reactions_count_each_user_once _ Hreach).
Defined.

Lemma poll_votes_count_each_user_once_witness :
  NoDup (map PollVote.id [PollVote.with_id 1 Sample.vote_yes])
  /\ (forall o : PollOption.t,
         NoDup (map PollVote.user_id
                  (Relationship.PollOption_votes
                     [PollVote.with_id 1 Sample.vote_yes] o)))
  /\ (forall (v : PollVote.t) (votes' : list PollVote.t) (o : PollOption.t),
         PollVote.insert [PollVote.with_id 1 Sample.vote_yes] v = Ok votes' ->
         Relationship.PollOption_vote_count votes' o
         = (Relationship.PollOption_vote_count
              [PollVote.with_id 1 Sample.vote_yes] o
            + if Z.eqb (PollVote.option_id v) (PollOption.id o)
              then 1 else 0)%nat).
Proof.
  assert (Hreach : PollVote.reachable [PollVote.with_id 1 Sample.vote_yes]).
  { apply (PollVote.reach_insert [] Sample.vote_yes);
      [apply PollVote.reach_create | reflexivity]. }
  exact (poll_votes_count_each_user_once _ Hreach).
Defined.

Lemma get_settings_get_or_create_witness :
  SystemSettings.get_settings 9 false [SystemSettings.mk 1 false false true 5]
  = Some (SystemSettings.mk 1 false false true 5,
          [SystemSettings.mk 1 false false true 5]).
Proof.
  assert (Hcall : SystemSettings.get_settings 5 true []
                  = Some (SystemSettings.mk 1 false false true 5,
                          [SystemSettings.mk 1 false false true 5]))
    by reflexivity.
  exact (proj2 (proj2 (proj2 (get_settings_get_or_create 5 true [] _ _ Hcall)))
           9 false).
Defined.

Lemma validate_name_agrees_with_unique_slug_witness :
  Forms.validate_name Sample.slugify Sample.channels "Chess Club" = None
  <-> exists table', Channel.insert Sample.channels Sample.chess_club = Ok table'.
Proof.
  assert (Hslug : Channel.slug Sample.chess_club = Sample.slugify "Chess Club")
    by reflexivity.
  exact (proj1 (validate_name_agrees_with_unique_slug Sample.slugify
                  Sample.channels "Chess Club" Sample.chess_club Hslug)).
Defined.

Lemma world_after_register_reachable :
  App.reachable (werkzeug := Sample.werkzeug) Sample.world_after_register.
Proof.
  apply (App.reach_step App.initial); [apply App.reach_initial |].
  apply App.step_register.
Defined.

Lemma reachable_keys_distinct_witness :
  NoDup (map User.id (App.users (App.db Sample.world_after_register)))
  /\ NoDup (map User.email (App.users (App.db Sample.world_after_register)))
  /\ NoDup (map User.username (App.users (App.db Sample.world_after_register)))
  /\ NoDup (map PasswordReset.id
              (App.password_resets (App.db Sample.world_after_register))).
Proof.
  exact (reachable_keys_distinct (werkzeug := Sample.werkzeug)
           Sample.world_after_register world_after_register_reachable).
Defined.

Lemma world_after_issue_reachable :
  App.reachable (werkzeug := Sample.werkzeug) Sample.world_after_issue.
Proof.
  apply (App.reach_step
           (fst (App.logout Sample.world_after_register))).
  - apply (App.reach_step Sample.world_after_register).
    + exact world_after_register_reachable.
    + apply App.step_logout.
  - apply App.step_login.
Defined.

Lemma reachable_codes_never_mailed_witness :
  App.password_resets (App.db Sample.world_after_issue)
  = [PasswordReset.mk 1 "b@x.com" "470369" 120000000 false]
  /\ App.outbox Sample.world_after_issue = []
  /\ App.login_email (App.session Sample.world_after_issue) = None
  /\ App.verify_login Sample.env_later Sample.verify_issued_code
       Sample.world_after_issue
     = (Sample.world_after_issue,
        App.mkResponse ["Please start the login process again"]
          (App.redirect "login")).
Proof.
  split; [reflexivity |].
  split; [| split].
  - exact (proj1 (proj2 (reachable_codes_never_mailed
                           (werkzeug := Sample.werkzeug)
                           Sample.world_after_issue
                           world_after_issue_reachable))).
  - exact (proj1 (proj2 (proj2 (reachable_codes_never_mailed
                                  (werkzeug := Sample.werkzeug)
                                  Sample.world_after_issue
                                  world_after_issue_reachable)))).
  - exact (proj2 (proj2 (proj2 (reachable_codes_never_mailed
                                  (werkzeug := Sample.werkzeug)
                                  Sample.world_after_issue
                                  world_after_issue_reachable)))
             Sample.env_later Sample.verify_issued_code).
Defined.

Lemma reachable_session_authenticated_witness :
  App.is_authenticated Sample.world_after_register = true
  <-> App.session_user_id (App.session Sample.world_after_register) <> None.
Proof.
  exact (proj1 (proj2 (reachable_session_authenticated
                         (werkzeug := Sample.werkzeug)
                         Sample.world_after_register
                         world_after_register_reachable))).
Defined.

Lemma issued_code_cannot_be_redeemed_witness :
  App.verify_login Sample.env_later Sample.verify_issued_code
    (fst (App.login (werkzeug := Sample.werkzeug) Sample.env_mail
            Sample.request_code Sample.fresh_world))
  = (fst (App.login (werkzeug := Sample.werkzeug) Sample.env_mail
            Sample.request_code Sample.fresh_world),
     App.mkResponse ["Please start the login process again"]
       (App.redirect "login")).
Proof.
  assert (Ha : App.anonymous Sample.fresh_world) by reflexivity.
  assert (Hl : App.login_email (App.session Sample.fresh_world) = None)
    by reflexivity.
  assert (Hs : App.submitted Sample.request_code) by (split; reflexivity).
  assert (Hemail : App.field Sample.request_code "email" "a@x.com")
    by (split; [reflexivity | discriminate]).
  assert (Htype : App.form_get_default (App.form Sample.request_code)
                    "login_type" "password" <> "password") by discriminate.
  assert (Huser : App.User_filter_by_email (App.db Sample.fresh_world)
                    "a@x.com" = Some Sample.alice) by reflexivity.
  assert (Hcommit : App.commit_ok Sample.env_mail = true) by reflexivity.
  exact (proj2 (proj2 (proj2 (proj2
           (issued_code_cannot_be_redeemed (werkzeug := Sample.werkzeug)
              Sample.env_mail Sample.env_later Sample.request_code
              Sample.verify_issued_code Sample.fresh_world "a@x.com"
              Sample.alice Ha Hl Hs Hemail Htype Huser Hcommit))))).
Defined.

Lemma registered_account_logs_in_again_witness :
  App.login (werkzeug := Sample.werkzeug) Sample.env_later Sample.login_bob
    (fst (App.logout
            (fst (App.register (werkzeug := Sample.werkzeug) Sample.env
                    Sample.register_bob Sample.fresh_world))))
  = (fst (App.register (werkzeug := Sample.werkzeug) Sample.env
            Sample.register_bob Sample.fresh_world),
     App.mkResponse [] (App.redirect "dashboard")).
Proof.
  assert (Ha : App.anonymous Sample.fresh_world) by reflexivity.
  assert (Hs : App.submitted Sample.register_bob) by (split; reflexivity).
  assert (He : App.field Sample.register_bob "email" "b@x.com")
    by (split; [reflexivity | discriminate]).
  assert (Hn : App.field Sample.register_bob "username" "bob")
    by (split; [reflexivity | discriminate]).
  assert (Hp : App.field Sample.register_bob "password" "12345678")
    by (split; [reflexivity | discriminate]).
  assert (Hfree_e : forall u, In u (App.users (App.db Sample.fresh_world)) ->
                              User.email u <> "b@x.com")
    by (intros u [<- | []]; discriminate).
  assert (Hfree_n : forall u, In u (App.users (App.db Sample.fresh_world)) ->
                              User.username u <> "bob")
    by (intros u [<- | []]; discriminate).
  assert (Hcommit : App.commit_ok Sample.env = true) by reflexivity.
  assert (Hhash : App.generate_password_hash (Werkzeug := Sample.werkzeug)
                    (App.salt Sample.env) "12345678" <> "") by discriminate.
  assert (Hcheck : App.check_password_hash (Werkzeug := Sample.werkzeug)
                     (App.generate_password_hash (Werkzeug := Sample.werkzeug)
                        (App.salt Sample.env) "12345678") "12345678" = true)
    by reflexivity.
  assert (Hs2 : App.submitted Sample.login_bob) by (split; reflexivity).
  assert (He2 : App.field Sample.login_bob "email" "b@x.com")
    by (split; [reflexivity | discriminate]).
  assert (Hp2 : App.field Sample.login_bob "password" "12345678")
    by (split; [reflexivity | discriminate]).
  assert (Htype : App.form_get_default (App.form Sample.login_bob)
                    "login_type" "password" = "password") by reflexivity.
  exact (proj2 (proj2
           (registered_account_logs_in_again (werkzeug := Sample.werkzeug)
              Sample.env Sample.env_later Sample.register_bob Sample.login_bob
              Sample.fresh_world "b@x.com" "bob" "12345678"
              Ha Hs He Hn Hp Hfree_e Hfree_n Hcommit Hhash Hcheck
              Hs2 He2 Hp2 Htype))).
Defined.

Lemma unsubmitted_requests_change_nothing_witness :
  fst (App.login (werkzeug := Sample.werkzeug) Sample.env Sample.get_page
         Sample.awaiting_world) = Sample.awaiting_world
  /\ fst (App.verify_login Sample.env Sample.get_page Sample.awaiting_world)
     = Sample.awaiting_world
  /\ fst (App.register (werkzeug := Sample.werkzeug) Sample.env Sample.get_page
            Sample.awaiting_world) = Sample.awaiting_world.
Proof.
  assert (H : App.validate_on_submit Sample.get_page = false) by reflexivity.
  exact (unsubmitted_requests_change_nothing (werkzeug := Sample.werkzeug)
           Sample.env Sample.get_page Sample.awaiting_world H).
Defined.

Lemma verify_login_consumes_one_code_witness :
  S (App.unused_count
       (App.db (fst (App.verify_login Sample.env Sample.verify_older_code
                       Sample.awaiting_world))))
  = App.unused_count (App.db Sample.awaiting_world).
Proof.
  assert (Hnd : NoDup (map PasswordReset.id
                         (App.password_resets (App.db Sample.awaiting_world)))).
  { repeat constructor; cbn; intuition discriminate. }
  assert (Ha : App.anonymous Sample.awaiting_world) by reflexivity.
  assert (Hbody : App.body (snd (App.verify_login Sample.env
                                   Sample.verify_older_code
                                   Sample.awaiting_world))
                  = App.redirect "dashboard") by reflexivity.
  exact (proj1 (proj2 (proj2 (proj2
           (verify_login_consumes_one_code Sample.env Sample.verify_older_code
              Sample.awaiting_world Hnd)))) Ha Hbody).
Defined.

Lemma login_only_appends_witness :
  App.db (fst (App.login (werkzeug := Sample.werkzeug) Sample.env
                 Sample.login_right_password Sample.fresh_world))
  = App.db Sample.fresh_world
  /\ App.outbox (fst (App.login (werkzeug := Sample.werkzeug) Sample.env
                        Sample.login_right_password Sample.fresh_world))
     = App.outbox Sample.fresh_world.
Proof.
  assert (Htype : App.form_get_default (App.form Sample.login_right_password)
                    "login_type" "password" = "password") by reflexivity.
  exact (proj2 (proj2 (login_only_appends (werkzeug := Sample.werkzeug)
                         Sample.env Sample.login_right_password
                         Sample.fresh_world)) Htype).
Defined.

Lemma rejected_code_stays_rejected_witness :
  App.verify_login Sample.env_later Sample.verify_wrong_code
    Sample.awaiting_world
  = (Sample.awaiting_world,
     App.mkResponse ["Invalid or expired verification code"]
       (App.render_template "verify_login.html")).
Proof.
  assert (Hw : App.awaiting Sample.awaiting_world "a@x.com")
    by (repeat split; discriminate).
  assert (Hs : App.submitted Sample.verify_wrong_code) by (split; reflexivity).
  assert (Hcode : App.field Sample.verify_wrong_code "code" "000000")
    by (split; [reflexivity | discriminate]).
  assert (Htime : App.utcnow Sample.env <= App.utcnow Sample.env_later)
    by (vm_compute; discriminate).
  assert (Hflash : App.flashed
                     (snd (App.verify_login Sample.env Sample.verify_wrong_code
                             Sample.awaiting_world))
                   = ["Invalid or expired verification code"]) by reflexivity.
  exact (rejected_code_stays_rejected Sample.env Sample.env_later
           Sample.verify_wrong_code Sample.awaiting_world "a@x.com" "000000"
           Hw Hs Hcode Htime Hflash).
Defined.

Lemma RegistrationForm_validate_iff_witness :
  Forms.RegistrationForm_validate (fun _ => true) Sample.register_accents
  = false.
Proof.
  assert (Hlen : len (Forms.reg_username Sample.register_accents) = 2)
    by reflexivity.
  destruct (Forms.RegistrationForm_validate (fun _ => true)
              Sample.register_accents) eqn:E; [| reflexivity].
  apply (RegistrationForm_validate_iff (fun _ => true) Sample.register_accents)
    in E.
  destruct E as [[_ Hshort] _]. rewrite Hlen in Hshort. lia.
Defined.

Lemma PointsAllocationForm_validate_iff_witness :
  In ("amount", ["This field is required."])
    (Forms.PointsAllocationForm_errors Sample.zero_points)
  /\ Forms.PointsAllocationForm_validate Sample.blank_points = false.
Proof.
  assert (Hzero : Forms.points_amount Sample.zero_points = Some 0)
    by reflexivity.
  assert (Hblank : Forms.strip_truthy
                     (Forms.points_username Sample.blank_points) = false)
    by reflexivity.
  split.
  - exact (proj2 (PointsAllocationForm_validate_iff Sample.zero_points) Hzero).
  - destruct (Forms.PointsAllocationForm_validate Sample.blank_points) eqn:E;
      [| reflexivity].
    apply (proj1 (PointsAllocationForm_validate_iff Sample.blank_points)) in E.
    destruct E as [Hu _]. rewrite Hblank in Hu. discriminate.
Defined.

Lemma ChannelForm_name_valid_iff_witness :
  Forms.ChannelForm_name_errors Sample.slugify Sample.channels
    (" " ++ Sample.no_break_space)%string
  = ["This field is required."].
Proof.
  assert (Hblank : Forms.strip_truthy (" " ++ Sample.no_break_space)%string
                   = false) by reflexivity.
  exact (proj2 (ChannelForm_name_valid_iff Sample.slugify Sample.channels
                  (" " ++ Sample.no_break_space)%string) Hblank).
Defined.

Lemma format_number_digits_witness :
  App.remove_commas (App.format_number (Some 1234567)) = App.str_of_int 1234567
  /\ ((","%char = ","%char -> (3 mod 4 = 3)%nat)
      /\ ((3 mod 4 = 3)%nat -> ","%char = ","%char \/ ","%char = "-"%char)).
Proof.
  assert (Hnth : nth_error
                   (List.rev (list_ascii_of_string
                                (App.format_number (Some 1234567)))) 3
                 = Some ","%char) by reflexivity.
  split.
  - exact (proj1 (proj2 (format_number_digits 1234567))).
  - exact (proj2 (proj2 (proj2 (format_number_digits 1234567)))
             3%nat ","%char Hnth).
Defined.

Lemma backup_holds_what_was_read_witness :
  DbBackup.dict_get (DbBackup.backup_data Sample.tables_read) "posts"
  = Some (DbBackup.Rows [])
  /\ DbBackup.dict_get (DbBackup.backup_data Sample.tables_read) "posts_schema"
     = None.
Proof.
  assert (Hnd : NoDup (List.concat (map DbBackup.keys_of Sample.tables_read))).
  { repeat constructor; cbn; intuition discriminate. }
  assert (Hin : In Sample.posts_read Sample.tables_read)
    by (right; right; left; reflexivity).
  exact (proj1 (backup_holds_what_was_read Sample.tables_read)
           Sample.posts_read Hnd Hin).
Defined.
